(** * Collaborative task board: edit locks, versions, assignment, broadcast

    A shallow embedding of the server of the task board
    (routes/tasks.js, socket/socketHandler.js, models/Activity.js and the
    Task schema) with the properties its specification states about it.

    Conventions of the embedding.
    - The task collection is a finite map from object id to task record;
      the user collection is a list, in the order [User.find] returns it;
      the activity collection is a list, oldest record first.
    - Dates are integers, milliseconds since the epoch; [new Date()] is
      the argument [now] of a handler.
    - A number is an IEEE 754 double.  [order], [version] and the counts
      are copied, compared and incremented, never divided: the embedding
      carries the integer-valued doubles, each written as the integer it
      denotes, and rounds a sum as the double addition does ([plusOne]).
      A number of a request body is the double the JSON parser made of it.
    - Object ids are written as strings of 24 hexadecimal digits and
      compared in lower case, as [ObjectId.toString] prints them.
    - Strings are byte strings; [trim] and [toLowerCase] act on ASCII.
    - A request body is typed: each key carries a value of the type of its
      schema path.  Keys that are no schema path are kept in the body and
      have no effect on a stored record (the schemas are strict).
    - [save()] validates the whole document against its schema before it
      writes; [bulkWrite] and [updateMany] write without validating.  The
      messages the persistence layer words itself (cast and enumeration
      failures) are abbreviated.
    - Paths no handler reads are left out of the records: [createdAt],
      [updatedAt] and [conflictVersions] of a task, [email], [avatar] and
      [password] of a user. *)

From Stdlib Require Import ZArith Lia Ascii String.
From Stdlib Require SpecFloat.
From stdpp Require Import gmap strings list fin_maps pretty sorting.

Local Open Scope Z_scope.
Set Warnings "-register-all".

(** ** Strings as JavaScript uses them *)

Definition is_hex_digit (c : ascii) : bool :=
  let n := nat_of_ascii c in
  ((48 <=? n) && (n <=? 57) || (97 <=? n) && (n <=? 102) ||
   (65 <=? n) && (n <=? 70))%nat.

Definition lower_ascii (c : ascii) : ascii :=
  let n := nat_of_ascii c in
  if ((65 <=? n) && (n <=? 90))%nat then ascii_of_nat (n + 32) else c.

Fixpoint toLowerCase (s : string) : string :=
  match s with
  | EmptyString => EmptyString
  | String c r => String (lower_ascii c) (toLowerCase r)
  end.

Fixpoint all_chars (p : ascii -> bool) (s : string) : bool :=
  match s with
  | EmptyString => true
  | String c r => p c && all_chars p r
  end.

Fixpoint trimStart (s : string) : string :=
  match s with
  | String c r => if Ascii.is_space c then trimStart r else s
  | EmptyString => EmptyString
  end.

Definition trim (s : string) : string :=
  String.rev (trimStart (String.rev (trimStart s))).

(** [s.replace(a, b)] with a one-character pattern: the first occurrence. *)
Fixpoint replace_first (a b : ascii) (s : string) : string :=
  match s with
  | EmptyString => EmptyString
  | String c r => if Ascii.eqb c a then String b r
                  else String c (replace_first a b r)
  end.

Definition str_length (s : string) : Z := Z.of_nat (String.length s).

(** A string is truthy when it is not empty. *)
Definition truthy (s : string) : bool := negb (String.eqb s "").

(** ** Object ids *)

(** Casting a string to an object id: 24 hexadecimal digits, printed back
    in lower case. *)
Definition castObjectId (s : string) : option string :=
  if (String.length s =? 24)%nat && all_chars is_hex_digit s
  then Some (toLowerCase s) else None.

(** ** Numbers *)

(** The distance between the doubles around [n]: a double has 53
    significant bits. *)
Definition ulp (n : Z) : Z := 2 ^ Z.max 0 (Z.log2 (Z.abs n) - 52).

(** The double nearest to the integer [n]; of two doubles equally near,
    the one whose significand is even. *)
Definition roundDouble (n : Z) : Z :=
  let u := ulp n in
  let q := n / u in
  let r := n mod u in
  if 2 * r <? u then q * u
  else if u <? 2 * r then (q + 1) * u
  else if Z.even q then q * u else (q + 1) * u.

(** [n + 1], [n += 1] and [$inc: 1] on a double [n]: the exact sum,
    rounded.  (The sum of a double and 1 never exceeds the largest
    double.) *)
Definition plusOne (n : Z) : Z := roundDouble (n + 1).

(** The integers every one of which is a double, and whose successor is
    exact: [Number.MAX_SAFE_INTEGER] is [2 ^ 53 - 1]. *)
Definition safeInteger (n : Z) : Prop := - 2 ^ 53 <= n < 2 ^ 53.

(** The same sum in the binary64 format of the standard library, for the
    comparison of [plusOne] with it. *)
Definition toFloat (n : Z) : SpecFloat.spec_float :=
  SpecFloat.binary_normalize 53 1024 n 0 false.

Definition ofFloat (f : SpecFloat.spec_float) : option Z :=
  match f with
  | SpecFloat.S754_zero _ => Some 0
  | SpecFloat.S754_finite s m e =>
    Some (SpecFloat.cond_Zopp s
            (if 0 <=? e then Z.pos m * 2 ^ e else Z.pos m / 2 ^ (- e)))
  | _ => None
  end.

Definition binary64PlusOne (n : Z) : option Z :=
  ofFloat (SpecFloat.SFadd 53 1024 (toFloat n) (toFloat 1)).

(** Doubles at the edges of the ranges in which the distance between
    doubles changes, up to the largest double. *)
Definition edges : list Z :=
  [0; 1; -1; 41; 2 ^ 53 - 2; 2 ^ 53 - 1; 2 ^ 53; 2 ^ 53 + 2; 2 ^ 53 + 4;
   2 ^ 54 - 2; 2 ^ 54; 2 ^ 54 + 4; 2 ^ 60; - 2 ^ 53; - 2 ^ 53 - 2;
   - 2 ^ 53 - 4; - 2 ^ 54; - 2 ^ 54 - 4; 2 ^ 1023; 2 ^ 1024 - 2 ^ 971].

(** ** JSON values carried by events and activity details *)

Inductive JValue : Type :=
| JUndefined
| JNull
| JBool (b : bool)
| JNum (n : Z)
| JStr (s : string)
| JArr (l : list JValue)
| JObj (l : list (string * JValue)).

Definition JObject : Type := list (string * JValue).

(** [o[k]] *)
Fixpoint obj_get (k : string) (o : JObject) : JValue :=
  match o with
  | [] => JUndefined
  | (k', v) :: r => if String.eqb k' k then v else obj_get k r
  end.

(** [{...o, k: v}]: an existing key keeps its place and takes the new
    value, a new key goes last. *)
Fixpoint obj_set (k : string) (v : JValue) (o : JObject) : JObject :=
  match o with
  | [] => [(k, v)]
  | (k', v') :: r => if String.eqb k' k then (k', v) :: r
                     else (k', v') :: obj_set k v r
  end.

(** ** The data model *)

Record User : Type := mkUser {
  uid : string;
  username : string;
  isOnline : bool;
  lastSeen : option Z
}.

(** The Task schema.  The key [_id] is the key of the task in the
    collection. *)
Record Task : Type := mkTask {
  title : string;
  description : string;
  status : string;
  priority : string;
  assignedTo : string;
  createdBy : string;
  order : Z;
  isBeingEdited : bool;
  editedBy : option string;
  editStartTime : option Z;
  version : Z;
  lastModifiedBy : option string
}.

(** The Activity schema. *)
Record Activity : Type := mkActivity {
  action : string;
  taskId : option string;
  userId : option string;
  details : JObject;
  a_description : string;
  timestamp : Z
}.

Record Db : Type := mkDb {
  tasks : gmap string Task;
  users : list User;
  activities : list Activity
}.

Definition set_tasks (ts : gmap string Task) (db : Db) : Db :=
  mkDb ts (users db) (activities db).

Definition set_users (us : list User) (db : Db) : Db :=
  mkDb (tasks db) us (activities db).

Definition set_activities (acts : list Activity) (db : Db) : Db :=
  mkDb (tasks db) (users db) acts.

(** [User.findById] *)
Definition findUser (id : string) (us : list User) : option User :=
  List.find (fun u => String.eqb (uid u) id) us.

(** A number that may be [Infinity]. *)
Inductive JsNumber : Type :=
| Infinity
| Finite (n : Z).

(** What a handler answers. *)
Inductive Reply : Type :=
| Message (code : Z) (message : string)
| TaskReply (code : Z) (id : string) (task : Task) (message : string)
| ConflictReply (message : string) (editor : string)
    (currentVersion : option Task)
| SmartAssignReply (id : string) (task : Task) (message : string)
    (assignee : string) (taskCount : JsNumber).

(** ** The edit lock *)

Definition editTimeout : Z := 5 * 60 * 1000.

(** [Number(date)] with [null] read as 0, as in [new Date() - null]. *)
Definition dateValue (d : option Z) : Z := default 0 d.

(** [new Date() - task.editStartTime] *)
Definition lockAge (now : Z) (t : Task) : Z := now - dateValue (editStartTime t).

(** [task.isBeingEdited && task.editedBy &&
     task.editedBy.toString() !== req.user._id.toString()] *)
Definition editedByOther (user : User) (t : Task) : bool :=
  isBeingEdited t &&
  match editedBy t with
  | Some e => negb (String.eqb e (uid user))
  | None => false
  end.

(** The guard shared by [PUT /:id] and [POST /:id/start-edit]. *)
Definition lockConflict (now : Z) (user : User) (t : Task) : bool :=
  editedByOther user t && (lockAge now t <? editTimeout).

Definition editorName (t : Task) (us : list User) : string :=
  match editedBy t with
  | Some e => match findUser e us with
              | Some u => username u
              | None => "Unknown user"
              end
  | None => "Unknown user"
  end.

Definition lockTask (now : Z) (user : User) (t : Task) : Task :=
  mkTask (title t) (description t) (status t) (priority t) (assignedTo t)
    (createdBy t) (order t) true (Some (uid user)) (Some now) (version t)
    (lastModifiedBy t).

Definition unlockTask (t : Task) : Task :=
  mkTask (title t) (description t) (status t) (priority t) (assignedTo t)
    (createdBy t) (order t) false None None (version t) (lastModifiedBy t).

(** ** Schema validation, run by every [save()] *)

Definition includes (s : string) (l : list string) : bool :=
  existsb (String.eqb s) l.

Definition forbiddenNames : list string :=
  ["todo"; "in progress"; "done"; "to do"; "in-progress"].

Definition statusEnum : list string := ["todo"; "in-progress"; "done"].

Definition priorityEnum : list string := ["low"; "medium"; "high"].

(** The validators of the Task schema; [None] when the document passes,
    otherwise the message of the first failing path. *)
Definition validateTask (t : Task) : option string :=
  if negb (truthy (title t)) then Some "Task title is required"
  else if 100 <? str_length (title t)
  then Some "Title cannot exceed 100 characters"
  else if includes (toLowerCase (title t)) forbiddenNames
  then Some "Task title cannot be a column name (Todo, In Progress, Done)"
  else if 500 <? str_length (description t)
  then Some "Description cannot exceed 500 characters"
  else if negb (includes (status t) statusEnum)
  then Some "status is not a valid enum value"
  else if negb (includes (priority t) priorityEnum)
  then Some "priority is not a valid enum value"
  else None.

(** [Task.findOne({ title, _id: { $ne: except } })], as a test. *)
Definition findByTitle (ttl : string) (except : option string)
    (ts : gmap string Task) : bool :=
  bool_decide (map_Exists (fun k t => title t = ttl /\ Some k <> except) ts).

Inductive SaveError : Type :=
| ValidationError (message : string)
| DuplicateKey.

(** [task.save()] of a document read from the collection: validation, then
    the write, which the unique index on [title] refuses when the title
    changed to one another task has. *)
Definition saveTask (k : string) (prior t : Task) (ts : gmap string Task)
  : SaveError + gmap string Task :=
  match validateTask t with
  | Some m => inl (ValidationError m)
  | None =>
    if negb (String.eqb (title prior) (title t)) &&
       findByTitle (title t) (Some k) ts
    then inl DuplicateKey
    else inr (<[k := t]> ts)
  end.

(** [task.save()] of a new document. *)
Definition insertTask (k : string) (t : Task) (ts : gmap string Task)
  : SaveError + gmap string Task :=
  match validateTask t with
  | Some m => inl (ValidationError m)
  | None =>
    match ts !! k with
    | Some _ => inl DuplicateKey
    | None => if findByTitle (title t) None ts then inl DuplicateKey
              else inr (<[k := t]> ts)
    end
  end.

(** ** The activity log *)

Definition actionEnum : list string :=
  ["create"; "update"; "delete"; "assign"; "move"; "status_change";
   "smart_assign"].

Definition detailsPaths : list string :=
  ["field"; "oldValue"; "newValue"; "previousStatus"; "newStatus";
   "previousAssignee"; "newAssignee"].

(** [new Activity({...})]: the strict schema drops the keys of [details]
    it does not declare; [timestamp] defaults to the current time. *)
Definition newActivity (now : Z) (act : string) (tid uid' : option string)
    (det : JObject) (descr : string) : Activity :=
  mkActivity act tid uid'
    (List.filter (fun kv => includes (fst kv) detailsPaths) det) descr now.

Definition is_some {A} (o : option A) : bool :=
  match o with Some _ => true | None => false end.

(** The validators of the Activity schema: four required paths and the
    enumeration of [action]. *)
Definition validateActivity (a : Activity) : bool :=
  truthy (action a) && includes (action a) actionEnum &&
  is_some (taskId a) && is_some (userId a) && truthy (a_description a).

(** [logActivity]: a failing [save()] is caught and reported on the
    console; the helper then returns [undefined]. *)
Definition logActivity (now : Z) (act : string) (tid uid' : option string)
    (det : JObject) (descr : string) (db : Db) : Db * option Activity :=
  let activity := newActivity now act tid uid' det descr in
  if validateActivity activity
  then (set_activities (activities db ++ [activity]) db, Some activity)
  else (db, None).

Definition dquote : string := String (ascii_of_nat 34) EmptyString.

Definition quoted (s : string) : string := dquote +:+ s +:+ dquote.

(** ** Creating a task *)

Record CreateBody : Type := mkCreateBody {
  c_title : option string;
  c_description : option string;
  c_assignedTo : option string;
  c_priority : option string
}.

(** [Task.findOne({ status: 'todo' }).sort({ order: -1 })], its [order]. *)
Definition lastTodoOrder (ts : gmap string Task) : option Z :=
  map_fold (fun _ t acc =>
              if String.eqb (status t) "todo"
              then Some (match acc with
                         | Some m => Z.max m (order t)
                         | None => order t
                         end)
              else acc) None ts.

(** [router.post('/')]; [newId] is the object id the new document gets. *)
Definition createTask (now : Z) (user : User) (newId : string)
    (body : CreateBody) (db : Db) : Db * Reply :=
  match c_title body, c_assignedTo body with
  | Some ttl, Some asg =>
    if negb (truthy ttl) || negb (truthy asg)
    then (db, Message 400 "Title and assigned user are required")
    else if findByTitle (trim ttl) None (tasks db)
    then (db, Message 400 "Task title must be unique")
    else
      match castObjectId asg with
      | None => (db, Message 500 "Server error")
      | Some a =>
        match findUser a (users db) with
        | None => (db, Message 400 "Assigned user not found")
        | Some _ =>
          let ord := match lastTodoOrder (tasks db) with
                     | Some o => plusOne o
                     | None => 0
                     end in
          let task :=
            mkTask (trim ttl)
              (match c_description body with
               | Some d => trim d
               | None => ""
               end)
              "todo" (default "medium" (c_priority body)) a (uid user) ord
              false None None 1 (Some (uid user)) in
          match insertTask newId task (tasks db) with
          | inl (ValidationError m) => (db, Message 400 m)
          | inl DuplicateKey => (db, Message 400 "Task title must be unique")
          | inr ts =>
            let (db', _) :=
              logActivity now "create" (Some newId) (Some (uid user))
                [("assignedTo", JStr asg)]
                (username user +:+ " created task " +:+ quoted (title task))
                (set_tasks ts db) in
            (db', TaskReply 201 newId task "Task created successfully")
          end
        end
      end
  | _, _ => (db, Message 400 "Title and assigned user are required")
  end.

(** ** Updating a task *)

(** One entry of the body of [PUT /:id], at the type of its schema path.
    [F_other] stands for every other key: [_id], [createdAt], [updatedAt]
    and the keys the schema does not declare. *)
Inductive Field : Type :=
| F_title (v : string)
| F_description (v : string)
| F_status (v : string)
| F_priority (v : string)
| F_assignedTo (v : string)
| F_createdBy (v : string)
| F_order (v : Z)
| F_isBeingEdited (v : bool)
| F_editedBy (v : option string)
| F_editStartTime (v : option Z)
| F_version (v : Z)
| F_lastModifiedBy (v : option string)
| F_other (key : string) (v : JValue).

Definition fieldKey (f : Field) : string :=
  match f with
  | F_title _ => "title"
  | F_description _ => "description"
  | F_status _ => "status"
  | F_priority _ => "priority"
  | F_assignedTo _ => "assignedTo"
  | F_createdBy _ => "createdBy"
  | F_order _ => "order"
  | F_isBeingEdited _ => "isBeingEdited"
  | F_editedBy _ => "editedBy"
  | F_editStartTime _ => "editStartTime"
  | F_version _ => "version"
  | F_lastModifiedBy _ => "lastModifiedBy"
  | F_other k _ => k
  end.

(** [updates[key]] for a typed key: the body is read in key order and a
    later entry of the same key takes over. *)
Fixpoint lastOf {A} (sel : Field -> option A) (updates : list Field)
  : option A :=
  match updates with
  | [] => None
  | f :: r => match lastOf sel r with
              | Some v => Some v
              | None => sel f
              end
  end.

Definition selTitle (f : Field) : option string :=
  match f with F_title v => Some v | _ => None end.

(** [updates.title] *)
Definition bodyTitle (updates : list Field) : option string :=
  lastOf selTitle updates.

(** Whether the body has the key. *)
Definition named (key : string) (updates : list Field) : bool :=
  existsb (fun f => String.eqb (fieldKey f) key) updates.

(** Casting a nullable object id. *)
Definition castRef (v : option string) : option (option string) :=
  match v with
  | None => Some None
  | Some s => match castObjectId s with
              | Some i => Some (Some i)
              | None => None
              end
  end.

(** [task[key] = updates[key]] on a document: the value is cast to the
    type of the path, and a value that cannot be cast fails the next
    [save()]; [None] records that failure. *)
Definition assignField (t : Task) (f : Field) : option Task :=
  match f with
  | F_title v =>
    Some (mkTask (trim v) (description t) (status t) (priority t)
            (assignedTo t) (createdBy t) (order t) (isBeingEdited t)
            (editedBy t) (editStartTime t) (version t) (lastModifiedBy t))
  | F_description v =>
    Some (mkTask (title t) (trim v) (status t) (priority t)
            (assignedTo t) (createdBy t) (order t) (isBeingEdited t)
            (editedBy t) (editStartTime t) (version t) (lastModifiedBy t))
  | F_status v =>
    Some (mkTask (title t) (description t) v (priority t)
            (assignedTo t) (createdBy t) (order t) (isBeingEdited t)
            (editedBy t) (editStartTime t) (version t) (lastModifiedBy t))
  | F_priority v =>
    Some (mkTask (title t) (description t) (status t) v
            (assignedTo t) (createdBy t) (order t) (isBeingEdited t)
            (editedBy t) (editStartTime t) (version t) (lastModifiedBy t))
  | F_assignedTo v =>
    i ← castObjectId v;
    Some (mkTask (title t) (description t) (status t) (priority t)
            i (createdBy t) (order t) (isBeingEdited t)
            (editedBy t) (editStartTime t) (version t) (lastModifiedBy t))
  | F_createdBy v =>
    i ← castObjectId v;
    Some (mkTask (title t) (description t) (status t) (priority t)
            (assignedTo t) i (order t) (isBeingEdited t)
            (editedBy t) (editStartTime t) (version t) (lastModifiedBy t))
  | F_order v =>
    Some (mkTask (title t) (description t) (status t) (priority t)
            (assignedTo t) (createdBy t) v (isBeingEdited t)
            (editedBy t) (editStartTime t) (version t) (lastModifiedBy t))
  | F_isBeingEdited v =>
    Some (mkTask (title t) (description t) (status t) (priority t)
            (assignedTo t) (createdBy t) (order t) v
            (editedBy t) (editStartTime t) (version t) (lastModifiedBy t))
  | F_editedBy v =>
    i ← castRef v;
    Some (mkTask (title t) (description t) (status t) (priority t)
            (assignedTo t) (createdBy t) (order t) (isBeingEdited t)
            i (editStartTime t) (version t) (lastModifiedBy t))
  | F_editStartTime v =>
    Some (mkTask (title t) (description t) (status t) (priority t)
            (assignedTo t) (createdBy t) (order t) (isBeingEdited t)
            (editedBy t) v (version t) (lastModifiedBy t))
  | F_version v =>
    Some (mkTask (title t) (description t) (status t) (priority t)
            (assignedTo t) (createdBy t) (order t) (isBeingEdited t)
            (editedBy t) (editStartTime t) v (lastModifiedBy t))
  | F_lastModifiedBy v =>
    i ← castRef v;
    Some (mkTask (title t) (description t) (status t) (priority t)
            (assignedTo t) (createdBy t) (order t) (isBeingEdited t)
            (editedBy t) (editStartTime t) (version t) i)
  | F_other _ _ => Some t
  end.

(** [key !== '_id' && key !== 'createdAt' && key !== 'updatedAt'] *)
Definition assignable (key : string) : bool :=
  negb (String.eqb key "_id") && negb (String.eqb key "createdAt") &&
  negb (String.eqb key "updatedAt").

(** [Object.keys(updates).forEach(key => ...)] *)
Fixpoint applyUpdates (t : Task) (updates : list Field) : option Task :=
  match updates with
  | [] => Some t
  | f :: r =>
    if assignable (fieldKey f)
    then t' ← assignField t f; applyUpdates t' r
    else applyUpdates t r
  end.

(** The five assignments after the loop. *)
Definition finishUpdate (user : User) (t : Task) : Task :=
  mkTask (title t) (description t) (status t) (priority t) (assignedTo t)
    (createdBy t) (order t) false None None (plusOne (version t))
    (Some (uid user)).

Definition userNameOr (id : string) (us : list User) : string :=
  match castObjectId id with
  | Some i => match findUser i us with
              | Some u => username u
              | None => "Unknown"
              end
  | None => "Unknown"
  end.

Definition changeDetails (field old new : string) : JObject :=
  [("field", JStr field); ("oldValue", JStr old); ("newValue", JStr new)].

(** One turn of the loop over [Object.entries(updates)] that logs the
    changed fields; [prev] holds [previousValues]. *)
Definition logField (now : Z) (user : User) (k : string) (prev : Task)
    (f : Field) (db : Db) : Db :=
  let u := username user in
  let log act det descr :=
    fst (logActivity now act (Some k) (Some (uid user)) det descr db) in
  match f with
  | F_title v =>
    if String.eqb (title prev) v then db
    else log "update" (changeDetails "title" (title prev) v)
           (u +:+ " changed title from " +:+ quoted (title prev) +:+
            " to " +:+ quoted v)
  | F_description v =>
    if String.eqb (description prev) v then db
    else log "update" (changeDetails "description" (description prev) v)
           (u +:+ " updated description")
  | F_status v =>
    if String.eqb (status prev) v then db
    else log "move"
           (changeDetails "status" (status prev) v ++
            [("previousStatus", JStr (status prev)); ("newStatus", JStr v)])
           (u +:+ " moved task to " +:+ replace_first "-" " " v)
  | F_priority v =>
    if String.eqb (priority prev) v then db
    else log "update" (changeDetails "priority" (priority prev) v)
           (u +:+ " changed priority to " +:+ v)
  | F_assignedTo v =>
    if String.eqb (assignedTo prev) v then db
    else log "assign"
           (changeDetails "assignedTo" (assignedTo prev) v ++
            [("previousAssignee", JStr (assignedTo prev));
             ("newAssignee", JStr v)])
           (u +:+ " reassigned task from " +:+
            userNameOr (assignedTo prev) (users db) +:+ " to " +:+
            userNameOr v (users db))
  | _ => db
  end.

Definition logChanges (now : Z) (user : User) (k : string) (prev : Task)
    (updates : list Field) (db : Db) : Db :=
  foldl (fun d f => logField now user k prev f d) db updates.

(** [router.put('/:id')] *)
Definition updateTask (now : Z) (user : User) (id : string)
    (updates : list Field) (db : Db) : Db * Reply :=
  match castObjectId id with
  | None => (db, Message 400 "Invalid task ID")
  | Some k =>
    match tasks db !! k with
    | None => (db, Message 404 "Task not found")
    | Some task =>
      if lockConflict now user task
      then (db, ConflictReply "Task is being edited by another user"
                  (editorName task (users db)) (Some task))
      else if match bodyTitle updates with
              | Some v => truthy v && negb (String.eqb v (title task)) &&
                          findByTitle (trim v) (Some k) (tasks db)
              | None => false
              end
      then (db, Message 400 "Task title must be unique")
      else
        match applyUpdates task updates with
        | None => (db, Message 400 "Cast failed")
        | Some assigned =>
          let task' := finishUpdate user assigned in
          match saveTask k task task' (tasks db) with
          | inl (ValidationError m) => (db, Message 400 m)
          | inl DuplicateKey => (db, Message 400 "Task title must be unique")
          | inr ts =>
            (logChanges now user k task updates (set_tasks ts db),
             TaskReply 200 k task' "Task updated successfully")
          end
        end
    end
  end.

(** ** Deleting a task *)

(** [router.delete('/:id')] *)
Definition deleteTask (now : Z) (user : User) (id : string) (db : Db)
  : Db * Reply :=
  match castObjectId id with
  | None => (db, Message 400 "Invalid task ID")
  | Some k =>
    match tasks db !! k with
    | None => (db, Message 404 "Task not found")
    | Some task =>
      if negb (String.eqb (createdBy task) (uid user)) &&
         negb (String.eqb (assignedTo task) (uid user))
      then (db, Message 403 "Not authorized to delete this task")
      else
        let (db', _) :=
          logActivity now "delete" (Some k) (Some (uid user))
            [("title", JStr (title task))]
            (username user +:+ " deleted task " +:+ quoted (title task))
            (set_tasks (delete k (tasks db)) db) in
        (db', Message 200 "Task deleted successfully")
    end
  end.

(** ** Smart assignment *)

(** [status: { $in: ['todo', 'in-progress'] }] *)
Definition isActive (t : Task) : bool :=
  includes (status t) ["todo"; "in-progress"].

(** [getTaskCounts]: the aggregation groups the active tasks by assignee
    and counts each group. *)
Definition getTaskCounts (ts : gmap string Task) : gmap string Z :=
  map_fold (fun _ t acc =>
              if isActive t
              then <[assignedTo t := default 0 (acc !! assignedTo t) + 1]> acc
              else acc) ∅ ts.

(** [userTaskCount < minTasks] *)
Definition belowMin (c : Z) (minTasks : JsNumber) : bool :=
  match minTasks with
  | Infinity => true
  | Finite m => c <? m
  end.

(** [taskCounts[user._id.toString()] || 0] *)
Definition userTaskCount (taskCounts : gmap string Z) (user : User) : Z :=
  default 0 (taskCounts !! uid user).

(** The body of [users.forEach] in the smart-assign route, on the pair
    [(minTasks, selectedUser)]. *)
Definition considerUser (taskCounts : gmap string Z)
    (st : JsNumber * option User) (user : User) : JsNumber * option User :=
  if belowMin (userTaskCount taskCounts user) (fst st)
  then (Finite (userTaskCount taskCounts user), Some user)
  else st.

Definition selectAssignee (candidates : list User)
    (taskCounts : gmap string Z) : JsNumber * option User :=
  foldl (considerUser taskCounts) (Infinity, None) candidates.

Definition showNumber (n : JsNumber) : string :=
  match n with
  | Infinity => "Infinity"
  | Finite z => pretty z
  end.

Definition numberValue (n : JsNumber) : JValue :=
  match n with
  | Infinity => JNull
  | Finite z => JNum z
  end.

Definition reassign (user : User) (selected : User) (t : Task) : Task :=
  mkTask (title t) (description t) (status t) (priority t) (uid selected)
    (createdBy t) (order t) (isBeingEdited t) (editedBy t)
    (editStartTime t) (plusOne (version t)) (Some (uid user)).

(** [router.post('/:id/smart-assign')] *)
Definition smartAssign (now : Z) (user : User) (id : string) (db : Db)
  : Db * Reply :=
  match castObjectId id with
  | None => (db, Message 400 "Invalid task ID")
  | Some k =>
    match tasks db !! k with
    | None => (db, Message 404 "Task not found")
    | Some task =>
      match selectAssignee (users db) (getTaskCounts (tasks db)) with
      | (_, None) => (db, Message 400 "No users available for assignment")
      | (minTasks, Some selectedUser) =>
        let task' := reassign user selectedUser task in
        match saveTask k task task' (tasks db) with
        | inl _ => (db, Message 500 "Server error")
        | inr ts =>
          let (db', _) :=
            logActivity now "smart_assign" (Some k) (Some (uid user))
              [("previousAssignee", JStr (assignedTo task));
               ("newAssignee", JStr (uid selectedUser));
               ("taskCount", numberValue minTasks)]
              (username user +:+ " smart-assigned task to " +:+
               username selectedUser +:+ " (" +:+ showNumber minTasks +:+
               " active tasks)")
              (set_tasks ts db) in
          (db', SmartAssignReply k task'
                  ("Task smart-assigned to " +:+ username selectedUser)
                  (username selectedUser) minTasks)
        end
      end
    end
  end.

(** ** Starting and ending an edit session *)

(** [router.post('/:id/start-edit')] *)
Definition startEdit (now : Z) (user : User) (id : string) (db : Db)
  : Db * Reply :=
  match castObjectId id with
  | None => (db, Message 400 "Invalid task ID")
  | Some k =>
    match tasks db !! k with
    | None => (db, Message 404 "Task not found")
    | Some task =>
      if lockConflict now user task
      then (db, ConflictReply "Task is being edited by another user"
                  (editorName task (users db)) None)
      else
        match saveTask k task (lockTask now user task) (tasks db) with
        | inl _ => (db, Message 500 "Server error")
        | inr ts => (set_tasks ts db, Message 200 "Edit session started")
        end
    end
  end.

(** [task.editedBy && task.editedBy.toString() === req.user._id.toString()] *)
Definition heldBy (user : User) (t : Task) : bool :=
  match editedBy t with
  | Some e => String.eqb e (uid user)
  | None => false
  end.

(** [router.post('/:id/end-edit')] *)
Definition endEdit (user : User) (id : string) (db : Db) : Db * Reply :=
  match castObjectId id with
  | None => (db, Message 400 "Invalid task ID")
  | Some k =>
    match tasks db !! k with
    | None => (db, Message 404 "Task not found")
    | Some task =>
      if heldBy user task
      then
        match saveTask k task (unlockTask task) (tasks db) with
        | inl _ => (db, Message 500 "Server error")
        | inr ts => (set_tasks ts db, Message 200 "Edit session ended")
        end
      else (db, Message 200 "Edit session ended")
    end
  end.

(** ** Reordering *)

Record ReorderEntry : Type := mkReorderEntry {
  r_id : string;
  r_status : string;
  r_order : Z
}.

(** One [updateOne] of the bulk write: [$set] of status, order and
    lastModifiedBy and [$inc] of version on the task the filter finds. *)
Definition reorderOne (user : User) (ts : gmap string Task)
    (op : string * ReorderEntry) : gmap string Task :=
  match ts !! fst op with
  | Some t =>
    <[fst op := mkTask (title t) (description t) (r_status (snd op))
                  (priority t) (assignedTo t) (createdBy t)
                  (r_order (snd op)) (isBeingEdited t) (editedBy t)
                  (editStartTime t) (plusOne (version t))
                  (Some (uid user))]> ts
  | None => ts
  end.

(** The filter of each operation is cast before anything is written. *)
Definition castOps (entries : list ReorderEntry)
  : option (list (string * ReorderEntry)) :=
  mapM (fun e => k ← castObjectId (r_id e); Some (k, e)) entries.

(** [router.post('/reorder')]; the body's [tasks] is [None] when it is not
    an array. *)
Definition reorderTasks (now : Z) (user : User)
    (body : option (list ReorderEntry)) (db : Db) : Db * Reply :=
  match body with
  | None => (db, Message 400 "Tasks must be an array")
  | Some entries =>
    match castOps entries with
    | None => (db, Message 500 "Server error")
    | Some ops =>
      let ts := foldl (reorderOne user) (tasks db) ops in
      let n := Z.of_nat (length entries) in
      let (db', _) :=
        logActivity now "move" None (Some (uid user))
          [("taskCount", JNum n)]
          (username user +:+ " reordered " +:+ pretty n +:+ " tasks")
          (set_tasks ts db) in
      (db', Message 200 "Tasks reordered successfully")
    end
  end.

(** ** The socket server *)

Record Socket : Type := mkSocket {
  socketId : string;
  socketUser : User
}.

(** [socket.userId] *)
Definition socketUserId (s : Socket) : string := uid (socketUser s).

(** Whom an emission goes to: [socket.broadcast.emit], [io.emit],
    [socket.emit]. *)
Inductive Target : Type :=
| Broadcast (sender : string)
| ToAll
| ToSender (sender : string).

Record Emission : Type := mkEmission {
  target : Target;
  event : string;
  payload : JValue
}.

(** The server: the collections, the sockets connected to the namespace,
    and the module-level map [connectedUsers], in insertion order. *)
Record Server : Type := mkServer {
  db : Db;
  sockets : list Socket;
  connectedUsers : list (string * (string * User))
}.

(** The ids of the sockets an emission is delivered to. *)
Definition recipients (socks : list Socket) (t : Target) : list string :=
  match t with
  | Broadcast sender =>
    socketId <$> List.filter (fun s => negb (String.eqb (socketId s) sender)) socks
  | ToAll => socketId <$> socks
  | ToSender sender =>
    socketId <$> List.filter (fun s => String.eqb (socketId s) sender) socks
  end.

(** [delivered socks ems sid]: what the socket [sid] receives. *)
Definition delivered (socks : list Socket) (ems : list Emission)
    (sid : string) : list (string * JValue) :=
  (fun e => (event e, payload e)) <$>
  List.filter (fun e => includes sid (recipients socks (target e))) ems.

(** [Map.prototype.set] and [Map.prototype.delete] *)
Fixpoint map_set {V} (k : string) (v : V) (m : list (string * V))
  : list (string * V) :=
  match m with
  | [] => [(k, v)]
  | (k', v') :: r => if String.eqb k' k then (k', v) :: r
                     else (k', v') :: map_set k v r
  end.

Definition map_delete {V} (k : string) (m : list (string * V))
  : list (string * V) :=
  List.filter (fun kv => negb (String.eqb (fst kv) k)) m.

(** [User.findByIdAndUpdate(id, { isOnline, lastSeen })] *)
Definition setOnline (id : string) (online : bool) (now : Z)
    (us : list User) : list User :=
  (fun u => if String.eqb (uid u) id
            then mkUser (uid u) (username u) online (Some now) else u) <$> us.

Definition userEvent (s : Socket) : JValue :=
  JObj [("userId", JStr (socketUserId s));
        ("username", JStr (username (socketUser s)))].

(** [io.on('connection')]: the part that runs when the socket connects. *)
Definition onConnection (now : Z) (s : Socket) (sv : Server)
  : Server * list Emission :=
  let cu := map_set (socketUserId s) (socketId s, socketUser s)
              (connectedUsers sv) in
  let onlineUsers :=
    (fun kv => JObj [("id", JStr (uid (snd (snd kv))));
                     ("username", JStr (username (snd (snd kv))))]) <$> cu in
  (mkServer
     (set_users (setOnline (socketUserId s) true now (users (db sv))) (db sv))
     (sockets sv ++ [s]) cu,
   [mkEmission (Broadcast (socketId s)) "user_online" (userEvent s);
    mkEmission (ToSender (socketId s)) "online_users" (JArr onlineUsers)]).

(** The client events the server listens to. *)
Inductive ClientEvent : Type :=
| task_created | task_updated | task_deleted | task_moved
| task_assigned | task_smart_assigned | tasks_reordered | new_activity
| edit_started | edit_ended | conflict_detected | conflict_resolved
| typing_start | typing_stop | cursor_position | ping.

#[global] Instance ClientEvent_eq_dec : EqDecision ClientEvent.
Proof. solve_decision. Defined.

(** The handlers registered with [socket.on]. *)
Definition onEvent (s : Socket) (e : ClientEvent) (data : JObject)
  : list Emission :=
  let others := Broadcast (socketId s) in
  let name := username (socketUser s) in
  match e with
  | task_created => [mkEmission others "task_created" (JObj data)]
  | task_updated => [mkEmission others "task_updated" (JObj data)]
  | task_deleted => [mkEmission others "task_deleted" (JObj data)]
  | task_moved => [mkEmission others "task_moved" (JObj data)]
  | task_assigned => [mkEmission others "task_assigned" (JObj data)]
  | task_smart_assigned =>
    [mkEmission others "task_smart_assigned" (JObj data)]
  | tasks_reordered => [mkEmission others "tasks_reordered" (JObj data)]
  | new_activity => [mkEmission others "new_activity" (JObj data)]
  | edit_started =>
    [mkEmission others "edit_started"
       (JObj (obj_set "editedBy" (JStr name) data))]
  | edit_ended => [mkEmission others "edit_ended" (JObj data)]
  | conflict_detected =>
    [mkEmission ToAll "conflict_detected"
       (JObj (obj_set "conflictUsers"
                (JArr [JStr name; obj_get "otherUser" data]) data))]
  | conflict_resolved => [mkEmission others "conflict_resolved" (JObj data)]
  | typing_start =>
    [mkEmission others "typing_start"
       (JObj [("taskId", obj_get "taskId" data);
              ("userId", JStr (socketUserId s)); ("username", JStr name)])]
  | typing_stop =>
    [mkEmission others "typing_stop"
       (JObj [("taskId", obj_get "taskId" data);
              ("userId", JStr (socketUserId s))])]
  | cursor_position =>
    [mkEmission others "cursor_position"
       (JObj (obj_set "username" (JStr name)
                (obj_set "userId" (JStr (socketUserId s)) data)))]
  | ping => [mkEmission (ToSender (socketId s)) "pong" JUndefined]
  end.

(** [socket.on('disconnect')]: the socket has left the namespace when the
    handler runs. *)
Definition onDisconnect (now : Z) (s : Socket) (sv : Server)
  : Server * list Emission :=
  (mkServer
     (set_users (setOnline (socketUserId s) false now (users (db sv))) (db sv))
     (List.filter (fun s' => negb (String.eqb (socketId s') (socketId s)))
        (sockets sv))
     (map_delete (socketUserId s) (connectedUsers sv)),
   [mkEmission (Broadcast (socketId s)) "user_offline" (userEvent s);
    mkEmission (Broadcast (socketId s)) "edit_ended" (userEvent s)]).

(** ** The periodic cleanup of stale edit sessions *)

Definition staleTimeout : Z := 5 * 60 * 1000.

(** [{ isBeingEdited: true, editStartTime: { $lt: staleTime } }] *)
Definition isStale (staleTime : Z) (t : Task) : bool :=
  isBeingEdited t &&
  match editStartTime t with
  | Some d => d <? staleTime
  | None => false
  end.

Definition expiredEvent (k : string) : Emission :=
  mkEmission ToAll "edit_session_expired" (JObj [("taskId", JStr k)]).

(** The callback of [setInterval], run every minute. *)
Definition cleanup (now : Z) (d : Db) : Db * list Emission :=
  let staleTime := now - staleTimeout in
  let staleTasks :=
    List.filter (fun kt => isStale staleTime (snd kt)) (map_to_list (tasks d)) in
  if (0 <? length staleTasks)%nat
  then (set_tasks ((fun t => if isStale staleTime t then unlockTask t else t)
                     <$> tasks d) d,
        (fun kt => expiredEvent (fst kt)) <$> staleTasks)
  else (d, []).

Definition cleanupInterval : Z := 60000.

(** An emission is the edit_session_expired event of the task [k]. *)
Definition expiredFor (k : string) (e : Emission) : bool :=
  String.eqb (event e) "edit_session_expired" &&
  match target e, payload e with
  | ToAll, JObj [(key, JStr v)] => String.eqb key "taskId" && String.eqb v k
  | _, _ => false
  end.

(** ** Requests, and the states the server can reach *)

Inductive Request : Type :=
| Create (newId : string) (body : CreateBody)
| Update (id : string) (updates : list Field)
| Delete (id : string)
| SmartAssign (id : string)
| StartEdit (id : string)
| EndEdit (id : string)
| Reorder (body : option (list ReorderEntry)).

(** The router: one authenticated request of [user] at time [now]. *)
Definition handle (now : Z) (user : User) (r : Request) (d : Db)
  : Db * Reply :=
  match r with
  | Create newId body => createTask now user newId body d
  | Update id updates => updateTask now user id updates d
  | Delete id => deleteTask now user id d
  | SmartAssign id => smartAssign now user id d
  | StartEdit id => startEdit now user id d
  | EndEdit id => endEdit user id d
  | Reorder body => reorderTasks now user body d
  end.

Definition with_db (d : Db) (sv : Server) : Server :=
  mkServer d (sockets sv) (connectedUsers sv).

(** The server starts with no task and no activity; it then serves
    requests, runs the cleanup, and sees sockets come and go. *)
Inductive reachable : Server -> Prop :=
| reach_start us :
    reachable (mkServer (mkDb ∅ us []) [] [])
| reach_request sv now user r :
    reachable sv -> reachable (with_db (fst (handle now user r (db sv))) sv)
| reach_cleanup sv now :
    reachable sv -> reachable (with_db (fst (cleanup now (db sv))) sv)
| reach_connect sv now s :
    reachable sv -> reachable (fst (onConnection now s sv))
| reach_disconnect sv now s :
    reachable sv -> reachable (fst (onDisconnect now s sv)).

(** The lock fields of a task agree with each other. *)
Definition lockCoherent (t : Task) : Prop :=
  (isBeingEdited t = false <-> editedBy t = None) /\
  (editedBy t = None <-> editStartTime t = None).

Definition dbCoherent (d : Db) : Prop :=
  forall k t, tasks d !! k = Some t -> lockCoherent t.

(** ** A small board, for the examples *)

Definition alice_id : string := "64b7f0a1c2d3e4f5a6b7c801".
Definition bob_id : string := "64b7f0a1c2d3e4f5a6b7c802".
Definition carol_id : string := "64b7f0a1c2d3e4f5a6b7c803".
Definition t1_id : string := "64b7f0a1c2d3e4f5a6b7d001".
Definition t2_id : string := "64b7f0a1c2d3e4f5a6b7d002".

Definition alice : User := mkUser alice_id "alice" false None.
Definition bob : User := mkUser bob_id "bob" false None.
Definition carol : User := mkUser carol_id "carol" false None.

Definition db0 : Db := mkDb ∅ [alice; bob; carol] [].

(** Alice creates the task "Ship release" for herself at time 1000. *)
Definition db1 : Db :=
  fst (createTask 1000 alice t1_id
         (mkCreateBody (Some "Ship release") None (Some alice_id) None) db0).

(** Alice starts editing it at time 2000. *)
Definition db2 : Db := fst (startEdit 2000 alice t1_id db1).

Definition task1 : Task :=
  mkTask "Ship release" "" "todo" "medium" alice_id alice_id 0 false None
    None 1 (Some alice_id).

Definition task1_locked : Task := lockTask 2000 alice task1.

Definition sv0 : Server := mkServer db0 [] [].

(** Alice saves the task with priority high at time 3000. *)
Definition task1_high : Task :=
  mkTask "Ship release" "" "todo" "high" alice_id alice_id 0 false None
    None 2 (Some alice_id).

(** Bob smart-assigns the task Alice is editing, at time 3000. *)
Definition task1_reassigned : Task := reassign bob bob task1_locked.

(** Bob moves the task Alice is editing to the done column. *)
Definition move_t1 : list ReorderEntry := [mkReorderEntry t1_id "done" 0].

(** Bob moves it there and back in one request. *)
Definition move_twice : list ReorderEntry :=
  [mkReorderEntry t1_id "done" 0; mkReorderEntry t1_id "todo" 0].

(** Alice saves the task with the body [{ version: 9007199254740992 }]. *)
Definition db_big : Db :=
  fst (updateTask 3000 alice t1_id [F_version (2 ^ 53)] db2).

(** Alice and Bob are connected when Alice starts editing. *)
Definition sock_a : Socket := mkSocket "sock-a" alice.
Definition sock_b : Socket := mkSocket "sock-b" bob.

Definition sv_online : Server :=
  fst (onConnection 1500 sock_b
         (fst (onConnection 1200 sock_a (mkServer db1 [] [])))).

Definition sv_editing : Server :=
  with_db (fst (startEdit 2000 alice t1_id (db sv_online))) sv_online.

(** The name a client event is re-emitted under. *)
Definition eventName (e : ClientEvent) : string :=
  match e with
  | task_created => "task_created"
  | task_updated => "task_updated"
  | task_deleted => "task_deleted"
  | task_moved => "task_moved"
  | task_assigned => "task_assigned"
  | task_smart_assigned => "task_smart_assigned"
  | tasks_reordered => "tasks_reordered"
  | new_activity => "new_activity"
  | edit_started => "edit_started"
  | edit_ended => "edit_ended"
  | conflict_detected => "conflict_detected"
  | conflict_resolved => "conflict_resolved"
  | typing_start => "typing_start"
  | typing_stop => "typing_stop"
  | cursor_position => "cursor_position"
  | ping => "pong"
  end.

(** The loads of the specification's examples. *)
Definition loads_201 : gmap string Z :=
  <[alice_id := 2]> (<[bob_id := 0]> (<[carol_id := 1]> ∅)).

Definition loads_tie : gmap string Z :=
  <[alice_id := 1]> (<[bob_id := 1]> ∅).

(** A task collection: Alice has two active tasks, Carol has one, and
    Bob has one that is done. *)
Definition t3_id : string := "64b7f0a1c2d3e4f5a6b7d003".
Definition t4_id : string := "64b7f0a1c2d3e4f5a6b7d004".

Definition busy_tasks : gmap string Task :=
  <[t1_id := mkTask "Ship release" "" "todo" "medium" alice_id alice_id 0
               false None None 1 (Some alice_id)]>
  (<[t2_id := mkTask "Write notes" "" "in-progress" "low" alice_id bob_id 0
                false None None 3 (Some alice_id)]>
  (<[t3_id := mkTask "Book venue" "" "todo" "high" carol_id alice_id 1
                false None None 1 (Some alice_id)]>
  (<[t4_id := mkTask "Send invites" "" "done" "low" bob_id bob_id 0
                false None None 2 (Some bob_id)]> ∅))).

(** ** What a body asks for, path by path *)

Definition selVersion (f : Field) : option Z :=
  match f with F_version v => Some v | _ => None end.

Definition selCreatedBy (f : Field) : option string :=
  match f with F_createdBy v => castObjectId v | _ => None end.

Definition selAssignedTo (f : Field) : option string :=
  match f with F_assignedTo v => castObjectId v | _ => None end.

Definition selTrimmedTitle (f : Field) : option string :=
  match f with F_title v => Some (trim v) | _ => None end.

Definition selDescription (f : Field) : option string :=
  match f with F_description v => Some (trim v) | _ => None end.

Definition selStatus (f : Field) : option string :=
  match f with F_status v => Some v | _ => None end.

Definition selPriority (f : Field) : option string :=
  match f with F_priority v => Some v | _ => None end.

Definition selOrder (f : Field) : option Z :=
  match f with F_order v => Some v | _ => None end.

(** How many operations of a reorder request address the task [k]. *)
Definition timesNamed (k : string) (entries : list ReorderEntry) : Z :=
  Z.of_nat (length (List.filter
                      (fun e => bool_decide (castObjectId (r_id e) = Some k))
                      entries)).

(** ** Replies and collections, for the further properties *)

(** The HTTP status a reply is sent with. *)
Definition replyCode (r : Reply) : Z :=
  match r with
  | Message c _ => c
  | TaskReply c _ _ _ => c
  | ConflictReply _ _ _ => 409
  | SmartAssignReply _ _ _ _ _ => 200
  end.

(** No two stored tasks share a title. *)
Definition titlesUnique (ts : gmap string Task) : Prop :=
  forall k1 k2 t1 t2,
    ts !! k1 = Some t1 -> ts !! k2 = Some t2 -> title t1 = title t2 ->
    k1 = k2.

(** The paths of a task that only validated writes change. *)
Definition validatedPaths (t : Task) : Prop :=
  title t <> "" /\ str_length (title t) <= 100 /\
  includes (toLowerCase (title t)) forbiddenNames = false /\
  str_length (description t) <= 500 /\
  includes (priority t) priorityEnum = true.

(** Bob creates a second task, "Write notes", at time 1100. *)
Definition notes_body : CreateBody :=
  mkCreateBody (Some "Write notes") (Some "for the release") (Some bob_id)
    (Some "low").

Definition task2 : Task :=
  mkTask "Write notes" "for the release" "todo" "low" bob_id bob_id 1 false
    None None 1 (Some bob_id).

Definition db_two : Db := fst (createTask 1100 bob t2_id notes_body db1).

(** Bob gives Alice's task the order 9007199254740992. *)
Definition db_far : Db :=
  fst (reorderTasks 1500 bob (Some [mkReorderEntry t1_id "todo" (2 ^ 53)])
         db1).

(** The server after Alice created the task and started editing it. *)
Definition sv1 : Server :=
  with_db (fst (handle 1000 alice
                  (Create t1_id
                     (mkCreateBody (Some "Ship release") None
                        (Some alice_id) None)) (db sv0))) sv0.

Definition sv2 : Server :=
  with_db (fst (handle 2000 alice (StartEdit t1_id) (db sv1))) sv1.

(** The server after Alice created her task and Bob created his. *)
Definition sv_two : Server :=
  with_db (fst (handle 1100 bob (Create t2_id notes_body) (db sv1))) sv1.

(** Bob then moves the task to a column that does not exist, at time
    1500, instead of Alice starting to edit. *)
Definition park_t1 : list ReorderEntry := [mkReorderEntry t1_id "archived" 0].

Definition sv_parked : Server :=
  with_db (fst (handle 1500 bob (Reorder (Some park_t1)) (db sv1))) sv1.

Definition task1_parked : Task :=
  mkTask "Ship release" "" "archived" "medium" alice_id alice_id 0 false None
    None 2 (Some bob_id).

(** The last operation of a reorder request that addresses the task [k]. *)
Fixpoint lastNamed (k : string) (entries : list ReorderEntry)
  : option ReorderEntry :=
  match entries with
  | [] => None
  | e :: r =>
    match lastNamed k r with
    | Some e' => Some e'
    | None => if bool_decide (castObjectId (r_id e) = Some k)
              then Some e else None
    end
  end.

(** The entry names a path of the Task schema. *)
Definition isPath (f : Field) : bool :=
  match f with F_other _ _ => false | _ => true end.

(** The test of the logging loop of the update route, entry by entry:
    [previousValues[field] !== undefined &&
     previousValues[field].toString() !== newValue.toString()]. *)
Definition loggedField (prev : Task) (f : Field) : bool :=
  match f with
  | F_title v => negb (String.eqb (title prev) v)
  | F_description v => negb (String.eqb (description prev) v)
  | F_status v => negb (String.eqb (status prev) v)
  | F_priority v => negb (String.eqb (priority prev) v)
  | F_assignedTo v => negb (String.eqb (assignedTo prev) v)
  | _ => false
  end.

(** ** The board of a client (the TodoBoard component)

    The state of the component and the handlers it registers for the
    events of the server.  A task of the board carries the fields the
    handlers read; a handler that throws returns [None]. *)

Record BoardTask : Type := mkBoardTask {
  bt_id : string;
  bt_title : string;
  bt_status : string;
  bt_order : Z;
  bt_isBeingEdited : bool;
  bt_editedBy : option JValue
}.

(** [TasksByStatus] *)
Record Board : Type := mkBoard {
  col_todo : list BoardTask;
  col_inProgress : list BoardTask;
  col_done : list BoardTask
}.

(** [tasks[status]], [undefined] for a status that is no column. *)
Definition column (status : string) (b : Board) : option (list BoardTask) :=
  if String.eqb status "todo" then Some (col_todo b)
  else if String.eqb status "in-progress" then Some (col_inProgress b)
  else if String.eqb status "done" then Some (col_done b)
  else None.

(** [Object.keys(newTasks).forEach(status =>
      newTasks[status] = f(newTasks[status]))] *)
Definition mapColumns (f : list BoardTask -> list BoardTask) (b : Board)
  : Board :=
  mkBoard (f (col_todo b)) (f (col_inProgress b)) (f (col_done b)).

(** [newTasks[status].push(task)]; a [TypeError] when there is no such
    column. *)
Definition pushTo (status : string) (t : BoardTask) (b : Board)
  : option Board :=
  if String.eqb status "todo"
  then Some (mkBoard (col_todo b ++ [t]) (col_inProgress b) (col_done b))
  else if String.eqb status "in-progress"
  then Some (mkBoard (col_todo b) (col_inProgress b ++ [t]) (col_done b))
  else if String.eqb status "done"
  then Some (mkBoard (col_todo b) (col_inProgress b) (col_done b ++ [t]))
  else None.

(** [list.sort((a, b) => a.order - b.order)]: the sort is stable, so it is
    the insertion of each task before the first task of the sorted rest
    that does not come before it. *)
Fixpoint insertByOrder (t : BoardTask) (l : list BoardTask)
  : list BoardTask :=
  match l with
  | [] => [t]
  | x :: r => if bt_order t <=? bt_order x then t :: x :: r
              else x :: insertByOrder t r
  end.

Definition sortByOrder (l : list BoardTask) : list BoardTask :=
  foldr insertByOrder [] l.

(** The order of two tasks that the sort leaves in place. *)
Definition byOrder (a b : BoardTask) : Prop := bt_order a <= bt_order b.

(** [task._id !== id] *)
Definition otherThan (id : string) (t : BoardTask) : bool :=
  negb (String.eqb (bt_id t) id).

(** [handleTaskUpdate], on [data.task]. *)
Definition handleTaskUpdate (task : BoardTask) (prev : Board)
  : option Board :=
  b ← pushTo (bt_status task) task
        (mapColumns (List.filter (otherThan (bt_id task))) prev);
  Some (mapColumns sortByOrder b).

(** [task._id === v] for a value [v] of an event: strict equality, so only
    a string can be equal to the id. *)
Definition idIs (v : JValue) (t : BoardTask) : bool :=
  match v with
  | JStr s => String.eqb (bt_id t) s
  | _ => false
  end.

(** [handleTaskDelete], on the event data. *)
Definition handleTaskDelete (data : JObject) (prev : Board) : Board :=
  mapColumns (List.filter (fun t => negb (idIs (obj_get "taskId" data) t)))
    prev.

(** [handleEditStarted] *)
Definition handleEditStarted (data : JObject) (prev : Board) : Board :=
  mapColumns
    (List.map (fun t =>
       if idIs (obj_get "taskId" data) t
       then mkBoardTask (bt_id t) (bt_title t) (bt_status t) (bt_order t)
              true (Some (obj_get "editedBy" data))
       else t)) prev.

(** [handleEditEnded] *)
Definition handleEditEnded (data : JObject) (prev : Board) : Board :=
  mapColumns
    (List.map (fun t =>
       if idIs (obj_get "taskId" data) t
       then mkBoardTask (bt_id t) (bt_title t) (bt_status t) (bt_order t)
              false None
       else t)) prev.

(** [findTask]: the columns are searched in the order of their keys. *)
Definition findTask (id : string) (b : Board) : option BoardTask :=
  match List.find (fun t => String.eqb (bt_id t) id) (col_todo b) with
  | Some t => Some t
  | None =>
    match List.find (fun t => String.eqb (bt_id t) id) (col_inProgress b) with
    | Some t => Some t
    | None => List.find (fun t => String.eqb (bt_id t) id) (col_done b)
    end
  end.

(** [loadTasks], from the tasks of the response: the [reduce] that fills
    the columns, then the sort of each column; [None] when the [reduce]
    throws, in which case the board is not set. *)
Definition loadTasks (response : list BoardTask) : option Board :=
  b ← foldl (fun acc t => a ← acc; pushTo (bt_status t) t a)
        (Some (mkBoard [] [] [])) response;
  Some (mapColumns sortByOrder b).

(** [handleNewActivity]: [[activity, ...prev.slice(0, 19)]] *)
Definition handleNewActivity {A} (activity : A) (prev : list A) : list A :=
  activity :: take 19 prev.

(** A user of the online list; [_id] is [undefined] on an object that has
    no such key. *)
Record OnlineUser : Type := mkOnlineUser {
  ou_id : option string;
  ou_username : JValue;
  ou_email : option string
}.

(** [u._id === userId] *)
Definition hasId (userId : string) (u : OnlineUser) : bool :=
  match ou_id u with
  | Some i => String.eqb i userId
  | None => false
  end.

(** [handleUserOnline] *)
Definition handleUserOnline (userId : string) (name : JValue)
    (prev : list OnlineUser) : list OnlineUser :=
  match List.find (hasId userId) prev with
  | Some _ => prev
  | None => prev ++ [mkOnlineUser (Some userId) name (Some "")]
  end.

(** [handleUserOffline] *)
Definition handleUserOffline (userId : string) (prev : list OnlineUser)
  : list OnlineUser :=
  List.filter (fun u => negb (hasId userId u)) prev.

(** [setOnlineUsers] on the snapshot of the server: its objects have the
    keys [id], [username] and [avatar], and no [_id] and no [email]. *)
Definition fromSnapshot (entry : JValue) : OnlineUser :=
  match entry with
  | JObj o =>
    mkOnlineUser
      (match obj_get "_id" o with JStr i => Some i | _ => None end)
      (obj_get "username" o)
      (match obj_get "email" o with JStr e => Some e | _ => None end)
  | _ => mkOnlineUser None JUndefined None
  end.

Definition setOnlineUsers (snapshot : list JValue) : list OnlineUser :=
  fromSnapshot <$> snapshot.

(** The snapshot the server builds from its presence map. *)
Definition onlineSnapshot (cu : list (string * (string * User)))
  : list JValue :=
  (fun kv => JObj [("id", JStr (uid (snd (snd kv))));
                   ("username", JStr (username (snd (snd kv))))]) <$> cu.

(** A second socket of Alice. *)
Definition sock_a2 : Socket := mkSocket "sock-a2" alice.

(** ** Proof steps used more than once *)

(** One case per path of the schema. *)
Ltac assign_cases :=
  let t := fresh "t" in let f := fresh "f" in let t1 := fresh "t1" in
  intros t f t1; destruct f; simpl;
  try (intros [= <-]; reflexivity);
  try (match goal with
       | |- context [castObjectId ?v] => destruct (castObjectId v)
       | |- context [castRef ?v] => destruct (castRef v)
       end; simpl; intros [= <-]; reflexivity).

(** A selector answers only for its own key. *)
Ltac key_of_sel := let f := fresh in let v := fresh in intros f v; by destruct f.

(** * Properties *)

(** ** Numbers *)

Lemma ulp_small (n : Z) : Z.abs n < 2 ^ 53 -> ulp n = 1.
Proof.
  intros H. unfold ulp.
  destruct (decide (Z.abs n = 0)) as [->|Hz]; [reflexivity|].
  assert (Z.log2 (Z.abs n) < 53) by (apply Z.log2_lt_pow2; lia).
  by rewrite Z.max_l by lia.
Qed.

Lemma roundDouble_small (n : Z) : Z.abs n < 2 ^ 53 -> roundDouble n = n.
Proof.
  intros H. unfold roundDouble. rewrite (ulp_small n H).
  rewrite Z.div_1_r, Z.mod_1_r. simpl. lia.
Qed.

(** Adding 1 is exact on the safe integers. *)
Lemma plusOne_exact (n : Z) : safeInteger n -> plusOne n = n + 1.
Proof.
  unfold safeInteger, plusOne. intros H.
  destruct (decide (n + 1 = 2 ^ 53)) as [->|Hne]; [reflexivity|].
  apply roundDouble_small. lia.
Qed.

Lemma plusOne_iter_exact (c : nat) (n : Z) :
  - 2 ^ 53 <= n -> n + Z.of_nat c <= 2 ^ 53 ->
  Nat.iter c plusOne n = n + Z.of_nat c.
Proof.
  induction c as [|c IH]; intros Hl Hu; simpl; [lia|].
  rewrite IH by lia. rewrite plusOne_exact; [lia|]. unfold safeInteger. lia.
Qed.

(** [plusOne] is the addition of 1 in binary64, at each of the edges. *)
Example plusOne_binary64 :
  Forall (fun n => binary64PlusOne n = Some (plusOne n)) edges.
Proof. repeat constructor. Qed.

(** From [2 ^ 53] on the sum is rounded: it can be the number itself, or
    the number plus 2. *)
Example plusOne_rounds :
  plusOne (2 ^ 53 - 1) = 2 ^ 53 /\ plusOne (2 ^ 53) = 2 ^ 53 /\
  plusOne (2 ^ 53 + 2) = 2 ^ 53 + 4.
Proof. repeat split. Qed.

(** ** Saving a document *)

Lemma saveTask_same_title (k : string) (prior t : Task)
    (ts : gmap string Task) :
  title t = title prior -> validateTask t = None ->
  saveTask k prior t ts = inr (<[k := t]> ts).
Proof.
  intros Ht Hv. unfold saveTask. rewrite Hv, Ht.
  by rewrite String.eqb_refl.
Qed.

Lemma saveTask_inr (k : string) (prior t : Task) (ts ts' : gmap string Task) :
  saveTask k prior t ts = inr ts' -> ts' = <[k := t]> ts.
Proof.
  unfold saveTask. destruct (validateTask t); [done|].
  destruct (_ && _); [done|]. by intros [= <-].
Qed.

Lemma validateTask_lockTask (now : Z) (user : User) (t : Task) :
  validateTask (lockTask now user t) = validateTask t.
Proof. reflexivity. Qed.

Lemma validateTask_unlockTask (t : Task) :
  validateTask (unlockTask t) = validateTask t.
Proof. reflexivity. Qed.

Lemma lockConflict_true (now : Z) (user : User) (t : Task) :
  lockConflict now user t = true <->
  isBeingEdited t = true /\
  (exists other, editedBy t = Some other /\ other <> uid user) /\
  lockAge now t < 300000.
Proof.
  unfold lockConflict, editedByOther, editTimeout.
  rewrite !andb_true_iff, Z.ltb_lt. split.
  - intros [[Hb He] Ha]. split; [done|]. split; [|done].
    destruct (editedBy t) as [e|]; [|done]. exists e. split; [done|].
    apply negb_true_iff, String.eqb_neq in He. done.
  - intros (Hb & (other & He & Hne) & Ha). rewrite He. repeat split; try done.
    apply negb_true_iff, String.eqb_neq. done.
Qed.

Lemma lockConflict_false (now : Z) (user : User) (t : Task) :
  lockConflict now user t = false <->
  isBeingEdited t = false \/ editedBy t = None \/
  editedBy t = Some (uid user) \/ 300000 <= lockAge now t.
Proof.
  rewrite <- not_true_iff_false, lockConflict_true. split.
  - intros H. destruct (isBeingEdited t); [|by left]. right.
    destruct (editedBy t) as [e|] eqn:He; [|by left]. right.
    destruct (decide (e = uid user)) as [->|Hne]; [by left|]. right.
    destruct (decide (300000 <= lockAge now t)); [done|].
    exfalso. apply H. split; [done|]. split; [by exists e|lia].
  - intros [Hb|[He|[He|Ha]]] (Hb' & (o & He' & Hne) & Ha'); try congruence.
    lia.
Qed.

(** ** Acquiring the edit lock *)

(** start-edit on a stored task that passes the validators of its schema,
    as [save()] requires.  The request is answered with the 200 and stores
    the task with isBeingEdited = true, editedBy = the requester and
    editStartTime = now, its other paths as they were, when the task is not
    being edited, has no editor on record, or is edited by the requester
    (who stays the holder, the start time stamped anew).  When another user
    edits the task since the time [start], the request is answered with
    the 409 and nothing is written if now - start < 300000 ms, and it is
    answered with the 200 and hands the lock to the requester if
    now - start >= 300000 ms; a missing start time counts as the time 0. *)
Theorem startEdit_acquires (now : Z) (user : User) (id k : string)
    (task : Task) (d : Db) :
  castObjectId id = Some k ->
  tasks d !! k = Some task ->
  validateTask task = None ->
  let held :=
    mkTask (title task) (description task) (status task) (priority task)
      (assignedTo task) (createdBy task) (order task) true (Some (uid user))
      (Some now) (version task) (lastModifiedBy task) in
  let acquired :=
    (set_tasks (<[k := held]> (tasks d)) d, Message 200 "Edit session started")
  in
  (isBeingEdited task = false \/ editedBy task = None \/
   editedBy task = Some (uid user) ->
   startEdit now user id d = acquired) /\
  (forall other,
     isBeingEdited task = true -> editedBy task = Some other ->
     other <> uid user ->
     forall start, start = default 0 (editStartTime task) ->
     (now - start < 300000 ->
      startEdit now user id d =
        (d, ConflictReply "Task is being edited by another user"
              (editorName task (users d)) None)) /\
     (300000 <= now - start -> startEdit now user id d = acquired)).
Proof.
  intros Hid Hk Hv held acquired.
  assert (Hfree : lockConflict now user task = false ->
                  startEdit now user id d = acquired).
  { intros Hc. unfold startEdit. rewrite Hid, Hk, Hc.
    by rewrite saveTask_same_title. }
  split.
  - intros H. apply Hfree, lockConflict_false. tauto.
  - intros other Hb He Hne start ->. split; intros Ha.
    + unfold startEdit. rewrite Hid, Hk.
      replace (lockConflict now user task) with true; [done|].
      symmetry. apply lockConflict_true. eauto.
    + apply Hfree, lockConflict_false. tauto.
Qed.

Lemma startEdit_acquires_witness :
  startEdit 2000 alice t1_id db1 =
    (set_tasks (<[t1_id := task1_locked]> (tasks db1)) db1,
     Message 200 "Edit session started") /\
  editStartTime task1_locked = Some 2000 /\
  startEdit 301999 bob t1_id db2 =
    (db2, ConflictReply "Task is being edited by another user" "alice" None) /\
  startEdit 302000 bob t1_id db2 =
    (set_tasks
       (<[t1_id := mkTask "Ship release" "" "todo" "medium" alice_id alice_id
                     0 true (Some bob_id) (Some 302000) 1 (Some alice_id)]>
          (tasks db2)) db2,
     Message 200 "Edit session started") /\
  startEdit 302000 alice t1_id db2 =
    (set_tasks
       (<[t1_id := mkTask "Ship release" "" "todo" "medium" alice_id alice_id
                     0 true (Some alice_id) (Some 302000) 1 (Some alice_id)]>
          (tasks db2)) db2,
     Message 200 "Edit session started").
Proof.
  split; [|split; [reflexivity|split; [|split]]].
  - apply (startEdit_acquires 2000 alice t1_id t1_id task1 db1);
      [vm_compute; reflexivity ..|].
    left. reflexivity.
  - destruct (startEdit_acquires 301999 bob t1_id t1_id task1_locked db2
                ltac:(vm_compute; reflexivity) ltac:(vm_compute; reflexivity)
                ltac:(vm_compute; reflexivity)) as (_ & Hother).
    apply (Hother alice_id eq_refl eq_refl ltac:(discriminate) 2000 eq_refl).
    vm_compute. reflexivity.
  - destruct (startEdit_acquires 302000 bob t1_id t1_id task1_locked db2
                ltac:(vm_compute; reflexivity) ltac:(vm_compute; reflexivity)
                ltac:(vm_compute; reflexivity)) as (_ & Hother).
    apply (Hother alice_id eq_refl eq_refl ltac:(discriminate) 2000 eq_refl).
    vm_compute. discriminate.
  - destruct (startEdit_acquires 302000 alice t1_id t1_id task1_locked db2
                ltac:(vm_compute; reflexivity) ltac:(vm_compute; reflexivity)
                ltac:(vm_compute; reflexivity)) as (Hown & _).
    apply Hown. right. right. reflexivity.
Defined.

(** ** C1: start-edit on a task that a reorder has written *)

(** C1 at the failing input.  Alice creates a task; Bob's reorder request
    gives it the status "archived", which the route stores without
    validating it (the update route refuses the same status with a 400).
    The task is not being edited, yet every start-edit on it is answered
    with the 500 and leaves the task without a lock: [save()] validates the
    document and fails on its status. *)
Theorem startEdit_fails_unlocked :
  reachable sv_parked /\
  snd (reorderTasks 1500 bob (Some park_t1) (db sv1)) =
    Message 200 "Tasks reordered successfully" /\
  replyCode (snd (updateTask 1500 bob t1_id [F_status "archived"] (db sv1)))
    = 400 /\
  tasks (db sv_parked) !! t1_id = Some task1_parked /\
  isBeingEdited task1_parked = false /\ editedBy task1_parked = None /\
  editStartTime task1_parked = None /\
  startEdit 2000 alice t1_id (db sv_parked) =
    (db sv_parked, Message 500 "Server error") /\
  startEdit 2000 bob t1_id (db sv_parked) =
    (db sv_parked, Message 500 "Server error").
Proof.
  split; [do 2 apply reach_request; apply reach_start|].
  repeat split; vm_compute; reflexivity.
Qed.

(** ** The activity log does not touch the tasks *)

Lemma logActivity_tasks now act tid u det descr (d : Db) :
  tasks (fst (logActivity now act tid u det descr d)) = tasks d.
Proof. unfold logActivity. by destruct (validateActivity _). Qed.

Lemma logField_tasks now user k prev f (d : Db) :
  tasks (logField now user k prev f d) = tasks d.
Proof.
  destruct f; simpl; try done;
    match goal with |- context [if ?b then _ else _] => destruct b end;
    try done; apply logActivity_tasks.
Qed.

Lemma logChanges_tasks now user k prev updates (d : Db) :
  tasks (logChanges now user k prev updates d) = tasks d.
Proof.
  unfold logChanges. revert d.
  induction updates as [|f r IH]; intros d; simpl; [done|].
  by rewrite IH, logField_tasks.
Qed.

(** ** What an accepted update stored *)

Lemma updateTask_accepted now user id updates (d d' : Db) code k t' msg :
  updateTask now user id updates d = (d', TaskReply code k t' msg) ->
  exists task assigned,
    castObjectId id = Some k /\ tasks d !! k = Some task /\
    lockConflict now user task = false /\
    applyUpdates task updates = Some assigned /\
    t' = finishUpdate user assigned /\
    validateTask t' = None /\
    tasks d' = <[k := t']> (tasks d).
Proof.
  unfold updateTask.
  destruct (castObjectId id) as [k0|]; [|done].
  destruct (tasks d !! k0) as [task|] eqn:Hk; [|done].
  destruct (lockConflict now user task) eqn:Hc; [done|].
  destruct (match bodyTitle updates with Some _ => _ | None => _ end); [done|].
  destruct (applyUpdates task updates) as [assigned|] eqn:Ha; [|done].
  destruct (saveTask k0 task (finishUpdate user assigned) (tasks d))
    as [[m|]|ts] eqn:Hs; [done|done|].
  intros [= <- <- <- <- _]. exists task, assigned.
  apply saveTask_inr in Hs as Hts. subst ts.
  repeat split; try done.
  - destruct (validateTask (finishUpdate user assigned)) eqn:Hv; [|done].
    unfold saveTask in Hs. by rewrite Hv in Hs.
  - by rewrite logChanges_tasks.
Qed.

Lemma not_assignable_other (f : Field) :
  assignable (fieldKey f) = false -> exists k v, f = F_other k v.
Proof. destruct f; try discriminate. eauto. Qed.

Section Projection.
Context {A : Type} (proj : Task -> A) (sel : Field -> option A).
Hypothesis assign_proj :
  forall t f t1, assignField t f = Some t1 ->
                 proj t1 = default (proj t) (sel f).
Hypothesis sel_other : forall k v, sel (F_other k v) = None.

(** After the loop a path holds the last value the body gave it, or its
    old value. *)
Lemma applyUpdates_proj (updates : list Field) (t t' : Task) :
  applyUpdates t updates = Some t' ->
  proj t' = default (proj t) (lastOf sel updates).
Proof using assign_proj sel_other.
  revert t. induction updates as [|f r IH]; intros t; simpl.
  - by intros [= ->].
  - destruct (assignable (fieldKey f)) eqn:Hg.
    + destruct (assignField t f) as [t1|] eqn:H1; [|done]. simpl.
      intros Hr. rewrite (IH _ Hr).
      destruct (lastOf sel r); [done|]. simpl. by apply assign_proj.
    + destruct (not_assignable_other f Hg) as (k & v & ->).
      intros Hr. rewrite (IH _ Hr), sel_other.
      by destruct (lastOf sel r).
Qed.

Lemma lastOf_not_named (key : string) (updates : list Field) :
  (forall f v, sel f = Some v -> fieldKey f = key) ->
  named key updates = false -> lastOf sel updates = None.
Proof.
  intros Hkey. unfold named.
  induction updates as [|f r IH]; simpl; [done|].
  intros [Hf Hr]%orb_false_elim. rewrite (IH Hr).
  destruct (sel f) as [v|] eqn:Hs; [|done].
  apply Hkey in Hs. rewrite Hs, String.eqb_refl in Hf. done.
Qed.
End Projection.

Lemma applyUpdates_version updates t t' :
  applyUpdates t updates = Some t' ->
  version t' = default (version t) (lastOf selVersion updates).
Proof. apply (applyUpdates_proj version selVersion); [assign_cases | done]. Qed.

Lemma applyUpdates_createdBy updates t t' :
  applyUpdates t updates = Some t' ->
  createdBy t' = default (createdBy t) (lastOf selCreatedBy updates).
Proof. apply (applyUpdates_proj createdBy selCreatedBy); [assign_cases | done]. Qed.

Lemma applyUpdates_assignedTo updates t t' :
  applyUpdates t updates = Some t' ->
  assignedTo t' = default (assignedTo t) (lastOf selAssignedTo updates).
Proof. apply (applyUpdates_proj assignedTo selAssignedTo); [assign_cases | done]. Qed.

Lemma applyUpdates_title updates t t' :
  applyUpdates t updates = Some t' ->
  title t' = default (title t) (lastOf selTrimmedTitle updates).
Proof. apply (applyUpdates_proj title selTrimmedTitle); [assign_cases | done]. Qed.

Lemma applyUpdates_description updates t t' :
  applyUpdates t updates = Some t' ->
  description t' = default (description t) (lastOf selDescription updates).
Proof. apply (applyUpdates_proj description selDescription); [assign_cases | done]. Qed.

Lemma applyUpdates_status updates t t' :
  applyUpdates t updates = Some t' ->
  status t' = default (status t) (lastOf selStatus updates).
Proof. apply (applyUpdates_proj status selStatus); [assign_cases | done]. Qed.

Lemma applyUpdates_priority updates t t' :
  applyUpdates t updates = Some t' ->
  priority t' = default (priority t) (lastOf selPriority updates).
Proof. apply (applyUpdates_proj priority selPriority); [assign_cases | done]. Qed.

Lemma applyUpdates_order updates t t' :
  applyUpdates t updates = Some t' ->
  order t' = default (order t) (lastOf selOrder updates).
Proof. apply (applyUpdates_proj order selOrder); [assign_cases | done]. Qed.

(** ** What an accepted smart assignment and a reorder stored *)

Lemma smartAssign_accepted now user id (d d' : Db) k t' msg a n :
  smartAssign now user id d = (d', SmartAssignReply k t' msg a n) ->
  exists task selected,
    castObjectId id = Some k /\ tasks d !! k = Some task /\
    selectAssignee (users d) (getTaskCounts (tasks d)) = (n, Some selected) /\
    t' = reassign user selected task /\
    tasks d' = <[k := t']> (tasks d).
Proof.
  unfold smartAssign.
  destruct (castObjectId id) as [k0|]; [|done].
  destruct (tasks d !! k0) as [task|] eqn:Hk; [|done].
  destruct (selectAssignee _ _) as [m [sel|]] eqn:Hsel; [|done].
  destruct (saveTask k0 task (reassign user sel task) (tasks d))
    as [e|ts] eqn:Hs; [done|].
  destruct (logActivity _ _ _ _ _ _ _) as [d1 o] eqn:Hl.
  intros [= <- <- <- _ _ <-]. exists task, sel.
  apply saveTask_inr in Hs. subst ts.
  repeat split; try done.
  change d1 with (fst (d1, o)). rewrite <- Hl. by rewrite logActivity_tasks.
Qed.

Lemma reorderOne_lookup user (ts : gmap string Task) op k t :
  ts !! k = Some t ->
  exists t', reorderOne user ts op !! k = Some t' /\
    version t' =
      (if bool_decide (fst op = k) then plusOne (version t) else version t) /\
    isBeingEdited t' = isBeingEdited t /\ editedBy t' = editedBy t /\
    editStartTime t' = editStartTime t.
Proof.
  intros Hk. unfold reorderOne. case_bool_decide as Hop.
  - rewrite Hop, Hk. eexists. rewrite lookup_insert_eq. done.
  - exists t. destruct (ts !! fst op).
    + by rewrite lookup_insert_ne by done.
    + done.
Qed.

Lemma reorder_fold_lookup user ops (ts : gmap string Task) k t :
  ts !! k = Some t ->
  exists t', foldl (reorderOne user) ts ops !! k = Some t' /\
    version t' =
      Nat.iter (length (List.filter (fun op => bool_decide (fst op = k)) ops))
        plusOne (version t) /\
    isBeingEdited t' = isBeingEdited t /\ editedBy t' = editedBy t /\
    editStartTime t' = editStartTime t.
Proof.
  revert ts t. induction ops as [|op r IH]; intros ts t Hk; simpl.
  - exists t. done.
  - destruct (reorderOne_lookup user ts op k t Hk)
      as (t1 & H1 & Hv1 & Hb1 & He1 & Hs1).
    destruct (IH _ _ H1) as (t' & H' & Hv' & Hb' & He' & Hs').
    exists t'. split; [done|]. split; [|split; [|split]]; try congruence.
    rewrite Hv', Hv1. destruct (bool_decide (fst op = k)); simpl; [|done].
    apply Nat.iter_swap.
Qed.

Lemma reorder_fold_absent user ops (ts : gmap string Task) k :
  ts !! k = None -> foldl (reorderOne user) ts ops !! k = None.
Proof.
  revert ts. induction ops as [|op r IH]; intros ts Hk; simpl; [done|].
  apply IH. unfold reorderOne. destruct (ts !! fst op) eqn:Hop; [|done].
  rewrite lookup_insert_ne; [done|]. intros <-. congruence.
Qed.

Lemma castOps_count entries ops k :
  castOps entries = Some ops ->
  Z.of_nat (length (List.filter (fun op => bool_decide (fst op = k)) ops)) =
  timesNamed k entries.
Proof.
  unfold castOps, timesNamed. intros H%mapM_Some. f_equal.
  induction H as [|e op es os He _ IH]; simpl; [done|].
  destruct (castObjectId (r_id e)) as [i|] eqn:Hi; [|done].
  simpl in He. injection He as <-. simpl.
  destruct (bool_decide (i = k)) eqn:Hd.
  - apply bool_decide_eq_true in Hd. subst.
    rewrite bool_decide_eq_true_2 by done. simpl. by rewrite IH.
  - apply bool_decide_eq_false in Hd.
    rewrite bool_decide_eq_false_2 by congruence. done.
Qed.

Lemma reorderTasks_accepted now user entries (d d' : Db) msg :
  reorderTasks now user (Some entries) d = (d', Message 200 msg) ->
  exists ops, castOps entries = Some ops /\
    tasks d' = foldl (reorderOne user) (tasks d) ops.
Proof.
  unfold reorderTasks. destruct (castOps entries) as [ops|]; [|done].
  destruct (logActivity _ _ _ _ _ _ _) as [d1 o] eqn:Hl.
  intros [= <- _]. exists ops. split; [done|].
  change d1 with (fst (d1, o)). rewrite <- Hl. by rewrite logActivity_tasks.
Qed.

(** ** C3: the version after a write *)

(** C3, as the code has it.  An accepted update stores version =
    (the version the body names, or else the stored version) + 1 in the
    arithmetic of doubles: exactly that number + 1 when it is a safe
    integer, hence the stored version + 1 when the body does not name
    version and the stored version is a safe integer.  An accepted smart
    assignment stores the stored version + 1 in the same arithmetic.  An
    accepted reorder adds 1 to the version of a task once for every
    operation of the request that addresses the task: the version rises by
    the number of these operations as long as the sum does not exceed
    2 ^ 53. *)
Theorem version_after_write :
  (forall now user id updates d d' code k t' msg,
     updateTask now user id updates d = (d', TaskReply code k t' msg) ->
     exists task,
       tasks d !! k = Some task /\ tasks d' !! k = Some t' /\
       version t' =
         plusOne (default (version task) (lastOf selVersion updates)) /\
       (safeInteger (default (version task) (lastOf selVersion updates)) ->
        version t' = default (version task) (lastOf selVersion updates) + 1) /\
       (named "version" updates = false -> safeInteger (version task) ->
        version t' = version task + 1)) /\
  (forall now user id d d' k t' msg a n,
     smartAssign now user id d = (d', SmartAssignReply k t' msg a n) ->
     exists task,
       tasks d !! k = Some task /\ tasks d' !! k = Some t' /\
       version t' = plusOne (version task) /\
       (safeInteger (version task) -> version t' = version task + 1)) /\
  (forall now user entries d d' msg,
     reorderTasks now user (Some entries) d = (d', Message 200 msg) ->
     forall k t, tasks d !! k = Some t ->
       exists t', tasks d' !! k = Some t' /\
         version t' =
           Nat.iter (Z.to_nat (timesNamed k entries)) plusOne (version t) /\
         (- 2 ^ 53 <= version t ->
          version t + timesNamed k entries <= 2 ^ 53 ->
          version t' = version t + timesNamed k entries)).
Proof.
  split; [|split].
  - intros now user id updates d d' code k t' msg H.
    apply updateTask_accepted in H
      as (task & assigned & _ & Hk & _ & Ha & -> & _ & Hts).
    exists task. split; [done|]. split; [by rewrite Hts, lookup_insert_eq|].
    apply applyUpdates_version in Ha. cbn [finishUpdate version].
    rewrite Ha. split; [done|]. split; [apply plusOne_exact|].
    intros Hn Hs. rewrite (lastOf_not_named selVersion "version"); [| |done].
    + by apply plusOne_exact.
    + by intros [] w.
  - intros now user id d d' k t' msg a n H.
    apply smartAssign_accepted in H as (task & sel & _ & Hk & _ & -> & Hts).
    exists task. split; [done|]. split; [by rewrite Hts, lookup_insert_eq|].
    split; [done|]. apply plusOne_exact.
  - intros now user entries d d' msg H k t Hk.
    apply reorderTasks_accepted in H as (ops & Hops & ->).
    destruct (reorder_fold_lookup user ops _ k t Hk) as (t' & H' & Hv & _).
    exists t'. split; [done|].
    rewrite <- (castOps_count entries ops k Hops), Nat2Z.id.
    split; [done|]. intros Hl Hu. rewrite Hv. by apply plusOne_iter_exact.
Qed.

Lemma version_after_write_witness :
  (exists task,
     tasks db2 !! t1_id = Some task /\
     tasks (fst (updateTask 3000 alice t1_id [F_priority "high"] db2)) !! t1_id
       = Some task1_high /\
     version task1_high =
       plusOne (default (version task) (lastOf selVersion [F_priority "high"])) /\
     (safeInteger
        (default (version task) (lastOf selVersion [F_priority "high"])) ->
      version task1_high =
        default (version task) (lastOf selVersion [F_priority "high"]) + 1) /\
     (named "version" [F_priority "high"] = false ->
      safeInteger (version task) ->
      version task1_high = version task + 1)) /\
  (exists task,
     tasks db2 !! t1_id = Some task /\
     tasks (fst (smartAssign 3000 bob t1_id db2)) !! t1_id
       = Some task1_reassigned /\
     version task1_reassigned = plusOne (version task) /\
     (safeInteger (version task) ->
      version task1_reassigned = version task + 1)) /\
  (exists t',
     tasks (fst (reorderTasks 3000 bob (Some move_twice) db2)) !! t1_id
       = Some t' /\
     version t' = version task1_locked + 2).
Proof.
  destruct version_after_write as (Hupdate & Hsmart & Hreorder).
  split; [|split].
  - apply (Hupdate 3000 alice t1_id [F_priority "high"] db2 _ 200 t1_id
             task1_high "Task updated successfully").
    vm_compute. reflexivity.
  - apply (Hsmart 3000 bob t1_id db2 _ t1_id task1_reassigned
             "Task smart-assigned to bob" "bob" (Finite 0)).
    vm_compute. reflexivity.
  - destruct (Hreorder 3000 bob move_twice db2 _ "Tasks reordered successfully"
                ltac:(vm_compute; reflexivity) t1_id task1_locked
                ltac:(vm_compute; reflexivity)) as (t' & Hk & _ & Hv).
    exists t'. split; [exact Hk|].
    apply Hv; vm_compute; discriminate.
Defined.

(** C3, as the claim states it, fails at three places.  Alice's update of
    the task at version 1 with the body [{ version: 10 }] is accepted and
    stores version 11.  Bob's reorder that names the task twice is accepted
    and stores version 3.  And once an update with the body
    [{ version: 9007199254740992 }] has been accepted, which stores that
    very number, an accepted smart assignment leaves the version as it
    is. *)
Lemma version_counterexample :
  tasks db2 !! t1_id = Some task1_locked /\
  version task1_locked = 1 /\
  (exists d' t',
     updateTask 3000 alice t1_id [F_version 10] db2 =
       (d', TaskReply 200 t1_id t' "Task updated successfully") /\
     tasks d' !! t1_id = Some t' /\
     version t' = 11 /\
     version t' <> version task1_locked + 1) /\
  (exists d' t',
     reorderTasks 3000 bob (Some move_twice) db2 =
       (d', Message 200 "Tasks reordered successfully") /\
     tasks d' !! t1_id = Some t' /\
     version t' = 3 /\
     version t' <> version task1_locked + 1) /\
  (exists t d' t',
     tasks db_big !! t1_id = Some t /\ version t = 2 ^ 53 /\
     smartAssign 4000 bob t1_id db_big =
       (d', SmartAssignReply t1_id t' "Task smart-assigned to bob" "bob"
              (Finite 0)) /\
     tasks d' !! t1_id = Some t' /\
     version t' = 2 ^ 53 /\
     version t' <> version t + 1).
Proof.
  split; [vm_compute; reflexivity|]. split; [reflexivity|].
  split; [|split].
  - eexists _, _. split; [vm_compute; reflexivity|].
    split; [vm_compute; reflexivity|]. split; [reflexivity|]. discriminate.
  - eexists _, _. split; [vm_compute; reflexivity|].
    split; [vm_compute; reflexivity|]. split; [reflexivity|]. discriminate.
  - eexists _, _, _. split; [vm_compute; reflexivity|].
    split; [reflexivity|]. split; [vm_compute; reflexivity|].
    split; [vm_compute; reflexivity|]. split; [reflexivity|]. discriminate.
Qed.

(** ** C2: the conflict check of the mutating routes *)

(** The update route applies the check: another user's lock younger than
    300000 ms is answered with the 409 conflict reply and nothing is
    written. *)
Lemma updateTask_rejects_locked now user id k task updates (d : Db) :
  castObjectId id = Some k -> tasks d !! k = Some task ->
  isBeingEdited task = true ->
  (exists other, editedBy task = Some other /\ other <> uid user) ->
  lockAge now task < 300000 ->
  updateTask now user id updates d =
    (d, ConflictReply "Task is being edited by another user"
          (editorName task (users d)) (Some task)).
Proof.
  intros Hid Hk Hb He Ha. unfold updateTask. rewrite Hid, Hk.
  replace (lockConflict now user task) with true; [done|].
  symmetry. by apply lockConflict_true.
Qed.

(** Without such a lock the check of the update route passes: the reply is
    not the conflict reply. *)
Lemma updateTask_passes_unlocked now user id updates (d : Db) m e c :
  snd (updateTask now user id updates d) = ConflictReply m e c ->
  exists k task, castObjectId id = Some k /\ tasks d !! k = Some task /\
                 lockConflict now user task = true.
Proof.
  unfold updateTask.
  destruct (castObjectId id) as [k|]; [|done].
  destruct (tasks d !! k) as [task|] eqn:Hk; [|done].
  destruct (lockConflict now user task) eqn:Hc; [by eauto|].
  destruct (match bodyTitle updates with Some _ => _ | None => _ end); [done|].
  destruct (applyUpdates task updates); [|done].
  by destruct (saveTask _ _ _ _) as [[|]|].
Qed.

(** C2 at the failing input.  Alice has held the lock on the task for
    1000 ms.  Bob's update is answered with the conflict reply, yet Bob's
    smart assignment and Bob's reorder of the same task are accepted and
    written: neither route consults the lock. *)
Theorem mutations_ignore_lock :
  tasks db2 !! t1_id = Some task1_locked /\
  isBeingEdited task1_locked = true /\
  editedBy task1_locked = Some alice_id /\ alice_id <> uid bob /\
  lockAge 3000 task1_locked = 1000 /\
  updateTask 3000 bob t1_id [F_priority "high"] db2 =
    (db2, ConflictReply "Task is being edited by another user" "alice"
            (Some task1_locked)) /\
  snd (smartAssign 3000 bob t1_id db2) =
    SmartAssignReply t1_id task1_reassigned "Task smart-assigned to bob"
      "bob" (Finite 0) /\
  tasks (fst (smartAssign 3000 bob t1_id db2)) !! t1_id
    = Some task1_reassigned /\
  assignedTo task1_reassigned = bob_id /\
  snd (reorderTasks 3000 bob (Some move_t1) db2) =
    Message 200 "Tasks reordered successfully" /\
  status <$> tasks (fst (reorderTasks 3000 bob (Some move_t1) db2)) !! t1_id
    = Some "done".
Proof. repeat split; try (vm_compute; reflexivity). discriminate. Qed.

(** ** C4: a socket disconnects *)

Lemma onDisconnect_tasks now s (sv : Server) :
  tasks (db (fst (onDisconnect now s sv))) = tasks (db sv).
Proof. reflexivity. Qed.

(** C4 at the failing input.  Alice disconnects while she holds the lock on
    the task: Bob's socket, the one that remains, receives user_offline and
    edit_ended, but the stored task keeps isBeingEdited = true,
    editedBy = Alice and its editStartTime, and Bob's start-edit right
    after is answered with the conflict reply. *)
Theorem disconnect_keeps_lock :
  let after := onDisconnect 2500 sock_a sv_editing in
  tasks (db sv_editing) !! t1_id = Some task1_locked /\
  socketId <$> sockets (fst after) = ["sock-b"] /\
  delivered (sockets (fst after)) (snd after) "sock-b" =
    [("user_offline",
      JObj [("userId", JStr alice_id); ("username", JStr "alice")]);
     ("edit_ended",
      JObj [("userId", JStr alice_id); ("username", JStr "alice")])] /\
  tasks (db (fst after)) !! t1_id = Some task1_locked /\
  isBeingEdited task1_locked = true /\
  editedBy task1_locked = Some alice_id /\
  editStartTime task1_locked = Some 2000 /\
  snd (startEdit 3000 bob t1_id (db (fst after))) =
    ConflictReply "Task is being edited by another user" "alice" None.
Proof. repeat split; vm_compute; reflexivity. Qed.

(** ** C5: re-broadcast of client events *)

Lemma includes_In (x : string) (l : list string) :
  includes x l = true <-> In x l.
Proof.
  unfold includes. rewrite existsb_exists. split.
  - intros (y & Hy & Heq). apply String.eqb_eq in Heq. by subst.
  - intros H. exists x. by rewrite String.eqb_refl.
Qed.

Lemma recipients_broadcast (socks : list Socket) (sender sid : string) :
  In sid (recipients socks (Broadcast sender)) <->
  sid <> sender /\ exists s, In s socks /\ socketId s = sid.
Proof.
  simpl. rewrite in_map_iff. split.
  - intros (s & <- & [Hs Hne]%filter_In).
    apply negb_true_iff, String.eqb_neq in Hne. eauto.
  - intros (Hne & s & Hs & <-). exists s. split; [done|].
    apply filter_In. split; [done|]. by apply negb_true_iff, String.eqb_neq.
Qed.

Lemma recipients_all (socks : list Socket) (sid : string) :
  In sid (recipients socks ToAll) <-> exists s, In s socks /\ socketId s = sid.
Proof.
  simpl. rewrite in_map_iff. split; intros (s & H1 & H2); eauto.
Qed.

(** Every broadcasting handler emits once, to the others or to all. *)
Lemma onEvent_emits (s : Socket) (e : ClientEvent) (data : JObject) :
  e <> ping ->
  exists p,
    onEvent s e data =
      [mkEmission (if bool_decide (e = conflict_detected)
                   then ToAll else Broadcast (socketId s))
         (eventName e) p].
Proof. destruct e; intros He; try done; simpl; eauto. Qed.

(** C5, as the code has it.  A client event other than conflict_detected,
    sent by the socket [s], reaches every other connected socket once,
    under its own name, and does not reach [s]; conflict_detected reaches
    every connected socket once, [s] included. *)
Theorem rebroadcast_reach (socks : list Socket) (s : Socket)
    (e : ClientEvent) (data : JObject) :
  e <> ping ->
  exists p,
    (e <> conflict_detected ->
     delivered socks (onEvent s e data) (socketId s) = [] /\
     forall s', In s' socks -> socketId s' <> socketId s ->
       delivered socks (onEvent s e data) (socketId s') = [(eventName e, p)]) /\
    (e = conflict_detected ->
     forall s', In s' socks ->
       delivered socks (onEvent s e data) (socketId s')
         = [("conflict_detected", p)]).
Proof.
  intros Hping. destruct (onEvent_emits s e data Hping) as (p & ->).
  exists p. unfold delivered. simpl. split.
  - intros He. rewrite bool_decide_eq_false_2 by done. split.
    + destruct (includes _ _) eqn:Hin; [|done].
      apply includes_In, recipients_broadcast in Hin. by destruct Hin.
    + intros s' Hs' Hne.
      replace (includes _ _) with true; [done|].
      symmetry. apply includes_In, recipients_broadcast. eauto.
  - intros ->. simpl. intros s' Hs'.
    replace (includes _ _) with true; [done|].
    symmetry. apply includes_In, recipients_all. eauto.
Qed.

Lemma rebroadcast_reach_witness :
  exists p,
    (task_updated <> conflict_detected ->
     delivered [sock_a; sock_b] (onEvent sock_a task_updated []) "sock-a" = [] /\
     forall s', In s' [sock_a; sock_b] -> socketId s' <> "sock-a" ->
       delivered [sock_a; sock_b] (onEvent sock_a task_updated [])
         (socketId s') = [("task_updated", p)]) /\
    (task_updated = conflict_detected ->
     forall s', In s' [sock_a; sock_b] ->
       delivered [sock_a; sock_b] (onEvent sock_a task_updated [])
         (socketId s') = [("conflict_detected", p)]).
Proof.
  apply (rebroadcast_reach [sock_a; sock_b] sock_a task_updated []).
  discriminate.
Defined.

Example task_updated_reaches_others :
  delivered [sock_a; sock_b]
    (onEvent sock_a task_updated [("taskId", JStr t1_id)]) "sock-b"
  = [("task_updated", JObj [("taskId", JStr t1_id)])] /\
  delivered [sock_a; sock_b]
    (onEvent sock_a task_updated [("taskId", JStr t1_id)]) "sock-a" = [].
Proof. split; vm_compute; reflexivity. Qed.

(** C5, as the claim states it, fails: the conflict_detected event that
    Alice's socket sends is delivered back to Alice's socket. *)
Lemma no_echo_counterexample :
  In sock_a (sockets sv_editing) /\
  delivered (sockets sv_editing)
    (onEvent sock_a conflict_detected [("otherUser", JStr "bob")]) "sock-a"
  = [("conflict_detected",
      JObj [("otherUser", JStr "bob");
            ("conflictUsers", JArr [JStr "alice"; JStr "bob"])])].
Proof. split; [left; reflexivity | vm_compute; reflexivity]. Qed.

(** ** C6: what an update leaves alone *)

(** C6, as the code has it.  An accepted update leaves each of title,
    description, status, priority, assignedTo, createdBy and order as it
    was when the body does not name it, and leaves every other task as it
    was; a createdBy that the body names is written to the task like any
    other path. *)
Theorem update_frame now user id updates (d d' : Db) code k t' msg :
  updateTask now user id updates d = (d', TaskReply code k t' msg) ->
  exists task,
    tasks d !! k = Some task /\ tasks d' !! k = Some t' /\
    (named "title" updates = false -> title t' = title task) /\
    (named "description" updates = false ->
     description t' = description task) /\
    (named "status" updates = false -> status t' = status task) /\
    (named "priority" updates = false -> priority t' = priority task) /\
    (named "assignedTo" updates = false -> assignedTo t' = assignedTo task) /\
    (named "order" updates = false -> order t' = order task) /\
    (named "createdBy" updates = false -> createdBy t' = createdBy task) /\
    (forall v, lastOf selCreatedBy updates = Some v -> createdBy t' = v) /\
    (forall k', k' <> k -> tasks d' !! k' = tasks d !! k').
Proof.
  intros H.
  apply updateTask_accepted in H
    as (task & assigned & _ & Hk & _ & Ha & -> & _ & Hts).
  exists task. split; [done|]. split; [by rewrite Hts, lookup_insert_eq|].
  simpl.
  rewrite (applyUpdates_title _ _ _ Ha), (applyUpdates_description _ _ _ Ha),
    (applyUpdates_status _ _ _ Ha), (applyUpdates_priority _ _ _ Ha),
    (applyUpdates_assignedTo _ _ _ Ha), (applyUpdates_order _ _ _ Ha),
    (applyUpdates_createdBy _ _ _ Ha).
  repeat split.
  - intros Hn. rewrite (lastOf_not_named _ "title"); [done|key_of_sel|done].
  - intros Hn.
    rewrite (lastOf_not_named _ "description"); [done|key_of_sel|done].
  - intros Hn. rewrite (lastOf_not_named _ "status"); [done|key_of_sel|done].
  - intros Hn. rewrite (lastOf_not_named _ "priority"); [done|key_of_sel|done].
  - intros Hn.
    rewrite (lastOf_not_named _ "assignedTo"); [done|key_of_sel|done].
  - intros Hn. rewrite (lastOf_not_named _ "order"); [done|key_of_sel|done].
  - intros Hn.
    rewrite (lastOf_not_named _ "createdBy"); [done|key_of_sel|done].
  - by intros v ->.
  - intros k' Hne. rewrite Hts. by rewrite lookup_insert_ne.
Qed.

Lemma update_frame_witness :
  exists task,
    tasks db2 !! t1_id = Some task /\
    tasks (fst (updateTask 3000 alice t1_id [F_priority "high"] db2)) !! t1_id
      = Some task1_high /\
    (named "title" [F_priority "high"] = false ->
     title task1_high = title task) /\
    (named "description" [F_priority "high"] = false ->
     description task1_high = description task) /\
    (named "status" [F_priority "high"] = false ->
     status task1_high = status task) /\
    (named "priority" [F_priority "high"] = false ->
     priority task1_high = priority task) /\
    (named "assignedTo" [F_priority "high"] = false ->
     assignedTo task1_high = assignedTo task) /\
    (named "order" [F_priority "high"] = false ->
     order task1_high = order task) /\
    (named "createdBy" [F_priority "high"] = false ->
     createdBy task1_high = createdBy task) /\
    (forall v, lastOf selCreatedBy [F_priority "high"] = Some v ->
               createdBy task1_high = v) /\
    (forall k', k' <> t1_id ->
       tasks (fst (updateTask 3000 alice t1_id [F_priority "high"] db2)) !! k'
       = tasks db2 !! k').
Proof.
  apply (update_frame 3000 alice t1_id [F_priority "high"] db2 _ 200 t1_id
           task1_high "Task updated successfully").
  vm_compute. reflexivity.
Defined.

(** C6, as the claim states it, fails: Alice created the task, and her
    update with the body [{ createdBy: bob }] is accepted and stores Bob as
    its creator. *)
Lemma createdBy_counterexample :
  tasks db2 !! t1_id = Some task1_locked /\
  createdBy task1_locked = alice_id /\
  exists d' t',
    updateTask 3000 alice t1_id [F_createdBy bob_id] db2 =
      (d', TaskReply 200 t1_id t' "Task updated successfully") /\
    tasks d' !! t1_id = Some t' /\
    createdBy t' = bob_id /\
    createdBy t' <> createdBy task1_locked.
Proof.
  split; [vm_compute; reflexivity|]. split; [reflexivity|].
  eexists _, _. split; [vm_compute; reflexivity|].
  split; [vm_compute; reflexivity|]. split; [reflexivity|]. discriminate.
Qed.

(** ** C7: the periodic cleanup *)

Lemma expiredFor_expiredEvent (k k' : string) :
  expiredFor k (expiredEvent k') = String.eqb k' k.
Proof. reflexivity. Qed.

Lemma expired_count (P : string * Task -> bool) (l : list (string * Task))
    (k : string) :
  length (List.filter (expiredFor k)
            ((fun kt => expiredEvent (fst kt)) <$> List.filter P l)) =
  length (List.filter (fun kt => P kt && String.eqb (fst kt) k) l).
Proof.
  induction l as [|[k0 t0] l IH]; [done|].
  cbn [List.filter]. destruct (P (k0, t0)); cbn [andb]; [|exact IH].
  rewrite fmap_cons. cbn [List.filter fst].
  rewrite expiredFor_expiredEvent.
  destruct (String.eqb k0 k); cbn [length]; by rewrite IH.
Qed.

Lemma filter_key_absent (Q : string * Task -> bool)
    (l : list (string * Task)) (k : string) :
  ~ In k (l.*1) ->
  List.filter (fun kt => Q kt && String.eqb (fst kt) k) l = [].
Proof.
  induction l as [|[k0 t0] l IH]; simpl; [done|].
  intros Hn. destruct (String.eqb_spec k0 k) as [->|Hne].
  - exfalso. apply Hn. by left.
  - rewrite andb_false_r. apply IH. intros H. apply Hn. by right.
Qed.

Lemma filter_key_once (Q : string * Task -> bool)
    (l : list (string * Task)) (k : string) (t : Task) :
  List.NoDup (l.*1) -> In (k, t) l -> Q (k, t) = true ->
  length (List.filter (fun kt => Q kt && String.eqb (fst kt) k) l) = 1%nat.
Proof.
  induction l as [|[k0 t0] l IH]; simpl; [done|].
  intros Hnd Hin HQ. apply List.NoDup_cons_iff in Hnd as [Hk0 Hnd].
  destruct Hin as [[= -> ->]|Hin].
  - rewrite HQ, String.eqb_refl. simpl.
    by rewrite (filter_key_absent Q l k Hk0).
  - destruct (String.eqb_spec k0 k) as [->|Hne].
    + exfalso. apply Hk0. apply in_map_iff. by exists (k, t).
    + rewrite andb_false_r. by apply IH.
Qed.

Lemma isStale_true (staleTime : Z) (t : Task) :
  isStale staleTime t = true <->
  isBeingEdited t = true /\
  exists start, editStartTime t = Some start /\ start < staleTime.
Proof.
  unfold isStale. rewrite andb_true_iff. split.
  - intros [Hb Hs]. split; [done|].
    destruct (editStartTime t) as [s|]; [|done]. exists s.
    by apply Z.ltb_lt in Hs.
  - intros (Hb & s & -> & Hs). split; [done|]. by apply Z.ltb_lt.
Qed.

(** C7.  The cleanup, run at [now] on a collection with a task that is
    being edited since more than 300000 ms: the task is stored with the
    three lock fields cleared, exactly one edit_session_expired event for
    it is emitted (to all sockets, as every emission of the cleanup), and
    every task that is not being edited, or is being edited since 300000 ms
    or less, is stored as it was. *)
Theorem cleanup_expires now (d : Db) k t start :
  tasks d !! k = Some t ->
  isBeingEdited t = true -> editStartTime t = Some start ->
  300000 < now - start ->
  tasks (fst (cleanup now d)) !! k = Some (unlockTask t) /\
  (isBeingEdited (unlockTask t) = false /\ editedBy (unlockTask t) = None /\
   editStartTime (unlockTask t) = None) /\
  length (List.filter (expiredFor k) (snd (cleanup now d))) = 1%nat /\
  (forall k' t',
     tasks d !! k' = Some t' ->
     isBeingEdited t' = false \/
     (exists start', editStartTime t' = Some start' /\
                     now - start' <= 300000) ->
     tasks (fst (cleanup now d)) !! k' = Some t').
Proof.
  intros Hk Hb Hs Hold.
  assert (Hst : isStale (now - staleTimeout) t = true).
  { apply isStale_true. split; [done|]. exists start. split; [done|].
    unfold staleTimeout. lia. }
  assert (Hin : In (k, t) (map_to_list (tasks d))).
  { apply list_elem_of_In, elem_of_map_to_list. done. }
  unfold cleanup.
  set (P := fun kt : string * Task => isStale (now - staleTimeout) (snd kt)).
  assert (HinF : In (k, t) (List.filter P (map_to_list (tasks d)))).
  { apply filter_In. split; done. }
  destruct (0 <? length (List.filter P (map_to_list (tasks d))))%nat eqn:Hlen.
  2:{ apply Nat.ltb_ge in Hlen.
      destruct (List.filter P (map_to_list (tasks d))); [done|simpl in Hlen; lia]. }
  simpl. split; [|split; [done|split]].
  - rewrite lookup_fmap, Hk. simpl. by rewrite Hst.
  - rewrite expired_count.
    apply (filter_key_once P _ k t); [|done|done].
    apply NoDup_ListNoDup, NoDup_fst_map_to_list.
  - intros k' t' Hk' Hfresh. rewrite lookup_fmap, Hk'. simpl.
    replace (isStale (now - staleTimeout) t') with false; [done|].
    symmetry. apply not_true_iff_false. intros (Hb' & s' & Hs' & Hlt)%isStale_true.
    unfold staleTimeout in Hlt.
    destruct Hfresh as [Hf|(s'' & Hs'' & Hle)]; [congruence|].
    rewrite Hs' in Hs''. injection Hs'' as <-. lia.
Qed.

Lemma cleanup_expires_witness :
  tasks (fst (cleanup 303000 db2)) !! t1_id = Some (unlockTask task1_locked) /\
  (isBeingEdited (unlockTask task1_locked) = false /\
   editedBy (unlockTask task1_locked) = None /\
   editStartTime (unlockTask task1_locked) = None) /\
  length (List.filter (expiredFor t1_id) (snd (cleanup 303000 db2))) = 1%nat /\
  (forall k' t',
     tasks db2 !! k' = Some t' ->
     isBeingEdited t' = false \/
     (exists start', editStartTime t' = Some start' /\
                     303000 - start' <= 300000) ->
     tasks (fst (cleanup 303000 db2)) !! k' = Some t').
Proof.
  apply (cleanup_expires 303000 db2 t1_id task1_locked 2000);
    [vm_compute; reflexivity | reflexivity | reflexivity | lia].
Defined.

(** ** C8: the lock fields agree in every reachable state *)

Lemma lockCoherent_cleared (t : Task) :
  isBeingEdited t = false -> editedBy t = None -> editStartTime t = None ->
  lockCoherent t.
Proof. intros H1 H2 H3. unfold lockCoherent. rewrite H1, H2, H3. tauto. Qed.

Lemma lockCoherent_set (t : Task) e s :
  isBeingEdited t = true -> editedBy t = Some e -> editStartTime t = Some s ->
  lockCoherent t.
Proof.
  intros H1 H2 H3. unfold lockCoherent. rewrite H1, H2, H3.
  split; split; discriminate.
Qed.

Lemma lockCoherent_same (t t' : Task) :
  isBeingEdited t' = isBeingEdited t -> editedBy t' = editedBy t ->
  editStartTime t' = editStartTime t ->
  lockCoherent t -> lockCoherent t'.
Proof. intros H1 H2 H3. unfold lockCoherent. by rewrite H1, H2, H3. Qed.

Lemma coherent_insert (d : Db) k t :
  dbCoherent d -> lockCoherent t ->
  dbCoherent (set_tasks (<[k := t]> (tasks d)) d).
Proof.
  intros Hd Ht k' t'. simpl. destruct (decide (k = k')) as [->|Hne].
  - rewrite lookup_insert_eq. by intros [= <-].
  - rewrite lookup_insert_ne by done. apply Hd.
Qed.

Lemma coherent_same_tasks (d d' : Db) :
  tasks d' = tasks d -> dbCoherent d -> dbCoherent d'.
Proof. unfold dbCoherent. by intros ->. Qed.

Lemma coherent_logged now act tid u det descr (d : Db) :
  dbCoherent d -> dbCoherent (fst (logActivity now act tid u det descr d)).
Proof. apply coherent_same_tasks, logActivity_tasks. Qed.

Lemma insertTask_inr (k : string) (t : Task) (ts ts' : gmap string Task) :
  insertTask k t ts = inr ts' -> ts' = <[k := t]> ts.
Proof.
  unfold insertTask. destruct (validateTask t); [done|].
  destruct (ts !! k); [done|]. destruct (findByTitle _ _ _); [done|].
  by intros [= <-].
Qed.

Lemma createTask_coherent now user newId body (d : Db) :
  dbCoherent d -> dbCoherent (fst (createTask now user newId body d)).
Proof.
  intros Hd. unfold createTask.
  destruct (c_title body) as [ttl|]; [|done].
  destruct (c_assignedTo body) as [asg|]; [|done].
  destruct (_ || _); [done|].
  destruct (findByTitle _ _ _); [done|].
  destruct (castObjectId asg) as [a|]; [|done].
  destruct (findUser a (users d)); [|done].
  destruct (insertTask _ _ _) as [[m|]|ts] eqn:Hi; [done|done|].
  apply insertTask_inr in Hi. subst ts.
  destruct (logActivity _ _ _ _ _ _ _) as [d1 o] eqn:Hl. simpl.
  change d1 with (fst (d1, o)). rewrite <- Hl.
  apply coherent_logged, (coherent_insert d); [done|].
  by apply lockCoherent_cleared.
Qed.

Lemma updateTask_coherent now user id updates (d : Db) :
  dbCoherent d -> dbCoherent (fst (updateTask now user id updates d)).
Proof.
  intros Hd. unfold updateTask.
  destruct (castObjectId id) as [k|]; [|done].
  destruct (tasks d !! k) as [task|]; [|done].
  destruct (lockConflict now user task); [done|].
  destruct (match bodyTitle updates with Some _ => _ | None => _ end); [done|].
  destruct (applyUpdates task updates) as [assigned|]; [|done].
  destruct (saveTask _ _ _ _) as [[m|]|ts] eqn:Hs; [done|done|].
  apply saveTask_inr in Hs. subst ts. simpl.
  eapply coherent_same_tasks; [apply logChanges_tasks|].
  apply (coherent_insert d); [done|].
  by apply lockCoherent_cleared.
Qed.

Lemma deleteTask_coherent now user id (d : Db) :
  dbCoherent d -> dbCoherent (fst (deleteTask now user id d)).
Proof.
  intros Hd. unfold deleteTask.
  destruct (castObjectId id) as [k|]; [|done].
  destruct (tasks d !! k) as [task|]; [|done].
  destruct (_ && _); [done|].
  destruct (logActivity _ _ _ _ _ _ _) as [d1 o] eqn:Hl. simpl.
  change d1 with (fst (d1, o)). rewrite <- Hl.
  apply coherent_logged. intros k' t'. simpl.
  intros [_ H]%lookup_delete_Some. by apply (Hd k').
Qed.

Lemma smartAssign_coherent now user id (d : Db) :
  dbCoherent d -> dbCoherent (fst (smartAssign now user id d)).
Proof.
  intros Hd. unfold smartAssign.
  destruct (castObjectId id) as [k|]; [|done].
  destruct (tasks d !! k) as [task|] eqn:Hk; [|done].
  destruct (selectAssignee _ _) as [m [sel|]]; [|done].
  destruct (saveTask _ _ _ _) as [e|ts] eqn:Hs; [done|].
  apply saveTask_inr in Hs. subst ts.
  destruct (logActivity _ _ _ _ _ _ _) as [d1 o] eqn:Hl. simpl.
  change d1 with (fst (d1, o)). rewrite <- Hl.
  apply coherent_logged, (coherent_insert d); [done|].
  by apply (lockCoherent_same task), (Hd k).
Qed.

Lemma startEdit_coherent now user id (d : Db) :
  dbCoherent d -> dbCoherent (fst (startEdit now user id d)).
Proof.
  intros Hd. unfold startEdit.
  destruct (castObjectId id) as [k|]; [|done].
  destruct (tasks d !! k) as [task|]; [|done].
  destruct (lockConflict now user task); [done|].
  destruct (saveTask _ _ _ _) as [e|ts] eqn:Hs; [done|].
  apply saveTask_inr in Hs. subst ts. simpl.
  apply (coherent_insert d); [done|].
  by apply (lockCoherent_set _ (uid user) now).
Qed.

Lemma endEdit_coherent user id (d : Db) :
  dbCoherent d -> dbCoherent (fst (endEdit user id d)).
Proof.
  intros Hd. unfold endEdit.
  destruct (castObjectId id) as [k|]; [|done].
  destruct (tasks d !! k) as [task|]; [|done].
  destruct (heldBy user task); [|done].
  destruct (saveTask _ _ _ _) as [e|ts] eqn:Hs; [done|].
  apply saveTask_inr in Hs. subst ts. simpl.
  apply (coherent_insert d); [done|].
  by apply lockCoherent_cleared.
Qed.

Lemma reorderTasks_coherent now user body (d : Db) :
  dbCoherent d -> dbCoherent (fst (reorderTasks now user body d)).
Proof.
  intros Hd. unfold reorderTasks.
  destruct body as [entries|]; [|done].
  destruct (castOps entries) as [ops|]; [|done].
  destruct (logActivity _ _ _ _ _ _ _) as [d1 o] eqn:Hl. simpl.
  change d1 with (fst (d1, o)). rewrite <- Hl.
  apply coherent_logged. intros k t'. simpl. intros Hk.
  destruct (tasks d !! k) as [t|] eqn:Hold.
  - destruct (reorder_fold_lookup user ops _ k t Hold)
      as (t1 & H1 & _ & Hb & He & Hs).
    rewrite H1 in Hk. injection Hk as <-.
    by apply (lockCoherent_same t), (Hd k).
  - by rewrite (reorder_fold_absent user ops _ k Hold) in Hk.
Qed.

Lemma cleanup_coherent now (d : Db) :
  dbCoherent d -> dbCoherent (fst (cleanup now d)).
Proof.
  intros Hd. unfold cleanup. destruct (0 <? _)%nat; [|done].
  intros k t'. simpl. rewrite lookup_fmap.
  destruct (tasks d !! k) as [t|] eqn:Hk; [|done]. simpl. intros [= <-].
  destruct (isStale _ t); [by apply lockCoherent_cleared | by apply (Hd k)].
Qed.

(** Every request keeps the lock fields of every task coherent. *)
Lemma handle_coherent now user r (d : Db) :
  dbCoherent d -> dbCoherent (fst (handle now user r d)).
Proof.
  destruct r; simpl.
  - apply createTask_coherent.
  - apply updateTask_coherent.
  - apply deleteTask_coherent.
  - apply smartAssign_coherent.
  - apply startEdit_coherent.
  - apply endEdit_coherent.
  - apply reorderTasks_coherent.
Qed.

(** C8.  In every state the server reaches by requests (create, update,
    delete, smart-assign, start-edit, end-edit, reorder), cleanups and
    socket connections, every stored task has isBeingEdited = false exactly
    when editedBy is null, and editedBy null exactly when editStartTime is
    null; so a task that is being edited has both set. *)
Theorem lock_fields_coherent (sv : Server) :
  reachable sv ->
  forall k t, tasks (db sv) !! k = Some t ->
    (isBeingEdited t = false <-> editedBy t = None) /\
    (editedBy t = None <-> editStartTime t = None) /\
    (isBeingEdited t = true ->
     is_Some (editedBy t) /\ is_Some (editStartTime t)).
Proof.
  intros Hr.
  assert (Hc : dbCoherent (db sv)).
  { induction Hr as [us|sv now user r _ IH|sv now _ IH|sv now s _ IH
                    |sv now s _ IH]; simpl.
    - intros k t. simpl. by rewrite lookup_empty.
    - by apply handle_coherent.
    - by apply cleanup_coherent.
    - by apply (coherent_same_tasks (db sv)).
    - by apply (coherent_same_tasks (db sv)). }
  intros k t Hk. destruct (Hc k t Hk) as [H1 H2].
  split; [done|]. split; [done|]. intros Hb.
  destruct (editedBy t) as [e|] eqn:He.
  - split; [by eexists|]. destruct (editStartTime t) as [s|]; [by eexists|].
    destruct H2 as [_ H2]. by specialize (H2 eq_refl).
  - destruct H1 as [_ H1]. specialize (H1 eq_refl). congruence.
Qed.

Lemma lock_fields_coherent_witness :
  (isBeingEdited task1_locked = false <-> editedBy task1_locked = None) /\
  (editedBy task1_locked = None <-> editStartTime task1_locked = None) /\
  (isBeingEdited task1_locked = true ->
   is_Some (editedBy task1_locked) /\ is_Some (editStartTime task1_locked)).
Proof.
  apply (lock_fields_coherent
           (with_db (fst (handle 2000 alice (StartEdit t1_id)
              (db (with_db (fst (handle 1000 alice
                     (Create t1_id
                        (mkCreateBody (Some "Ship release") None
                           (Some alice_id) None)) (db sv0))) sv0))))
              (with_db (fst (handle 1000 alice
                     (Create t1_id
                        (mkCreateBody (Some "Ship release") None
                           (Some alice_id) None)) (db sv0))) sv0))
           ltac:(do 2 apply reach_request; apply reach_start) t1_id).
  vm_compute. reflexivity.
Defined.

(** ** C9: the assignment balancer *)

Lemma getTaskCounts_counts (ts : gmap string Task) (a : string) :
  default 0 (getTaskCounts ts !! a) =
  Z.of_nat (size (filter (fun kt : string * Task =>
                            isActive (snd kt) = true /\
                            assignedTo (snd kt) = a) ts)).
Proof.
  unfold getTaskCounts. revert a.
  apply (map_fold_weak_ind (fun r m => forall a,
    default 0 (r !! a) =
    Z.of_nat (size (filter (fun kt : string * Task =>
                              isActive (snd kt) = true /\
                              assignedTo (snd kt) = a) m)))).
  - intros a. by rewrite lookup_empty, map_filter_empty, map_size_empty.
  - intros i t m r Hi IH a.
    destruct (isActive t) eqn:Hact.
    + destruct (decide (assignedTo t = a)) as [<-|Hne].
      * rewrite lookup_insert_eq. simpl.
        rewrite map_filter_insert_True by done.
        rewrite map_size_insert_None
          by (apply map_lookup_filter_None; by left).
        rewrite IH. lia.
      * rewrite lookup_insert_ne by done.
        rewrite map_filter_insert_False by (simpl; tauto).
        by rewrite delete_id.
    + rewrite map_filter_insert_False by (simpl; intros [? _]; congruence).
      by rewrite delete_id.
Qed.

Lemma selectAssignee_snoc (l : list User) (u : User) (counts : gmap string Z) :
  selectAssignee (l ++ [u]) counts =
  considerUser counts (selectAssignee l counts) u.
Proof. unfold selectAssignee. by rewrite foldl_snoc. Qed.

(** What the loop has selected after the users [l]: nobody when [l] is
    empty, otherwise the first user of [l] with the least count. *)
Lemma selectAssignee_first_least (l : list User) (counts : gmap string Z) :
  (l = [] /\ selectAssignee l counts = (Infinity, None)) \/
  (exists (i : nat) u,
     l !! i = Some u /\
     selectAssignee l counts = (Finite (userTaskCount counts u), Some u) /\
     (forall v, v ∈ l -> userTaskCount counts u <= userTaskCount counts v) /\
     (forall (j : nat) v, (j < i)%nat -> l !! j = Some v ->
        userTaskCount counts u < userTaskCount counts v)).
Proof.
  induction l as [|x l IH] using rev_ind; [by left|]. right.
  rewrite selectAssignee_snoc.
  destruct IH as [[-> ->]|(i & u & Hi & -> & Hmin & Hfirst)].
  - exists 0%nat, x. simpl. split; [done|]. split; [done|]. split.
    + intros v ->%list_elem_of_singleton. lia.
    + intros j v Hj. lia.
  - unfold considerUser. simpl.
    destruct (userTaskCount counts x <? userTaskCount counts u) eqn:Hlt.
    + apply Z.ltb_lt in Hlt. exists (length l), x.
      split; [by rewrite list_lookup_middle|]. split; [done|]. split.
      * intros v [Hv| ->%list_elem_of_singleton]%elem_of_app; [|lia].
        specialize (Hmin v Hv). lia.
      * intros j v Hj Hv. rewrite lookup_app_l in Hv by done.
        apply list_elem_of_lookup_2 in Hv. specialize (Hmin v Hv). lia.
    + apply Z.ltb_ge in Hlt. exists i, u.
      split; [by apply lookup_app_l_Some|]. split; [done|]. split.
      * intros v [Hv| ->%list_elem_of_singleton]%elem_of_app; [by apply Hmin|done].
      * intros j v Hj Hv. apply (Hfirst j v Hj).
        apply lookup_lt_Some in Hi.
        by rewrite lookup_app_l in Hv by lia.
Qed.

Lemma isActive_spec (t : Task) :
  isActive t = true <-> status t = "todo" \/ status t = "in-progress".
Proof.
  unfold isActive, includes. cbn [existsb].
  rewrite orb_false_r, orb_true_iff, !String.eqb_eq. done.
Qed.

(** C9.  The counts the balancer uses are, per user, the number of tasks
    assigned to the user whose status is todo or in-progress, and a user
    the counts do not list counts 0.  Over a non-empty list of users the
    selection returns, with its count, the first user of the list whose
    count is the least: no user of the list has a smaller count, and every
    user before it has a greater one.  Over the empty list it selects
    nobody, and the route then answers 400 "No users available for
    assignment".  An accepted smart assignment assigns the task to the
    user selected from the user collection and the counts of the task
    collection. *)
Theorem selectAssignee_least_loaded (candidates : list User)
    (counts : gmap string Z) :
  (forall ts a,
     default 0 (getTaskCounts ts !! a) =
     Z.of_nat (size (filter (fun kt : string * Task =>
                               (status (snd kt) = "todo" \/
                                status (snd kt) = "in-progress") /\
                               assignedTo (snd kt) = a) ts))) /\
  (candidates = [] -> selectAssignee candidates counts = (Infinity, None)) /\
  (candidates <> [] ->
   exists (i : nat) u,
     candidates !! i = Some u /\
     selectAssignee candidates counts
       = (Finite (default 0 (counts !! uid u)), Some u) /\
     (forall v, v ∈ candidates ->
        default 0 (counts !! uid u) <= default 0 (counts !! uid v)) /\
     (forall (j : nat) v, (j < i)%nat -> candidates !! j = Some v ->
        default 0 (counts !! uid u) < default 0 (counts !! uid v))) /\
  (forall now user id k task d,
     castObjectId id = Some k -> tasks d !! k = Some task -> users d = [] ->
     smartAssign now user id d =
       (d, Message 400 "No users available for assignment")) /\
  (forall now user id d d' k t' msg a n,
     smartAssign now user id d = (d', SmartAssignReply k t' msg a n) ->
     exists selected,
       selectAssignee (users d) (getTaskCounts (tasks d))
         = (n, Some selected) /\
       assignedTo t' = uid selected /\ a = username selected).
Proof.
  split; [|split; [|split; [|split]]].
  - intros ts a. rewrite getTaskCounts_counts. do 2 f_equal.
    apply map_filter_ext. intros i t _. simpl. by rewrite isActive_spec.
  - by intros ->.
  - intros Hne.
    destruct (selectAssignee_first_least candidates counts) as [[-> _]|H];
      done.
  - intros now user id k task d Hid Hk Hus. unfold smartAssign.
    by rewrite Hid, Hk, Hus.
  - intros now user id d d' k t' msg a n. unfold smartAssign.
    destruct (castObjectId id) as [k0|]; [|done].
    destruct (tasks d !! k0) as [task|]; [|done].
    destruct (selectAssignee _ _) as [m [sel|]]; [|done].
    destruct (saveTask _ _ _ _) as [e|ts]; [done|].
    destruct (logActivity _ _ _ _ _ _ _) as [d1 o].
    intros [= <- <- <- _ <- <-]. by exists sel.
Qed.

(** The examples of the specification, and a task collection: with the
    loads A:2, B:0, C:1 the selection is B; with the tie A:1, B:1 it is A,
    the first of the list; and when Alice has two active tasks, Carol has
    one and Bob has only a task that is done, Bob is not listed in the
    counts and is selected. *)
Lemma selectAssignee_least_loaded_witness :
  selectAssignee [alice; bob; carol] loads_201 = (Finite 0, Some bob) /\
  selectAssignee [alice; bob] loads_tie = (Finite 1, Some alice) /\
  getTaskCounts busy_tasks !! bob_id = None /\
  selectAssignee [alice; bob; carol] (getTaskCounts busy_tasks)
    = (Finite 0, Some bob).
Proof.
  split; [|split; [|split; [reflexivity|]]].
  - destruct (selectAssignee_least_loaded [alice; bob; carol] loads_201)
      as (_ & _ & H & _).
    destruct (H ltac:(discriminate)) as (i & u & Hi & -> & Hmin & Hfirst).
    destruct i as [|[|[|i]]]; simpl in Hi; try discriminate;
      injection Hi as <-.
    + exfalso. specialize (Hmin bob (list_elem_of_lookup_2 [alice; bob; carol] 1%nat bob eq_refl)).
      vm_compute in Hmin. by apply Hmin.
    + reflexivity.
    + exfalso. specialize (Hfirst 1%nat bob ltac:(lia) eq_refl).
      vm_compute in Hfirst. discriminate.
  - destruct (selectAssignee_least_loaded [alice; bob] loads_tie)
      as (_ & _ & H & _).
    destruct (H ltac:(discriminate)) as (i & u & Hi & -> & Hmin & Hfirst).
    destruct i as [|[|i]]; simpl in Hi; try discriminate; injection Hi as <-.
    + reflexivity.
    + exfalso. specialize (Hfirst 0%nat alice ltac:(lia) eq_refl).
      vm_compute in Hfirst. discriminate.
  - destruct (selectAssignee_least_loaded [alice; bob; carol]
                (getTaskCounts busy_tasks)) as (_ & _ & H & _).
    destruct (H ltac:(discriminate)) as (i & u & Hi & -> & Hmin & Hfirst).
    destruct i as [|[|[|i]]]; simpl in Hi; try discriminate;
      injection Hi as <-.
    + exfalso. specialize (Hmin bob (list_elem_of_lookup_2 [alice; bob; carol] 1%nat bob eq_refl)).
      vm_compute in Hmin. by apply Hmin.
    + vm_compute. reflexivity.
    + exfalso. specialize (Hfirst 1%nat bob ltac:(lia) eq_refl).
      vm_compute in Hfirst. discriminate.
Defined.

(** ** C10: the activity record of a reorder *)

Lemma logActivity_without_task now act u det descr (d : Db) :
  validateActivity (newActivity now act None u det descr) = false /\
  logActivity now act None u det descr d = (d, None).
Proof.
  assert (H : validateActivity (newActivity now act None u det descr) = false).
  { unfold validateActivity, newActivity. simpl.
    by rewrite andb_false_r. }
  split; [done|]. unfold logActivity. by rewrite H.
Qed.

(** C10.  The record the reorder route hands to [logActivity] has taskId
    null, so it fails the validation of the Activity schema and
    [logActivity] stores nothing and returns nothing; whatever the request,
    the activity collection after a reorder is the one before; and a
    request whose body is an array of entries with castable ids is answered
    200 "Tasks reordered successfully", its operations written. *)
Theorem reorder_logs_nothing now user body (d : Db) :
  (forall act u det descr d0,
     validateActivity (newActivity now act None u det descr) = false /\
     logActivity now act None u det descr d0 = (d0, None)) /\
  activities (fst (reorderTasks now user body d)) = activities d /\
  (forall entries ops,
     body = Some entries -> castOps entries = Some ops ->
     reorderTasks now user body d =
       (set_tasks (foldl (reorderOne user) (tasks d) ops) d,
        Message 200 "Tasks reordered successfully")).
Proof.
  split; [|split].
  - intros. apply logActivity_without_task.
  - unfold reorderTasks. destruct body as [entries|]; [|done].
    destruct (castOps entries) as [ops|]; [|done].
    destruct (logActivity_without_task now "move" (Some (uid user))
                [("taskCount", JNum (Z.of_nat (length entries)))]
                (username user +:+ " reordered " +:+
                 pretty (Z.of_nat (length entries)) +:+ " tasks")
                (set_tasks (foldl (reorderOne user) (tasks d) ops) d))
      as [_ ->].
    done.
  - intros entries ops -> Hops. unfold reorderTasks. rewrite Hops.
    destruct (logActivity_without_task now "move" (Some (uid user))
                [("taskCount", JNum (Z.of_nat (length entries)))]
                (username user +:+ " reordered " +:+
                 pretty (Z.of_nat (length entries)) +:+ " tasks")
                (set_tasks (foldl (reorderOne user) (tasks d) ops) d))
      as [_ ->].
    done.
Qed.

Lemma reorder_logs_nothing_witness :
  activities (fst (reorderTasks 3000 bob (Some move_t1) db2)) = activities db2 /\
  reorderTasks 3000 bob (Some move_t1) db2 =
    (set_tasks (foldl (reorderOne bob) (tasks db2) [(t1_id, mkReorderEntry t1_id "done" 0)]) db2,
     Message 200 "Tasks reordered successfully").
Proof.
  destruct (reorder_logs_nothing 3000 bob (Some move_t1) db2)
    as (_ & Hlog & Hreply).
  split; [exact Hlog|].
  apply (Hreply move_t1); [reflexivity | vm_compute; reflexivity].
Defined.

(** The other routes do log: creating the task stored one record. *)
Example create_logs_one :
  action <$> activities db1 = ["create"] /\
  action <$> activities (fst (reorderTasks 3000 bob (Some move_t1) db1))
    = ["create"].
Proof. split; vm_compute; reflexivity. Qed.

(** * Further properties of the routes *)

(** ** A refused request writes nothing *)

Lemma logActivity_fst_tasks now act tid u det descr (d d1 : Db) o :
  logActivity now act tid u det descr d = (d1, o) -> tasks d1 = tasks d.
Proof.
  intros H. change d1 with (fst (d1, o)). rewrite <- H.
  apply logActivity_tasks.
Qed.

(** A request to create, delete, smart-assign, start-edit, end-edit or
    reorder that is answered with another status than 200 or 201 leaves
    the collections as they were: tasks, users and activities.  (The
    update route is left out: it answers after its logging loop, which
    runs after the write.) *)
Theorem refused_request_writes_nothing now user r (d : Db) :
  (forall id updates, r <> Update id updates) ->
  replyCode (snd (handle now user r d)) <> 200 ->
  replyCode (snd (handle now user r d)) <> 201 ->
  fst (handle now user r d) = d.
Proof.
  intros Hnot.
  destruct r as [newId body|id updates|id|id|id|id|body]; simpl.
  - unfold createTask.
    destruct (c_title body) as [ttl|]; [|done].
    destruct (c_assignedTo body) as [asg|]; [|done].
    destruct (_ || _); [done|].
    destruct (findByTitle _ _ _); [done|].
    destruct (castObjectId asg) as [a|]; [|done].
    destruct (findUser a (users d)); [|done].
    destruct (insertTask _ _ _) as [[m|]|ts]; [done|done|].
    destruct (logActivity _ _ _ _ _ _ _) as [d1 o]. simpl. done.
  - unfold updateTask.
    destruct (castObjectId id) as [k|]; [|done].
    destruct (tasks d !! k) as [task|]; [|done].
    destruct (lockConflict now user task); [done|].
    destruct (match bodyTitle updates with Some _ => _ | None => _ end);
      [done|].
    destruct (applyUpdates task updates) as [assigned|]; [|done].
    destruct (saveTask _ _ _ _) as [[m|]|ts]; [done|done|]. simpl. done.
  - unfold deleteTask.
    destruct (castObjectId id) as [k|]; [|done].
    destruct (tasks d !! k) as [task|]; [|done].
    destruct (_ && _); [done|].
    destruct (logActivity _ _ _ _ _ _ _) as [d1 o]. simpl. done.
  - unfold smartAssign.
    destruct (castObjectId id) as [k|]; [|done].
    destruct (tasks d !! k) as [task|]; [|done].
    destruct (selectAssignee _ _) as [m [sel|]]; [|done].
    destruct (saveTask _ _ _ _) as [e|ts]; [done|].
    destruct (logActivity _ _ _ _ _ _ _) as [d1 o]. simpl. done.
  - unfold startEdit.
    destruct (castObjectId id) as [k|]; [|done].
    destruct (tasks d !! k) as [task|]; [|done].
    destruct (lockConflict now user task); [done|].
    destruct (saveTask _ _ _ _) as [e|ts]; [done|]. simpl. done.
  - unfold endEdit.
    destruct (castObjectId id) as [k|]; [|done].
    destruct (tasks d !! k) as [task|]; [|done].
    destruct (heldBy user task); [|simpl; done].
    destruct (saveTask _ _ _ _) as [e|ts]; [done|]. simpl. done.
  - unfold reorderTasks. destruct body as [entries|]; [|done].
    destruct (castOps entries) as [ops|]; [|done].
    destruct (logActivity _ _ _ _ _ _ _) as [d1 o]. simpl. done.
Qed.

Lemma refused_request_writes_nothing_witness :
  fst (handle 3000 bob (StartEdit t1_id) db2) = db2 /\
  fst (handle 3000 bob (Delete t1_id) db2) = db2.
Proof.
  split; apply refused_request_writes_nothing;
    [discriminate | vm_compute; discriminate | vm_compute; discriminate
    |discriminate | vm_compute; discriminate | vm_compute; discriminate].
Defined.

(** ** Titles stay unique, and validated paths stay valid *)

Lemma findByTitle_false (ttl : string) (ex : option string)
    (ts : gmap string Task) :
  findByTitle ttl ex ts = false <->
  forall k t, ts !! k = Some t -> title t = ttl -> Some k = ex.
Proof.
  unfold findByTitle. rewrite bool_decide_eq_false. split.
  - intros Hno k t Hk Ht. destruct (decide (Some k = ex)) as [|Hne]; [done|].
    exfalso. apply Hno. exists k, t. done.
  - intros Hall (k & t & Hk & Ht & Hne). apply Hne. by apply (Hall k t).
Qed.

Lemma findByTitle_true (ttl : string) (ex : option string)
    (ts : gmap string Task) :
  findByTitle ttl ex ts = true <->
  exists k t, ts !! k = Some t /\ title t = ttl /\ Some k <> ex.
Proof. unfold findByTitle. by rewrite bool_decide_eq_true. Qed.

Lemma validateTask_None (t : Task) :
  validateTask t = None <->
  validatedPaths t /\ includes (status t) statusEnum = true.
Proof.
  unfold validateTask, validatedPaths, truthy.
  destruct (String.eqb_spec (title t) "") as [He|He]; cbn [negb].
  { split; [done|]. intros [[H _] _]. done. }
  destruct (Z.ltb_spec 100 (str_length (title t))).
  { split; [done|]. intros [(_ & H1 & _) _]. lia. }
  destruct (includes (toLowerCase (title t)) forbiddenNames).
  { split; [done|]. intros [(_ & _ & H1 & _) _]. done. }
  destruct (Z.ltb_spec 500 (str_length (description t))).
  { split; [done|]. intros [(_ & _ & _ & H1 & _) _]. lia. }
  destruct (includes (status t) statusEnum); cbn [negb].
  2:{ split; [done|]. intros [_ H1]. done. }
  destruct (includes (priority t) priorityEnum); cbn [negb].
  2:{ split; [done|]. intros [(_ & _ & _ & _ & H1) _]. done. }
  split; [|done]. intros _. repeat split; done.
Qed.

(** What [save()] of a stored document guarantees when it writes. *)
Lemma saveTask_written (k : string) (prior t : Task)
    (ts ts' : gmap string Task) :
  saveTask k prior t ts = inr ts' ->
  ts' = <[k := t]> ts /\ validateTask t = None /\
  (title t = title prior \/
   forall k2 t2, ts !! k2 = Some t2 -> title t2 = title t -> k2 = k).
Proof.
  unfold saveTask. destruct (validateTask t) eqn:Hv; [done|].
  destruct (String.eqb_spec (title prior) (title t)) as [He|He]; simpl.
  - intros [= <-]. auto.
  - destruct (findByTitle (title t) (Some k) ts) eqn:Hf; [done|].
    intros [= <-]. split; [done|]. split; [done|]. right.
    intros k2 t2 H2 Ht. rewrite findByTitle_false in Hf.
    specialize (Hf k2 t2 H2 Ht). by injection Hf.
Qed.

Lemma insertTask_written (k : string) (t : Task) (ts ts' : gmap string Task) :
  insertTask k t ts = inr ts' ->
  ts' = <[k := t]> ts /\ validateTask t = None /\ ts !! k = None /\
  forall k2 t2, ts !! k2 = Some t2 -> title t2 <> title t.
Proof.
  unfold insertTask. destruct (validateTask t) eqn:Hv; [done|].
  destruct (ts !! k) eqn:Hk; [done|].
  destruct (findByTitle (title t) None ts) eqn:Hf; [done|].
  intros [= <-]. repeat split; try done.
  intros k2 t2 H2 Ht. rewrite findByTitle_false in Hf.
  by specialize (Hf k2 t2 H2 Ht).
Qed.

(** How one request changes the task collection: not at all; by one
    validated write of a new document; by one validated write over a
    stored document; by one removal; or by the operations of a bulk
    write. *)
Lemma handle_tasks_shape now user r (d : Db) :
  let ts' := tasks (fst (handle now user r d)) in
  ts' = tasks d \/
  (exists k t', ts' = <[k := t']> (tasks d) /\ validateTask t' = None /\
     tasks d !! k = None /\
     forall k2 t2, tasks d !! k2 = Some t2 -> title t2 <> title t') \/
  (exists k t t', tasks d !! k = Some t /\ ts' = <[k := t']> (tasks d) /\
     validateTask t' = None /\
     (title t' = title t \/
      forall k2 t2, tasks d !! k2 = Some t2 -> title t2 = title t' -> k2 = k)) \/
  (exists k, ts' = delete k (tasks d)) \/
  (exists ops, ts' = foldl (reorderOne user) (tasks d) ops).
Proof.
  destruct r as [newId body|id updates|id|id|id|id|body]; simpl.
  - unfold createTask.
    destruct (c_title body) as [ttl|]; [|by left].
    destruct (c_assignedTo body) as [asg|]; [|by left].
    destruct (_ || _); [by left|].
    destruct (findByTitle _ _ _); [by left|].
    destruct (castObjectId asg) as [a|]; [|by left].
    destruct (findUser a (users d)); [|by left].
    destruct (insertTask _ _ _) as [[m|]|ts] eqn:Hi; [by left|by left|].
    apply insertTask_written in Hi as (-> & Hv & Hk & Ht).
    destruct (logActivity _ _ _ _ _ _ _) as [d1 o] eqn:Hl. simpl.
    rewrite (logActivity_fst_tasks _ _ _ _ _ _ _ _ _ Hl). simpl.
    right. left. eauto 10.
  - unfold updateTask.
    destruct (castObjectId id) as [k|]; [|by left].
    destruct (tasks d !! k) as [task|] eqn:Hk; [|by left].
    destruct (lockConflict now user task); [by left|].
    destruct (match bodyTitle updates with Some _ => _ | None => _ end);
      [by left|].
    destruct (applyUpdates task updates) as [assigned|]; [|by left].
    destruct (saveTask _ _ _ _) as [[m|]|ts] eqn:Hs; [by left|by left|].
    apply saveTask_written in Hs as (-> & Hv & Ht). simpl.
    rewrite logChanges_tasks. simpl. right. right. left. eauto 10.
  - unfold deleteTask.
    destruct (castObjectId id) as [k|]; [|by left].
    destruct (tasks d !! k) as [task|]; [|by left].
    destruct (_ && _); [by left|].
    destruct (logActivity _ _ _ _ _ _ _) as [d1 o] eqn:Hl. simpl.
    rewrite (logActivity_fst_tasks _ _ _ _ _ _ _ _ _ Hl). simpl.
    do 3 right. left. eauto.
  - unfold smartAssign.
    destruct (castObjectId id) as [k|]; [|by left].
    destruct (tasks d !! k) as [task|] eqn:Hk; [|by left].
    destruct (selectAssignee _ _) as [m [sel|]]; [|by left].
    destruct (saveTask _ _ _ _) as [e|ts] eqn:Hs; [by left|].
    apply saveTask_written in Hs as (-> & Hv & Ht).
    destruct (logActivity _ _ _ _ _ _ _) as [d1 o] eqn:Hl. simpl.
    rewrite (logActivity_fst_tasks _ _ _ _ _ _ _ _ _ Hl). simpl.
    right. right. left. eauto 10.
  - unfold startEdit.
    destruct (castObjectId id) as [k|]; [|by left].
    destruct (tasks d !! k) as [task|] eqn:Hk; [|by left].
    destruct (lockConflict now user task); [by left|].
    destruct (saveTask _ _ _ _) as [e|ts] eqn:Hs; [by left|].
    apply saveTask_written in Hs as (-> & Hv & Ht). simpl.
    right. right. left. eauto 10.
  - unfold endEdit.
    destruct (castObjectId id) as [k|]; [|by left].
    destruct (tasks d !! k) as [task|] eqn:Hk; [|by left].
    destruct (heldBy user task); [|by left].
    destruct (saveTask _ _ _ _) as [e|ts] eqn:Hs; [by left|].
    apply saveTask_written in Hs as (-> & Hv & Ht). simpl.
    right. right. left. eauto 10.
  - unfold reorderTasks. destruct body as [entries|]; [|by left].
    destruct (castOps entries) as [ops|]; [|by left].
    destruct (logActivity _ _ _ _ _ _ _) as [d1 o] eqn:Hl. simpl.
    rewrite (logActivity_fst_tasks _ _ _ _ _ _ _ _ _ Hl). simpl.
    do 4 right. eauto.
Qed.

Lemma sv2_reachable : reachable sv2.
Proof. do 2 apply reach_request. apply reach_start. Qed.

Lemma sv_two_reachable : reachable sv_two.
Proof. do 2 apply reach_request. apply reach_start. Qed.

Lemma reorderOne_paths user (ts : gmap string Task) op k t' :
  reorderOne user ts op !! k = Some t' ->
  exists t, ts !! k = Some t /\ title t' = title t /\
            description t' = description t /\ priority t' = priority t /\
            assignedTo t' = assignedTo t /\ createdBy t' = createdBy t.
Proof.
  unfold reorderOne. destruct (ts !! fst op) as [t0|] eqn:Hop.
  - destruct (decide (fst op = k)) as [<-|Hne].
    + rewrite lookup_insert_eq. intros [= <-]. exists t0. done.
    + rewrite lookup_insert_ne by done. intros H. exists t'. done.
  - intros H. exists t'. done.
Qed.

Lemma reorder_fold_paths user ops (ts : gmap string Task) k t' :
  foldl (reorderOne user) ts ops !! k = Some t' ->
  exists t, ts !! k = Some t /\ title t' = title t /\
            description t' = description t /\ priority t' = priority t /\
            assignedTo t' = assignedTo t /\ createdBy t' = createdBy t.
Proof.
  revert ts. induction ops as [|op r IH]; intros ts; simpl.
  - intros H. exists t'. done.
  - intros H. apply IH in H as (t1 & H1 & E1 & E2 & E3 & E4 & E5).
    apply reorderOne_paths in H1 as (t & H0 & F1 & F2 & F3 & F4 & F5).
    exists t. split; [done|]. repeat split; congruence.
Qed.

Lemma cleanup_paths now (d : Db) k t' :
  tasks (fst (cleanup now d)) !! k = Some t' ->
  exists t, tasks d !! k = Some t /\ title t' = title t /\
            description t' = description t /\ priority t' = priority t /\
            status t' = status t /\ version t' = version t.
Proof.
  unfold cleanup. destruct (0 <? _)%nat; simpl.
  - rewrite lookup_fmap. destruct (tasks d !! k) as [t|]; [|done]. simpl.
    intros [= <-]. exists t. split; [done|]. by destruct (isStale _ t).
  - intros H. exists t'. done.
Qed.

Lemma titlesUnique_preserved (ts ts' : gmap string Task) :
  (forall k t', ts' !! k = Some t' ->
     exists t, ts !! k = Some t /\ title t' = title t) ->
  titlesUnique ts -> titlesUnique ts'.
Proof.
  intros Hsame Hu k1 k2 t1 t2 H1 H2 Ht.
  apply Hsame in H1 as (u1 & H1 & E1). apply Hsame in H2 as (u2 & H2 & E2).
  apply (Hu k1 k2 u1 u2 H1 H2). congruence.
Qed.

Lemma titlesUnique_insert (ts : gmap string Task) k t :
  (forall k2 t2, ts !! k2 = Some t2 -> title t2 = title t -> k2 = k) ->
  titlesUnique ts -> titlesUnique (<[k := t]> ts).
Proof.
  intros Hfresh Hu k1 k2 t1 t2.
  destruct (decide (k = k1)) as [<-|N1], (decide (k = k2)) as [<-|N2];
    try done.
  - rewrite lookup_insert_eq, lookup_insert_ne by done.
    intros [= <-] H2 Ht. symmetry. by apply (Hfresh k2 t2).
  - rewrite lookup_insert_eq, lookup_insert_ne by done.
    intros H1 [= <-] Ht. by apply (Hfresh k1 t1).
  - rewrite !lookup_insert_ne by done. apply Hu.
Qed.

Lemma handle_titlesUnique now user r (d : Db) :
  titlesUnique (tasks d) -> titlesUnique (tasks (fst (handle now user r d))).
Proof.
  intros Hu.
  destruct (handle_tasks_shape now user r d)
    as [->|[(k & t' & -> & _ & _ & Hf)|[(k & t & t' & Hk & -> & _ & Ht)
       |[(k & ->)|(ops & ->)]]]].
  - done.
  - apply titlesUnique_insert; [|done].
    intros k2 t2 H2 E. by destruct (Hf k2 t2 H2).
  - apply titlesUnique_insert; [|done]. destruct Ht as [E|Hf]; [|done].
    intros k2 t2 H2 E2. apply (Hu k2 k t2 t H2 Hk). congruence.
  - apply (titlesUnique_preserved (tasks d)); [|done].
    intros k' t' [_ H]%lookup_delete_Some. by exists t'.
  - apply (titlesUnique_preserved (tasks d)); [|done].
    intros k' t' H. apply reorder_fold_paths in H as (t & H & E & _).
    by exists t.
Qed.

(** The title is unique among the stored tasks, in every state the server
    reaches: the routes that write a title go through the check of the
    unique index, and the others keep the titles. *)
Theorem titles_unique (sv : Server) :
  reachable sv ->
  forall k1 k2 t1 t2,
    tasks (db sv) !! k1 = Some t1 -> tasks (db sv) !! k2 = Some t2 ->
    k1 <> k2 -> title t1 <> title t2.
Proof.
  intros Hr.
  cut (titlesUnique (tasks (db sv))).
  { intros Hu k1 k2 t1 t2 H1 H2 Hne Ht. by apply Hne, (Hu k1 k2 t1 t2). }
  induction Hr as [us|sv now user r _ IH|sv now _ IH|sv now s _ IH
                  |sv now s _ IH]; simpl.
  - intros k1 k2 t1 t2. by rewrite lookup_empty.
  - by apply handle_titlesUnique.
  - apply (titlesUnique_preserved (tasks (db sv))); [|done].
    intros k t' H. apply cleanup_paths in H as (t & H & E & _). by exists t.
  - done.
  - done.
Qed.

Lemma titles_unique_witness :
  tasks (db sv_two) !! t1_id = Some task1 /\
  tasks (db sv_two) !! t2_id = Some task2 /\
  t1_id <> t2_id /\ title task1 <> title task2.
Proof.
  assert (H1 : tasks (db sv_two) !! t1_id = Some task1)
    by (vm_compute; reflexivity).
  assert (H2 : tasks (db sv_two) !! t2_id = Some task2)
    by (vm_compute; reflexivity).
  assert (Hne : t1_id <> t2_id) by discriminate.
  split; [exact H1|]. split; [exact H2|]. split; [exact Hne|].
  exact (titles_unique sv_two sv_two_reachable t1_id t2_id task1 task2
           H1 H2 Hne).
Defined.

Lemma handle_validatedPaths now user r (d : Db) :
  (forall k t, tasks d !! k = Some t -> validatedPaths t) ->
  forall k t, tasks (fst (handle now user r d)) !! k = Some t ->
              validatedPaths t.
Proof.
  intros Hd k0 t0.
  destruct (handle_tasks_shape now user r d)
    as [->|[(k & t' & -> & Hv & _)|[(k & t & t' & Hk & -> & Hv & _)
       |[(k & ->)|(ops & ->)]]]].
  - apply Hd.
  - destruct (decide (k = k0)) as [->|Hne].
    + rewrite lookup_insert_eq. intros [= <-]. by apply validateTask_None.
    + rewrite lookup_insert_ne by done. apply Hd.
  - destruct (decide (k = k0)) as [->|Hne].
    + rewrite lookup_insert_eq. intros [= <-]. by apply validateTask_None.
    + rewrite lookup_insert_ne by done. apply Hd.
  - intros [_ H]%lookup_delete_Some. by apply (Hd k0).
  - intros H. apply reorder_fold_paths in H as (t & H & E1 & E2 & E3 & _).
    specialize (Hd k0 t H). unfold validatedPaths in *.
    by rewrite E1, E2, E3.
Qed.

(** In every state the server reaches, every stored task has a title that
    is not empty, has at most 100 characters and is no column name in any
    letter case.  (The status has no such guarantee: the reorder route
    writes it unvalidated.) *)
Theorem validated_paths_hold (sv : Server) :
  reachable sv ->
  forall k t, tasks (db sv) !! k = Some t ->
    title t <> "" /\ str_length (title t) <= 100 /\
    includes (toLowerCase (title t)) forbiddenNames = false.
Proof.
  intros Hr.
  cut (forall k t, tasks (db sv) !! k = Some t -> validatedPaths t).
  { intros H k t Hk. destruct (H k t Hk) as (H1 & H2 & H3 & _). done. }
  induction Hr as [us|sv now user r _ IH|sv now _ IH|sv now s _ IH
                  |sv now s _ IH]; simpl.
  - intros k t. by rewrite lookup_empty.
  - by apply handle_validatedPaths.
  - intros k t' H. apply cleanup_paths in H as (t & H & E1 & E2 & E3 & _).
    specialize (IH k t H). unfold validatedPaths in *. by rewrite E1, E2, E3.
  - done.
  - done.
Qed.

Lemma validated_paths_hold_witness :
  title task1_locked <> "" /\ str_length (title task1_locked) <= 100 /\
  includes (toLowerCase (title task1_locked)) forbiddenNames = false.
Proof.
  apply (validated_paths_hold sv2 sv2_reachable t1_id).
  vm_compute. reflexivity.
Defined.

(** ** Creating a task *)

Lemma truthy_false (s : string) : truthy s = false <-> s = "".
Proof. unfold truthy. by rewrite negb_false_iff, String.eqb_eq. Qed.

Lemma truthy_app (a b : string) : truthy b = true -> truthy (a +:+ b) = true.
Proof. destruct a; [done|]. by destruct b. Qed.

Lemma truthy_app_l (a b : string) : truthy a = true -> truthy (a +:+ b) = true.
Proof. by destruct a. Qed.

(** A record with its task and user ids, an action of the enumeration and
    a description that is not empty is stored, last in the collection. *)
Lemma logActivity_stores now act k u det descr (d : Db) :
  includes act actionEnum = true -> truthy descr = true ->
  logActivity now act (Some k) (Some u) det descr d =
    (set_activities
       (activities d ++ [newActivity now act (Some k) (Some u) det descr]) d,
     Some (newActivity now act (Some k) (Some u) det descr)).
Proof.
  intros Ha Hd. unfold logActivity.
  replace (validateActivity _) with true; [done|].
  assert (Ht : truthy act = true).
  { destruct act; [vm_compute in Ha; done|done]. }
  unfold validateActivity, newActivity.
  cbn [action taskId userId a_description is_some].
  by rewrite Ht, Ha, Hd.
Qed.

Lemma lastTodoOrder_bound (ts : gmap string Task) :
  match lastTodoOrder ts with
  | Some m =>
    (exists k t, ts !! k = Some t /\ status t = "todo" /\ order t = m) /\
    forall k t, ts !! k = Some t -> status t = "todo" -> order t <= m
  | None => forall k t, ts !! k = Some t -> status t <> "todo"
  end.
Proof.
  unfold lastTodoOrder.
  apply (map_fold_weak_ind (fun (r : option Z) (m : gmap string Task) =>
    match r with
    | Some b =>
      (exists k t, m !! k = Some t /\ status t = "todo" /\ order t = b) /\
      forall k t, m !! k = Some t -> status t = "todo" -> order t <= b
    | None => forall k t, m !! k = Some t -> status t <> "todo"
    end)).
  - intros k t. by rewrite lookup_empty.
  - intros i x m r Hi IH.
    destruct (String.eqb_spec (status x) "todo") as [Hx|Hx].
    + split.
      * destruct r as [b|]; [|exists i, x; by rewrite lookup_insert_eq].
        destruct (Z.max_spec b (order x)) as [[_ ->]|[_ ->]].
        -- exists i, x. by rewrite lookup_insert_eq.
        -- destruct IH as [(k & t & Hk & Ht & Ho) _]. exists k, t.
           rewrite lookup_insert_ne; [done|]. intros <-. congruence.
      * intros k t. destruct (decide (i = k)) as [->|Hne].
        -- rewrite lookup_insert_eq. intros [= <-] _. destruct r; lia.
        -- rewrite lookup_insert_ne by done. intros Hk Ht.
           destruct r as [b|].
           ++ destruct IH as [_ IH]. specialize (IH k t Hk Ht). lia.
           ++ by destruct (IH k t Hk).
    + destruct r as [b|].
      * destruct IH as [(k & t & Hk & Ht & Ho) IH]. split.
        -- exists k, t. rewrite lookup_insert_ne; [done|]. intros <-. congruence.
        -- intros k' t'. destruct (decide (i = k')) as [->|Hne];
             [rewrite lookup_insert_eq; intros [= <-]
             |rewrite lookup_insert_ne by done; apply IH]; done.
      * intros k t; (destruct (decide (i = k)) as [->|Hne];
          [rewrite lookup_insert_eq; intros [= <-]
          |rewrite lookup_insert_ne by done; apply IH]); done.
Qed.

(** An accepted create stores, under the new id, a task at version 1 in
    the todo column, not being edited, created and last modified by the
    requester, assigned to a user of the collection.  Its order is 0 when
    the todo column is empty, and otherwise the largest order of the todo
    column + 1 in the arithmetic of doubles, which is above the order of
    every task of the todo column when these orders are safe integers.
    The other tasks are as they were, and one create record is added to
    the activity log. *)
Theorem createTask_starts now user newId body (d d' : Db) code k t msg :
  createTask now user newId body d = (d', TaskReply code k t msg) ->
  code = 201 /\ k = newId /\ tasks d !! newId = None /\
  tasks d' = <[newId := t]> (tasks d) /\
  status t = "todo" /\ version t = 1 /\
  (isBeingEdited t = false /\ editedBy t = None /\ editStartTime t = None) /\
  createdBy t = uid user /\ lastModifiedBy t = Some (uid user) /\
  (exists u, findUser (assignedTo t) (users d) = Some u) /\
  ((forall k2 t2, tasks d !! k2 = Some t2 -> status t2 <> "todo") ->
   order t = 0) /\
  (forall k1 t1,
     tasks d !! k1 = Some t1 -> status t1 = "todo" ->
     (forall k2 t2, tasks d !! k2 = Some t2 -> status t2 = "todo" ->
        order t2 <= order t1) ->
     order t = plusOne (order t1)) /\
  ((forall k2 t2, tasks d !! k2 = Some t2 -> status t2 = "todo" ->
      safeInteger (order t2)) ->
   forall k2 t2, tasks d !! k2 = Some t2 -> status t2 = "todo" ->
     order t2 < order t) /\
  exists a, activities d' = activities d ++ [a] /\ action a = "create" /\
            taskId a = Some newId /\ userId a = Some (uid user).
Proof.
  unfold createTask.
  destruct (c_title body) as [ttl|]; [|done].
  destruct (c_assignedTo body) as [asg|]; [|done].
  destruct (_ || _); [done|].
  destruct (findByTitle _ _ _); [done|].
  destruct (castObjectId asg) as [a|]; [|done].
  destruct (findUser a (users d)) as [u|] eqn:Hu; [|done].
  destruct (insertTask _ _ _) as [[m|]|ts] eqn:Hi; [done|done|].
  apply insertTask_written in Hi as (-> & Hv & Hk & Ht).
  rewrite logActivity_stores; [|done|].
  2:{ apply truthy_app. done. }
  intros [= <- <- <- <- _]. cbn [status version isBeingEdited editedBy
    editStartTime createdBy lastModifiedBy assignedTo order].
  pose proof (lastTodoOrder_bound (tasks d)) as Hb.
  repeat split; try done.
  - by exists u.
  - intros Hnone. destruct (lastTodoOrder (tasks d)) as [m|]; [|done].
    destruct Hb as [(k2 & t2 & H2 & Hs & _) _]. by destruct (Hnone k2 t2 H2).
  - intros k1 t1 H1 Hs1 Hmax. destruct (lastTodoOrder (tasks d)) as [m|].
    + destruct Hb as [(k2 & t2 & H2 & Hs2 & <-) Hb]. f_equal.
      specialize (Hb k1 t1 H1 Hs1). specialize (Hmax k2 t2 H2 Hs2). lia.
    + by destruct (Hb k1 t1 H1).
  - intros Hsafe k2 t2 H2 Hs. destruct (lastTodoOrder (tasks d)) as [m|].
    + destruct Hb as [(k1 & t1 & H1 & Hs1 & <-) Hb].
      rewrite plusOne_exact by by apply (Hsafe k1 t1).
      specialize (Hb k2 t2 H2 Hs). lia.
    + by destruct (Hb k2 t2 H2).
  - eexists. split; [done|]. done.
Qed.

Lemma createTask_starts_witness :
  createTask 1100 bob t2_id notes_body db1 =
    (db_two, TaskReply 201 t2_id task2 "Task created successfully") /\
  tasks db1 !! t1_id = Some task1 /\ status task1 = "todo" /\
  tasks db_two = <[t2_id := task2]> (tasks db1) /\
  status task2 = "todo" /\ version task2 = 1 /\
  createdBy task2 = uid bob /\
  order task2 = plusOne (order task1) /\ order task1 < order task2 /\
  exists a, activities db_two = activities db1 ++ [a] /\
            action a = "create" /\ taskId a = Some t2_id /\
            userId a = Some (uid bob).
Proof.
  assert (Hc : createTask 1100 bob t2_id notes_body db1 =
                 (db_two, TaskReply 201 t2_id task2
                            "Task created successfully"))
    by (vm_compute; reflexivity).
  assert (H1 : tasks db1 !! t1_id = Some task1) by (vm_compute; reflexivity).
  assert (Hall : forall k2 t2, tasks db1 !! k2 = Some t2 ->
                               k2 = t1_id /\ t2 = task1).
  { intros k2 t2. change (tasks db1) with (<[t1_id := task1]> (∅ : gmap string Task)).
    destruct (decide (t1_id = k2)) as [<-|Hne].
    - rewrite lookup_insert_eq. intros H. split; [reflexivity|congruence].
    - rewrite lookup_insert_ne by exact Hne. rewrite lookup_empty.
      discriminate. }
  destruct (createTask_starts 1100 bob t2_id notes_body db1 db_two 201 t2_id
              task2 "Task created successfully" Hc)
    as (_ & _ & _ & Hts & Hst & Hver & _ & Hby & _ & _ & _ & Hmax & Hlt & Hlog).
  split; [exact Hc|]. split; [exact H1|]. split; [reflexivity|].
  split; [exact Hts|]. split; [exact Hst|]. split; [exact Hver|].
  split; [exact Hby|]. split; [|split; [|exact Hlog]].
  - apply (Hmax t1_id task1 H1 eq_refl).
    intros k2 t2 H2 _. destruct (Hall k2 t2 H2) as [_ ->]. reflexivity.
  - apply (Hlt ltac:(intros k2 t2 H2 _; destruct (Hall k2 t2 H2) as [_ ->];
                     vm_compute; split; [discriminate|reflexivity])
             t1_id task1 H1 eq_refl).
Defined.

(** Beside a task of the todo column whose order is 2 ^ 53, which an
    update or a reorder can store, the new task gets that same order. *)
Example createTask_order_tie :
  order <$> tasks db_far !! t1_id = Some (2 ^ 53) /\
  order <$> tasks (fst (createTask 1600 bob t2_id notes_body db_far)) !! t2_id
    = Some (2 ^ 53).
Proof. split; vm_compute; reflexivity. Qed.

(** A create whose trimmed title is a column name in any letter case, or
    is the title of a stored task, never writes: the reply is a 400 or a
    500 and the collections are as they were.  When the title is free, the
    assignee is given and names a user of the collection, the reply for a
    column name is the 400 of the schema's validator; when the title is
    taken and title and assignee are given, it is the 400 of the unique
    title. *)
Theorem createTask_refuses_title now user newId body ttl (d : Db) :
  c_title body = Some ttl ->
  includes (toLowerCase (trim ttl)) forbiddenNames = true \/
  findByTitle (trim ttl) None (tasks d) = true ->
  fst (createTask now user newId body d) = d /\
  (replyCode (snd (createTask now user newId body d)) = 400 \/
   replyCode (snd (createTask now user newId body d)) = 500) /\
  (forall asg a u,
     includes (toLowerCase (trim ttl)) forbiddenNames = true ->
     findByTitle (trim ttl) None (tasks d) = false ->
     c_assignedTo body = Some asg -> asg <> "" ->
     castObjectId asg = Some a -> findUser a (users d) = Some u ->
     snd (createTask now user newId body d) =
       Message 400
         "Task title cannot be a column name (Todo, In Progress, Done)") /\
  (forall asg,
     findByTitle (trim ttl) None (tasks d) = true ->
     ttl <> "" -> c_assignedTo body = Some asg -> asg <> "" ->
     snd (createTask now user newId body d) =
       Message 400 "Task title must be unique").
Proof.
  intros Hb Hbad.
  assert (Hins : forall t, title t = trim ttl ->
            exists e, insertTask newId t (tasks d) = inl e).
  { intros t Ht. unfold insertTask.
    destruct (validateTask t) eqn:Hv; [by eauto|].
    destruct (tasks d !! newId); [by eauto|].
    destruct Hbad as [Hcol|Hdup].
    - apply validateTask_None in Hv as [(_ & _ & Hc & _) _].
      rewrite Ht in Hc. congruence.
    - rewrite Ht, Hdup. eauto. }
  unfold createTask. rewrite Hb.
  destruct (c_assignedTo body) as [asg|] eqn:Hasg.
  2:{ simpl. split; [done|]. split; [by left|]. split; intros; done. }
  destruct (negb (truthy ttl) || negb (truthy asg)) eqn:Hreq.
  { simpl. split; [done|]. split; [by left|]. split.
    - intros asg' a u Hcol _ [= <-] Hne. exfalso.
      apply orb_true_iff in Hreq as [Hr|Hr];
        apply negb_true_iff, truthy_false in Hr.
      + subst ttl. by vm_compute in Hcol.
      + done.
    - intros asg' Hdup Hne [= <-] Hne'. exfalso.
      apply orb_true_iff in Hreq as [Hr|Hr];
        apply negb_true_iff, truthy_false in Hr; done. }
  destruct (findByTitle (trim ttl) None (tasks d)) eqn:Hdup.
  { simpl. split; [done|]. split; [by left|]. split; intros; done. }
  destruct Hbad as [Hcol|?]; [|done].
  destruct (castObjectId asg) as [a|] eqn:Ha.
  2:{ simpl. split; [done|]. split; [by right|]. split; intros; [|done].
      congruence. }
  destruct (findUser a (users d)) as [u|] eqn:Hu.
  2:{ simpl. split; [done|]. split; [by left|]. split; intros; [|done].
      congruence. }
  match goal with |- context [insertTask newId ?t (tasks d)] =>
    destruct (Hins t eq_refl) as [e He];
    assert (Hv : validateTask t =
      Some "Task title cannot be a column name (Todo, In Progress, Done)")
  end.
  { unfold validateTask. cbn [title].
    destruct (negb (truthy (trim ttl))) eqn:Hemp.
    { apply negb_true_iff, truthy_false in Hemp. rewrite Hemp in Hcol.
      by vm_compute in Hcol. }
    destruct (100 <? str_length (trim ttl)) eqn:Hlen.
    { exfalso. clear -Hcol Hlen. apply Z.ltb_lt in Hlen.
      unfold includes, forbiddenNames in Hcol. cbn [existsb] in Hcol.
      assert (Hl : forall s, String.length (toLowerCase s) = String.length s).
      { induction s as [|c s IH]; simpl; [done|]. by rewrite IH. }
      unfold str_length in Hlen. rewrite <- Hl in Hlen.
      repeat (apply orb_true_iff in Hcol as [Hcol|Hcol];
              [apply String.eqb_eq in Hcol; rewrite Hcol in Hlen;
               simpl in Hlen; lia|]).
      done. }
    by rewrite Hcol. }
  unfold insertTask in He. rewrite Hv in He. injection He as <-.
  unfold insertTask. rewrite Hv. simpl.
  split; [done|]. split; [by left|]. split; intros; [done|congruence].
Qed.

Lemma createTask_refuses_title_witness :
  fst (createTask 5000 bob t2_id
         (mkCreateBody (Some " ToDo ") None (Some bob_id) None) db1) = db1 /\
  (replyCode (snd (createTask 5000 bob t2_id
         (mkCreateBody (Some " ToDo ") None (Some bob_id) None) db1)) = 400 \/
   replyCode (snd (createTask 5000 bob t2_id
         (mkCreateBody (Some " ToDo ") None (Some bob_id) None) db1)) = 500) /\
  fst (createTask 5000 bob t2_id
         (mkCreateBody (Some "Ship release") None (Some bob_id) None) db1)
    = db1.
Proof.
  destruct (createTask_refuses_title 5000 bob t2_id
              (mkCreateBody (Some " ToDo ") None (Some bob_id) None)
              " ToDo " db1 eq_refl
              ltac:(left; vm_compute; reflexivity)) as (H1 & H2 & _).
  destruct (createTask_refuses_title 5000 bob t2_id
              (mkCreateBody (Some "Ship release") None (Some bob_id) None)
              "Ship release" db1 eq_refl
              ltac:(right; vm_compute; reflexivity)) as (H3 & _).
  split; [exact H1|]. split; [exact H2|exact H3].
Defined.

(** ** Deleting a task *)

(** Only the creator and the assignee delete a task.  Anyone else gets the
    403 and the collections stay as they were; for the creator or the
    assignee the task is removed, the other tasks and the users are as they
    were, one delete record is added to the log, and the reply is the 200.
    The edit lock is not consulted. *)
Theorem deleteTask_authorised now user id k task (d : Db) :
  castObjectId id = Some k -> tasks d !! k = Some task ->
  (createdBy task <> uid user -> assignedTo task <> uid user ->
   deleteTask now user id d =
     (d, Message 403 "Not authorized to delete this task")) /\
  (createdBy task = uid user \/ assignedTo task = uid user ->
   exists a,
     deleteTask now user id d =
       (mkDb (delete k (tasks d)) (users d) (activities d ++ [a]),
        Message 200 "Task deleted successfully") /\
     action a = "delete" /\ taskId a = Some k /\ userId a = Some (uid user)).
Proof.
  intros Hid Hk. unfold deleteTask. rewrite Hid, Hk. split.
  - intros Hc Ha.
    apply String.eqb_neq in Hc. apply String.eqb_neq in Ha.
    by rewrite Hc, Ha.
  - intros Hown.
    replace (negb (String.eqb (createdBy task) (uid user)) &&
             negb (String.eqb (assignedTo task) (uid user))) with false.
    2:{ symmetry. apply andb_false_iff.
        destruct Hown as [->| ->]; [left|right];
          by rewrite String.eqb_refl. }
    rewrite logActivity_stores; [|done|by apply truthy_app].
    eexists. split; [done|]. done.
Qed.

Lemma deleteTask_authorised_witness :
  deleteTask 4000 bob t1_id db2 =
    (db2, Message 403 "Not authorized to delete this task") /\
  exists a,
    deleteTask 4000 alice t1_id db2 =
      (mkDb (delete t1_id (tasks db2)) (users db2) (activities db2 ++ [a]),
       Message 200 "Task deleted successfully") /\
    action a = "delete" /\ taskId a = Some t1_id /\ userId a = Some (uid alice).
Proof.
  split.
  - apply (deleteTask_authorised 4000 bob t1_id t1_id task1_locked db2);
      [vm_compute; reflexivity | vm_compute; reflexivity
      | discriminate | discriminate].
  - apply (deleteTask_authorised 4000 alice t1_id t1_id task1_locked db2);
      [vm_compute; reflexivity | vm_compute; reflexivity | left; reflexivity].
Defined.

(** ** Ending an edit session *)

(** end-edit on a stored task is always answered with the 200.  It clears
    the three lock fields when the requester is the editor on record (the
    task then has to pass the validation of [save()]), and writes nothing
    when the editor on record is someone else or nobody. *)
Theorem endEdit_releases_own user id k task (d : Db) :
  castObjectId id = Some k -> tasks d !! k = Some task ->
  (editedBy task <> Some (uid user) ->
   endEdit user id d = (d, Message 200 "Edit session ended")) /\
  (editedBy task = Some (uid user) -> validateTask task = None ->
   endEdit user id d =
     (set_tasks (<[k := unlockTask task]> (tasks d)) d,
      Message 200 "Edit session ended") /\
   isBeingEdited (unlockTask task) = false /\
   editedBy (unlockTask task) = None /\
   editStartTime (unlockTask task) = None).
Proof.
  intros Hid Hk. unfold endEdit, heldBy. rewrite Hid, Hk. split.
  - intros Hne. destruct (editedBy task) as [e|]; [|done].
    destruct (String.eqb_spec e (uid user)) as [->|]; done.
  - intros He Hv. rewrite He, String.eqb_refl.
    by rewrite saveTask_same_title.
Qed.

Lemma endEdit_releases_own_witness :
  endEdit bob t1_id db2 = (db2, Message 200 "Edit session ended") /\
  endEdit alice t1_id db2 =
    (set_tasks (<[t1_id := unlockTask task1_locked]> (tasks db2)) db2,
     Message 200 "Edit session ended").
Proof.
  destruct (endEdit_releases_own bob t1_id t1_id task1_locked db2
              ltac:(vm_compute; reflexivity) ltac:(vm_compute; reflexivity))
    as [Hother _].
  destruct (endEdit_releases_own alice t1_id t1_id task1_locked db2
              ltac:(vm_compute; reflexivity) ltac:(vm_compute; reflexivity))
    as [_ Hown].
  split; [apply Hother; discriminate|].
  apply Hown; [reflexivity | vm_compute; reflexivity].
Defined.

(** start-edit followed by end-edit of the same user, on a task that is
    not being edited, gives back the collections exactly as they were,
    whether or not the start-edit could be saved. *)
Theorem startEdit_endEdit_roundtrip now user id k task (d : Db) :
  castObjectId id = Some k -> tasks d !! k = Some task ->
  isBeingEdited task = false -> editedBy task = None ->
  editStartTime task = None ->
  fst (endEdit user id (fst (startEdit now user id d))) = d.
Proof.
  intros Hid Hk Hb He Hs.
  unfold startEdit. rewrite Hid, Hk.
  replace (lockConflict now user task) with false.
  2:{ symmetry. apply lockConflict_false. by left. }
  destruct (validateTask task) as [m|] eqn:Hv.
  - replace (saveTask k task (lockTask now user task) (tasks d))
      with (inl (ValidationError m) : SaveError + gmap string Task).
    2:{ unfold saveTask. by rewrite validateTask_lockTask, Hv. }
    simpl. unfold endEdit, heldBy. by rewrite Hid, Hk, He.
  - rewrite saveTask_same_title; [|done|done]. simpl.
    unfold endEdit, heldBy. rewrite Hid. simpl.
    rewrite lookup_insert_eq. simpl. rewrite String.eqb_refl.
    rewrite saveTask_same_title; [|done|done]. simpl.
    rewrite insert_insert_eq.
    replace (unlockTask (lockTask now user task)) with task.
    2:{ destruct task. simpl in *. by subst. }
    rewrite insert_id by done. by destruct d.
Qed.

Lemma startEdit_endEdit_roundtrip_witness :
  tasks (fst (startEdit 2000 alice t1_id db1)) !! t1_id = Some task1_locked /\
  fst (endEdit alice t1_id (fst (startEdit 2000 alice t1_id db1))) = db1 /\
  fst (endEdit alice t1_id (fst (startEdit 2000 alice t1_id (db sv_parked))))
    = db sv_parked.
Proof.
  split; [vm_compute; reflexivity|]. split.
  - apply (startEdit_endEdit_roundtrip 2000 alice t1_id t1_id task1 db1);
      try reflexivity; vm_compute; reflexivity.
  - apply (startEdit_endEdit_roundtrip 2000 alice t1_id t1_id task1_parked
             (db sv_parked)); try reflexivity; vm_compute; reflexivity.
Defined.

(** ** Updating a task *)

Lemma lockConflict_unlocked now user (t : Task) :
  isBeingEdited t = false -> lockConflict now user t = false.
Proof. intros H. apply lockConflict_false. by left. Qed.

(** An accepted update ends the edit session: the stored task has the
    three lock fields cleared and the requester as its last modifier, and a
    start-edit of any user on it right after is accepted. *)
Theorem update_ends_session now user id updates (d d' : Db) code k t' msg :
  updateTask now user id updates d = (d', TaskReply code k t' msg) ->
  code = 200 /\
  tasks d' !! k = Some t' /\
  (isBeingEdited t' = false /\ editedBy t' = None /\
   editStartTime t' = None) /\
  lastModifiedBy t' = Some (uid user) /\
  forall now' user',
    startEdit now' user' id d' =
      (set_tasks (<[k := lockTask now' user' t']> (tasks d')) d',
       Message 200 "Edit session started").
Proof.
  intros H.
  assert (Hc : code = 200).
  { revert H. unfold updateTask.
    destruct (castObjectId id); [|done].
    destruct (tasks d !! _); [|done].
    destruct (lockConflict _ _ _); [done|].
    destruct (match bodyTitle updates with Some _ => _ | None => _ end);
      [done|].
    destruct (applyUpdates _ _); [|done].
    destruct (saveTask _ _ _ _) as [[|]|]; [done|done|].
    by intros [= _ <- _ _ _]. }
  apply updateTask_accepted in H
    as (task & assigned & Hid & Hk & _ & Ha & -> & Hv & Hts).
  split; [done|].
  assert (Hk' : tasks d' !! k = Some (finishUpdate user assigned)).
  { by rewrite Hts, lookup_insert_eq. }
  split; [done|]. split; [done|]. split; [done|].
  intros now' user'. unfold startEdit. rewrite Hid, Hk'.
  rewrite lockConflict_unlocked by done.
  by rewrite saveTask_same_title.
Qed.

Lemma update_ends_session_witness :
  200 = 200 /\
  tasks (fst (updateTask 3000 alice t1_id [F_priority "high"] db2)) !! t1_id
    = Some task1_high /\
  (isBeingEdited task1_high = false /\ editedBy task1_high = None /\
   editStartTime task1_high = None) /\
  lastModifiedBy task1_high = Some (uid alice) /\
  forall now' user',
    startEdit now' user' t1_id
      (fst (updateTask 3000 alice t1_id [F_priority "high"] db2)) =
      (set_tasks
         (<[t1_id := lockTask now' user' task1_high]>
            (tasks (fst (updateTask 3000 alice t1_id [F_priority "high"] db2))))
         (fst (updateTask 3000 alice t1_id [F_priority "high"] db2)),
       Message 200 "Edit session started").
Proof.
  apply (update_ends_session 3000 alice t1_id [F_priority "high"] db2 _ 200
           t1_id task1_high "Task updated successfully").
  vm_compute. reflexivity.
Defined.

Lemma logField_appends now user k prev f (d : Db) :
  exists more,
    activities (logField now user k prev f d) = activities d ++ more /\
    length more = (if loggedField prev f then 1 else 0)%nat /\
    Forall (fun a => taskId a = Some k /\ userId a = Some (uid user) /\
                     includes (action a) ["update"; "move"; "assign"] = true /\
                     timestamp a = now) more /\
    users (logField now user k prev f d) = users d.
Proof.
  destruct f; simpl;
    try (exists []; rewrite app_nil_r; repeat split; done);
    match goal with |- context [String.eqb ?a ?b] =>
      destruct (String.eqb a b) end; simpl;
    try (exists []; rewrite app_nil_r; repeat split; done);
    (rewrite logActivity_stores; [|done|]);
    try (eexists [_]; simpl; repeat split; try done;
         repeat constructor; done).
  - apply truthy_app. by apply truthy_app_l.
  - by apply truthy_app.
  - apply truthy_app. by apply truthy_app_l.
  - apply truthy_app. by apply truthy_app_l.
  - apply truthy_app. by apply truthy_app_l.
Qed.

Lemma logChanges_appends now user k prev updates (d : Db) :
  exists more,
    activities (logChanges now user k prev updates d) = activities d ++ more /\
    length more = length (List.filter (loggedField prev) updates) /\
    Forall (fun a => taskId a = Some k /\ userId a = Some (uid user) /\
                     includes (action a) ["update"; "move"; "assign"] = true /\
                     timestamp a = now) more /\
    users (logChanges now user k prev updates d) = users d.
Proof.
  unfold logChanges. revert d.
  induction updates as [|f r IH]; intros d; simpl.
  - exists []. rewrite app_nil_r. repeat split; done.
  - destruct (logField_appends now user k prev f d)
      as (m1 & H1 & L1 & F1 & U1).
    destruct (IH (logField now user k prev f d)) as (m2 & H2 & L2 & F2 & U2).
    exists (m1 ++ m2). rewrite H2, H1, <- app_assoc. split; [done|].
    split; [|split; [by apply Forall_app|congruence]].
    rewrite length_app, L1, L2.
    destruct (loggedField prev f); simpl; lia.
Qed.

(** An accepted update whose body names only paths of the Task schema
    adds to the activity log one record per entry that names title,
    description, status, priority or assignedTo with a value other than the
    stored one, each for this task and this user with action update, move
    or assign; entries for any other path (order, version, createdBy, the
    lock fields) add nothing, and the old records and the users are as
    they were. *)
Theorem update_logs_changes now user id updates (d d' : Db) code k t' msg :
  forallb isPath updates = true ->
  updateTask now user id updates d = (d', TaskReply code k t' msg) ->
  exists task more,
    tasks d !! k = Some task /\
    activities d' = activities d ++ more /\
    length more = length (List.filter (loggedField task) updates) /\
    Forall (fun a => taskId a = Some k /\ userId a = Some (uid user) /\
                     includes (action a) ["update"; "move"; "assign"] = true /\
                     timestamp a = now) more /\
    users d' = users d.
Proof.
  intros _. unfold updateTask.
  destruct (castObjectId id) as [k0|]; [|done].
  destruct (tasks d !! k0) as [task|] eqn:Hk; [|done].
  destruct (lockConflict now user task); [done|].
  destruct (match bodyTitle updates with Some _ => _ | None => _ end); [done|].
  destruct (applyUpdates task updates) as [assigned|]; [|done].
  destruct (saveTask _ _ _ _) as [[m|]|ts]; [done|done|].
  intros [= <- _ <- _ _].
  destruct (logChanges_appends now user k0 task updates (set_tasks ts d))
    as (more & H1 & L & F & U).
  exists task, more. done.
Qed.

Lemma update_logs_changes_witness :
  exists task more,
    tasks db2 !! t1_id = Some task /\
    activities (fst (updateTask 3000 alice t1_id
                       [F_priority "high"; F_order 7; F_status "todo"] db2))
      = activities db2 ++ more /\
    length more =
      length (List.filter (loggedField task)
                [F_priority "high"; F_order 7; F_status "todo"]) /\
    Forall (fun a => taskId a = Some t1_id /\ userId a = Some (uid alice) /\
                     includes (action a) ["update"; "move"; "assign"] = true /\
                     timestamp a = 3000) more /\
    users (fst (updateTask 3000 alice t1_id
                  [F_priority "high"; F_order 7; F_status "todo"] db2))
      = users db2.
Proof.
  eapply (update_logs_changes 3000 alice t1_id
            [F_priority "high"; F_order 7; F_status "todo"] db2 _ 200 t1_id).
  - reflexivity.
  - vm_compute. reflexivity.
Defined.

(** ** Smart assignment *)

(** An accepted smart assignment stores as assignee a user of the
    collection whose count of active tasks is the least, and the requester
    as last modifier; title, description, status, priority, createdBy,
    order and the three lock fields of the task are as they were, and so
    are the other tasks; one smart_assign record is added to the log. *)
Theorem smartAssign_writes now user id (d d' : Db) k t' msg a n :
  smartAssign now user id d = (d', SmartAssignReply k t' msg a n) ->
  exists task selected,
    tasks d !! k = Some task /\ tasks d' = <[k := t']> (tasks d) /\
    selected ∈ users d /\ assignedTo t' = uid selected /\
    a = username selected /\
    n = Finite (userTaskCount (getTaskCounts (tasks d)) selected) /\
    (forall v, v ∈ users d ->
       userTaskCount (getTaskCounts (tasks d)) selected <=
       userTaskCount (getTaskCounts (tasks d)) v) /\
    lastModifiedBy t' = Some (uid user) /\
    (title t' = title task /\ description t' = description task /\
     status t' = status task /\ priority t' = priority task /\
     createdBy t' = createdBy task /\ order t' = order task) /\
    (isBeingEdited t' = isBeingEdited task /\ editedBy t' = editedBy task /\
     editStartTime t' = editStartTime task) /\
    exists r, activities d' = activities d ++ [r] /\
              action r = "smart_assign" /\ taskId r = Some k /\
              userId r = Some (uid user).
Proof.
  unfold smartAssign.
  destruct (castObjectId id) as [k0|]; [|done].
  destruct (tasks d !! k0) as [task|] eqn:Hk; [|done].
  destruct (selectAssignee _ _) as [m [sel|]] eqn:Hsel; [|done].
  destruct (saveTask _ _ _ _) as [e|ts] eqn:Hs; [done|].
  apply saveTask_inr in Hs. subst ts.
  rewrite logActivity_stores; [|done|].
  2:{ apply truthy_app. by apply truthy_app_l. }
  intros [= <- <- <- _ <- <-]. exists task, sel.
  destruct (selectAssignee_first_least (users d) (getTaskCounts (tasks d)))
    as [[_ H0]|(i & u & Hi & Hu & Hmin & _)]; [congruence|].
  rewrite Hsel in Hu. injection Hu as -> ->.
  split; [done|]. split; [done|].
  split; [by apply list_elem_of_lookup_2 in Hi|].
  repeat split; try done.
  eexists. split; [done|]. done.
Qed.

Lemma smartAssign_writes_witness :
  exists task selected,
    tasks db2 !! t1_id = Some task /\
    tasks (fst (smartAssign 3000 bob t1_id db2))
      = <[t1_id := task1_reassigned]> (tasks db2) /\
    selected ∈ users db2 /\ assignedTo task1_reassigned = uid selected /\
    "bob" = username selected /\
    Finite 0 = Finite (userTaskCount (getTaskCounts (tasks db2)) selected) /\
    (forall v, v ∈ users db2 ->
       userTaskCount (getTaskCounts (tasks db2)) selected <=
       userTaskCount (getTaskCounts (tasks db2)) v) /\
    lastModifiedBy task1_reassigned = Some (uid bob) /\
    (title task1_reassigned = title task /\
     description task1_reassigned = description task /\
     status task1_reassigned = status task /\
     priority task1_reassigned = priority task /\
     createdBy task1_reassigned = createdBy task /\
     order task1_reassigned = order task) /\
    (isBeingEdited task1_reassigned = isBeingEdited task /\
     editedBy task1_reassigned = editedBy task /\
     editStartTime task1_reassigned = editStartTime task) /\
    exists r, activities (fst (smartAssign 3000 bob t1_id db2))
                = activities db2 ++ [r] /\
              action r = "smart_assign" /\ taskId r = Some t1_id /\
              userId r = Some (uid bob).
Proof.
  apply (smartAssign_writes 3000 bob t1_id db2 _ t1_id task1_reassigned
           "Task smart-assigned to bob" "bob" (Finite 0)).
  vm_compute. reflexivity.
Defined.

(** ** Reordering *)

Lemma castOps_cons e r ops :
  castOps (e :: r) = Some ops ->
  exists k0 ops', castObjectId (r_id e) = Some k0 /\
                  castOps r = Some ops' /\ ops = (k0, e) :: ops'.
Proof.
  unfold castOps. simpl.
  destruct (castObjectId (r_id e)) as [k0|]; [|done]. simpl.
  destruct (mapM _ r) as [ops'|]; [|done]. simpl.
  intros [= <-]. eauto.
Qed.

Lemma castOps_fails entries e :
  In e entries -> castObjectId (r_id e) = None -> castOps entries = None.
Proof.
  intros Hin He. induction entries as [|e0 r IH]; [done|].
  unfold castOps in *. simpl. destruct Hin as [->|Hin].
  - by rewrite He.
  - rewrite (IH Hin). by destruct (castObjectId (r_id e0)).
Qed.

Lemma reorderOne_miss user (ts : gmap string Task) k0 e k :
  k0 <> k -> reorderOne user ts (k0, e) !! k = ts !! k.
Proof.
  intros Hne. unfold reorderOne. simpl.
  destruct (ts !! k0); [by rewrite lookup_insert_ne|done].
Qed.

Lemma reorderOne_hit user (ts : gmap string Task) k e t :
  ts !! k = Some t ->
  exists t1, reorderOne user ts (k, e) !! k = Some t1 /\
             status t1 = r_status e /\ order t1 = r_order e /\
             lastModifiedBy t1 = Some (uid user).
Proof.
  intros Hk. unfold reorderOne. simpl. rewrite Hk.
  eexists. rewrite lookup_insert_eq. split; [done|]. done.
Qed.

Lemma reorder_fold_last user entries :
  forall ops (ts : gmap string Task) k t,
    castOps entries = Some ops -> ts !! k = Some t ->
    exists t', foldl (reorderOne user) ts ops !! k = Some t' /\
      match lastNamed k entries with
      | Some e => status t' = r_status e /\ order t' = r_order e /\
                  lastModifiedBy t' = Some (uid user)
      | None => t' = t
      end.
Proof.
  induction entries as [|e r IH]; intros ops ts k t Hops Hk.
  - injection Hops as <-. simpl. by exists t.
  - apply castOps_cons in Hops as (k0 & ops' & He & Hr & ->). simpl.
    destruct (decide (k0 = k)) as [->|Hne].
    + destruct (reorderOne_hit user ts k e t Hk) as (t1 & H1 & E1).
      destruct (IH ops' _ k t1 Hr H1) as (t' & H' & Hl).
      exists t'. split; [done|].
      destruct (lastNamed k r); [done|]. subst t'.
      by rewrite bool_decide_eq_true_2.
    + assert (H1 : reorderOne user ts (k0, e) !! k = Some t).
      { by rewrite reorderOne_miss. }
      destruct (IH ops' _ k t Hr H1) as (t' & H' & Hl).
      exists t'. split; [done|].
      destruct (lastNamed k r); [done|].
      rewrite bool_decide_eq_false_2 by congruence. done.
Qed.

(** The reorder route casts every id before it writes: one entry whose id
    is no object id makes the whole request a 500 that writes nothing.
    When all ids cast, the request creates and removes no task; a task
    that no entry addresses is as it was; a task that entries address has
    the status and the order of the last such entry, whatever that status
    is (no validation runs), and the requester as last modifier, while its
    title, description, priority, assignedTo and createdBy are as they
    were. *)
Theorem reorder_writes_last_entry now user entries (d : Db) :
  (forall e, In e entries -> castObjectId (r_id e) = None ->
     reorderTasks now user (Some entries) d = (d, Message 500 "Server error")) /\
  (forall ops, castOps entries = Some ops ->
     let d' := fst (reorderTasks now user (Some entries) d) in
     (forall k, tasks d !! k = None -> tasks d' !! k = None) /\
     (forall k t, tasks d !! k = Some t ->
        exists t', tasks d' !! k = Some t' /\
          match lastNamed k entries with
          | Some e => status t' = r_status e /\ order t' = r_order e /\
                      lastModifiedBy t' = Some (uid user)
          | None => t' = t
          end /\
          title t' = title t /\ description t' = description t /\
          priority t' = priority t /\ assignedTo t' = assignedTo t /\
          createdBy t' = createdBy t)).
Proof.
  split.
  - intros e Hin He. unfold reorderTasks.
    by rewrite (castOps_fails entries e Hin He).
  - intros ops Hops d'.
    assert (Hd' : tasks d' = foldl (reorderOne user) (tasks d) ops).
    { unfold d', reorderTasks. rewrite Hops.
      destruct (logActivity _ _ _ _ _ _ _) as [d1 o] eqn:Hl. simpl.
      by rewrite (logActivity_fst_tasks _ _ _ _ _ _ _ _ _ Hl). }
    rewrite Hd'. split.
    + intros k Hk. by apply reorder_fold_absent.
    + intros k t Hk.
      destruct (reorder_fold_last user entries ops _ k t Hops Hk)
        as (t' & H' & Hl).
      exists t'. split; [done|]. split; [done|].
      apply reorder_fold_paths in H' as (t0 & H0 & E).
      rewrite Hk in H0. injection H0 as <-. done.
Qed.

Lemma reorder_writes_last_entry_witness :
  reorderTasks 3000 bob (Some [mkReorderEntry t1_id "done" 0;
                               mkReorderEntry "no-id" "todo" 1]) db2
    = (db2, Message 500 "Server error") /\
  exists t',
    tasks (fst (reorderTasks 3000 bob
                  (Some [mkReorderEntry t1_id "done" 0;
                         mkReorderEntry t1_id "parked" 4]) db2)) !! t1_id
      = Some t' /\
    status t' = "parked" /\ order t' = 4 /\ title t' = "Ship release".
Proof.
  split.
  - apply (reorder_writes_last_entry 3000 bob
             [mkReorderEntry t1_id "done" 0; mkReorderEntry "no-id" "todo" 1]
             db2) with (e := mkReorderEntry "no-id" "todo" 1);
      [right; left; reflexivity | reflexivity].
  - destruct (reorder_writes_last_entry 3000 bob
                [mkReorderEntry t1_id "done" 0;
                 mkReorderEntry t1_id "parked" 4] db2) as [_ H].
    destruct (H _ ltac:(vm_compute; reflexivity)) as [_ Hk].
    destruct (Hk t1_id task1_locked ltac:(vm_compute; reflexivity))
      as (t' & H' & Hl & Ht & _).
    exists t'. split; [exact H'|].
    vm_compute in Hl. destruct Hl as (Hs & Ho & _).
    split; [exact Hs|]. split; [exact Ho|]. rewrite Ht. reflexivity.
Defined.

(** ** The activity log only grows, by valid records *)

Lemma logActivity_appends now act tid u det descr (d : Db) :
  exists more,
    activities (fst (logActivity now act tid u det descr d))
      = activities d ++ more /\
    Forall (fun a => validateActivity a = true /\ timestamp a = now /\
                     userId a = u) more /\
    users (fst (logActivity now act tid u det descr d)) = users d.
Proof.
  unfold logActivity. destruct (validateActivity _) eqn:Hv; simpl.
  - eexists [_]. split; [done|]. split; [|done].
    repeat constructor. done.
  - exists []. by rewrite app_nil_r.
Qed.

Lemma logField_valid now user k prev f (d : Db) :
  exists more,
    activities (logField now user k prev f d) = activities d ++ more /\
    Forall (fun a => validateActivity a = true /\ timestamp a = now /\
                     userId a = Some (uid user)) more /\
    users (logField now user k prev f d) = users d.
Proof.
  destruct f; simpl;
    try (exists []; by rewrite app_nil_r);
    match goal with |- context [String.eqb ?a ?b] =>
      destruct (String.eqb a b) end;
    try (exists []; by rewrite app_nil_r);
    apply logActivity_appends.
Qed.

Lemma logChanges_valid now user k prev updates (d : Db) :
  exists more,
    activities (logChanges now user k prev updates d) = activities d ++ more /\
    Forall (fun a => validateActivity a = true /\ timestamp a = now /\
                     userId a = Some (uid user)) more /\
    users (logChanges now user k prev updates d) = users d.
Proof.
  unfold logChanges. revert d.
  induction updates as [|f r IH]; intros d; simpl.
  - exists []. by rewrite app_nil_r.
  - destruct (logField_valid now user k prev f d) as (m1 & H1 & F1 & U1).
    destruct (IH (logField now user k prev f d)) as (m2 & H2 & F2 & U2).
    exists (m1 ++ m2). rewrite H2, H1, <- app_assoc.
    split; [done|]. split; [by apply Forall_app|congruence].
Qed.

Lemma handle_log_shape now user r (d : Db) :
  exists more,
    activities (fst (handle now user r d)) = activities d ++ more /\
    Forall (fun a => validateActivity a = true /\ timestamp a = now /\
                     userId a = Some (uid user)) more /\
    users (fst (handle now user r d)) = users d.
Proof.
  assert (Hsame : exists more : list Activity,
            activities d = activities d ++ more /\
            Forall (fun a => validateActivity a = true /\ timestamp a = now /\
                             userId a = Some (uid user)) more /\
            users d = users d).
  { exists []. by rewrite app_nil_r. }
  destruct r as [newId body|id updates|id|id|id|id|body]; simpl.
  - unfold createTask.
    destruct (c_title body) as [ttl|]; [|done].
    destruct (c_assignedTo body) as [asg|]; [|done].
    destruct (_ || _); [done|].
    destruct (findByTitle _ _ _); [done|].
    destruct (castObjectId asg) as [a|]; [|done].
    destruct (findUser a (users d)); [|done].
    destruct (insertTask _ _ _) as [[m|]|ts]; [done|done|].
    match goal with |- context [logActivity ?n ?a ?t ?u ?dt ?ds ?d0] =>
      destruct (logActivity_appends n a t u dt ds d0) as (more & H & F & U);
      destruct (logActivity n a t u dt ds d0) as [d1 o] end.
    simpl in *. by exists more.
  - unfold updateTask.
    destruct (castObjectId id) as [k|]; [|done].
    destruct (tasks d !! k) as [task|]; [|done].
    destruct (lockConflict now user task); [done|].
    destruct (match bodyTitle updates with Some _ => _ | None => _ end);
      [done|].
    destruct (applyUpdates task updates) as [assigned|]; [|done].
    destruct (saveTask _ _ _ _) as [[m|]|ts]; [done|done|]. simpl.
    apply (logChanges_valid now user k task updates (set_tasks ts d)).
  - unfold deleteTask.
    destruct (castObjectId id) as [k|]; [|done].
    destruct (tasks d !! k) as [task|]; [|done].
    destruct (_ && _); [done|].
    match goal with |- context [logActivity ?n ?a ?t ?u ?dt ?ds ?d0] =>
      destruct (logActivity_appends n a t u dt ds d0) as (more & H & F & U);
      destruct (logActivity n a t u dt ds d0) as [d1 o] end.
    simpl in *. by exists more.
  - unfold smartAssign.
    destruct (castObjectId id) as [k|]; [|done].
    destruct (tasks d !! k) as [task|]; [|done].
    destruct (selectAssignee _ _) as [m [sel|]]; [|done].
    destruct (saveTask _ _ _ _) as [e|ts]; [done|].
    match goal with |- context [logActivity ?n ?a ?t ?u ?dt ?ds ?d0] =>
      destruct (logActivity_appends n a t u dt ds d0) as (more & H & F & U);
      destruct (logActivity n a t u dt ds d0) as [d1 o] end.
    simpl in *. by exists more.
  - unfold startEdit.
    destruct (castObjectId id) as [k|]; [|done].
    destruct (tasks d !! k) as [task|]; [|done].
    destruct (lockConflict now user task); [done|].
    destruct (saveTask _ _ _ _) as [e|ts]; done.
  - unfold endEdit.
    destruct (castObjectId id) as [k|]; [|done].
    destruct (tasks d !! k) as [task|]; [|done].
    destruct (heldBy user task); [|done].
    destruct (saveTask _ _ _ _) as [e|ts]; done.
  - unfold reorderTasks. destruct body as [entries|]; [|done].
    destruct (castOps entries) as [ops|]; [|done].
    match goal with |- context [logActivity ?n ?a ?t ?u ?dt ?ds ?d0] =>
      destruct (logActivity_appends n a t u dt ds d0) as (more & H & F & U);
      destruct (logActivity n a t u dt ds d0) as [d1 o] end.
    simpl in *. by exists more.
Qed.

(** No request removes or rewrites a record of the activity log or touches
    the user collection: the log after a request is the log before
    followed by the records of the request, each of which passes the
    validation of the Activity schema and carries the time and the user of
    the request. *)
Theorem activity_log_append_only now user r (d : Db) :
  exists more,
    activities (fst (handle now user r d)) = activities d ++ more /\
    Forall (fun a => validateActivity a = true /\ timestamp a = now /\
                     userId a = Some (uid user)) more /\
    users (fst (handle now user r d)) = users d.
Proof. apply handle_log_shape. Qed.

(** In every state the server reaches, every record of the activity log
    has a task id, a user id, an action of the enumeration and a
    description that is not empty. *)
Theorem stored_activities_valid (sv : Server) :
  reachable sv ->
  Forall (fun a => is_Some (taskId a) /\ is_Some (userId a) /\
                   includes (action a) actionEnum = true /\
                   a_description a <> "") (activities (db sv)).
Proof.
  intros Hr.
  assert (Hv : Forall (fun a => validateActivity a = true)
                 (activities (db sv))).
  { induction Hr as [us|sv now user r _ IH|sv now _ IH|sv now s _ IH
                    |sv now s _ IH]; simpl.
    - constructor.
    - destruct (handle_log_shape now user r (db sv)) as (more & -> & F & _).
      apply Forall_app. split; [done|].
      eapply Forall_impl; [exact F|]. by intros a [H _].
    - unfold cleanup. by destruct (0 <? _)%nat.
    - done.
    - done. }
  eapply Forall_impl; [exact Hv|]. intros a Ha.
  unfold validateActivity in Ha.
  apply andb_true_iff in Ha as [Ha Hd].
  apply andb_true_iff in Ha as [Ha Hu].
  apply andb_true_iff in Ha as [Ha Ht].
  apply andb_true_iff in Ha as [_ Ha].
  split; [by destruct (taskId a)|]. split; [by destruct (userId a)|].
  split; [done|]. intros E. by rewrite E in Hd.
Qed.

Lemma stored_activities_valid_witness :
  Forall (fun a => is_Some (taskId a) /\ is_Some (userId a) /\
                   includes (action a) actionEnum = true /\
                   a_description a <> "") (activities (db sv2)).
Proof. apply (stored_activities_valid sv2). apply sv2_reachable. Defined.

(** ** The cleanup settles *)

Lemma filter_none {A} (P : A -> bool) (l : list A) :
  (forall x, In x l -> P x = false) -> List.filter P l = [].
Proof.
  induction l as [|x l IH]; simpl; [done|]. intros H.
  rewrite (H x) by (by left). apply IH. intros y Hy. apply H. by right.
Qed.

Lemma filter_nil_none {A} (P : A -> bool) (l : list A) x :
  List.filter P l = [] -> In x l -> P x = false.
Proof.
  intros Hf Hx. destruct (P x) eqn:HP; [|done].
  assert (In x (List.filter P l)) by (by apply filter_In).
  rewrite Hf in *. done.
Qed.

Lemma isStale_unlockTask (staleTime : Z) (t : Task) :
  isStale staleTime (unlockTask t) = false.
Proof. reflexivity. Qed.

Lemma cleanup_leaves_none_stale now (d : Db) k t :
  tasks (fst (cleanup now d)) !! k = Some t ->
  isStale (now - staleTimeout) t = false.
Proof.
  unfold cleanup.
  destruct (0 <? length _)%nat eqn:Hlen; simpl.
  - rewrite lookup_fmap. destruct (tasks d !! k) as [t0|]; [|done]. simpl.
    intros [= <-]. by destruct (isStale (now - staleTimeout) t0) eqn:Hs.
  - intros Hk. apply Nat.ltb_ge in Hlen.
    apply (filter_nil_none
             (fun kt : string * Task => isStale (now - staleTimeout) (snd kt))
             (map_to_list (tasks d)) (k, t)).
    + destruct (List.filter _ _); [done|simpl in Hlen; lia].
    + by apply list_elem_of_In, elem_of_map_to_list.
Qed.

(** After a cleanup no stored task is being edited since more than
    300000 ms, so a second cleanup at the same time changes nothing and
    emits nothing; a cleanup emits no edit_session_expired event for a task
    that is absent or not stale; and it leaves users, activities and, of
    every task, title, description, status, priority and version as they
    were. *)
Theorem cleanup_settles now (d : Db) :
  (forall k t start, tasks (fst (cleanup now d)) !! k = Some t ->
     isBeingEdited t = true -> editStartTime t = Some start ->
     now - start <= 300000) /\
  cleanup now (fst (cleanup now d)) = (fst (cleanup now d), []) /\
  (forall k,
     (forall t, tasks d !! k = Some t ->
        isStale (now - staleTimeout) t = false) ->
     List.filter (expiredFor k) (snd (cleanup now d)) = []) /\
  users (fst (cleanup now d)) = users d /\
  activities (fst (cleanup now d)) = activities d /\
  (forall k t', tasks (fst (cleanup now d)) !! k = Some t' ->
     exists t, tasks d !! k = Some t /\ title t' = title t /\
               description t' = description t /\ priority t' = priority t /\
               status t' = status t /\ version t' = version t).
Proof.
  split; [|split; [|split; [|split; [|split]]]].
  - intros k t start Hk Hb Hs. apply cleanup_leaves_none_stale in Hk.
    unfold isStale in Hk. rewrite Hb, Hs in Hk. simpl in Hk.
    apply Z.ltb_ge in Hk. unfold staleTimeout in Hk. lia.
  - unfold cleanup at 1.
    rewrite (filter_none _ (map_to_list (tasks (fst (cleanup now d))))).
    + done.
    + intros [k t] Hin. simpl.
      apply list_elem_of_In, elem_of_map_to_list in Hin.
      by apply (cleanup_leaves_none_stale now d k).
  - intros k Hk. unfold cleanup.
    destruct (0 <? length _)%nat; simpl; [|done].
    apply length_zero_iff_nil. rewrite expired_count.
    rewrite filter_none; [done|]. intros [k0 t0] Hin. simpl.
    destruct (String.eqb_spec k0 k) as [->|]; [|by rewrite andb_false_r].
    apply list_elem_of_In, elem_of_map_to_list in Hin.
    by rewrite (Hk t0 Hin).
  - unfold cleanup. by destruct (0 <? length _)%nat.
  - unfold cleanup. by destruct (0 <? length _)%nat.
  - apply cleanup_paths.
Qed.

(** * Further properties of the socket server *)

Lemma recipients_sender (socks : list Socket) (sender sid : string) :
  In sid (recipients socks (ToSender sender)) <->
  sid = sender /\ exists s, In s socks /\ socketId s = sid.
Proof.
  simpl. rewrite in_map_iff. split.
  - intros (s & <- & [Hs He]%filter_In). apply String.eqb_eq in He. eauto.
  - intros (-> & s & Hs & He). exists s. split; [done|].
    apply filter_In. split; [done|]. by apply String.eqb_eq.
Qed.

Lemma includes_false (x : string) (l : list string) :
  ~ In x l -> includes x l = false.
Proof.
  intros H. apply not_true_iff_false. by rewrite includes_In.
Qed.

Lemma includes_true (x : string) (l : list string) :
  In x l -> includes x l = true.
Proof. apply includes_In. Qed.

Lemma map_set_keys {V} (k : string) (v : V) (m : list (string * V)) k' :
  In k' (map_set k v m).*1 <-> k' = k \/ In k' m.*1.
Proof.
  induction m as [|[k0 v0] m IH]; simpl.
  - intuition congruence.
  - destruct (String.eqb_spec k0 k) as [->|Hne]; simpl.
    + intuition congruence.
    + rewrite IH. tauto.
Qed.

Lemma map_set_In {V} (k : string) (v : V) (m : list (string * V)) :
  In (k, v) (map_set k v m).
Proof.
  induction m as [|[k0 v0] m IH]; simpl; [by left|].
  destruct (String.eqb_spec k0 k) as [->|Hne]; [by left|by right].
Qed.

Lemma map_set_entries {V} (k : string) (v : V) (m : list (string * V)) kv :
  In kv (map_set k v m) -> kv = (k, v) \/ In kv m.
Proof.
  induction m as [|[k0 v0] m IH]; simpl.
  - intros [<-|[]]. by left.
  - destruct (String.eqb_spec k0 k) as [->|Hne]; simpl.
    + intros [<-|H]; [by left|right; by right].
    + intros [<-|H]; [right; by left|].
      destruct (IH H); [by left|right; by right].
Qed.

Lemma map_set_NoDup {V} (k : string) (v : V) (m : list (string * V)) :
  List.NoDup m.*1 -> List.NoDup (map_set k v m).*1.
Proof.
  induction m as [|[k0 v0] m IH]; simpl.
  - intros _. constructor; [by intros []|constructor].
  - intros [Hk0 Hnd]%List.NoDup_cons_iff.
    destruct (String.eqb_spec k0 k) as [->|Hne]; simpl.
    + by constructor.
    + constructor; [|by apply IH].
      intros [->|H]%map_set_keys; done.
Qed.

Lemma map_delete_keys {V} (k : string) (m : list (string * V)) k' :
  In k' (map_delete k m).*1 <-> k' <> k /\ In k' m.*1.
Proof.
  unfold map_delete. induction m as [|[k0 v0] m IH]; simpl; [tauto|].
  destruct (String.eqb_spec k0 k) as [->|Hne]; simpl.
  - rewrite IH. intuition congruence.
  - rewrite IH. intuition congruence.
Qed.

Lemma map_delete_NoDup {V} (k : string) (m : list (string * V)) :
  List.NoDup m.*1 -> List.NoDup (map_delete k m).*1.
Proof.
  unfold map_delete. induction m as [|[k0 v0] m IH]; simpl; [done|].
  intros [Hk0 Hnd]%List.NoDup_cons_iff.
  destruct (String.eqb_spec k0 k) as [->|Hne]; simpl; [by apply IH|].
  constructor; [|by apply IH].
  intros [_ H]%(map_delete_keys k m k0). done.
Qed.

(** ** A socket connects *)

(** When a socket connects, it alone receives the online_users snapshot,
    which lists its own user; every other connected socket receives
    user_online for that user and nothing else; the user has an entry in
    the presence map; tasks and activities are as they were. *)
Theorem connection_announces now (s : Socket) (sv : Server) :
  let after := onConnection now s sv in
  sockets (fst after) = sockets sv ++ [s] /\
  (exists snapshot,
     delivered (sockets (fst after)) (snd after) (socketId s)
       = [("online_users", JArr snapshot)] /\
     In (JObj [("id", JStr (socketUserId s));
               ("username", JStr (username (socketUser s)))]) snapshot) /\
  (forall s', In s' (sockets sv) -> socketId s' <> socketId s ->
     delivered (sockets (fst after)) (snd after) (socketId s')
       = [("user_online", userEvent s)]) /\
  In (socketUserId s, (socketId s, socketUser s))
     (connectedUsers (fst after)) /\
  tasks (db (fst after)) = tasks (db sv) /\
  activities (db (fst after)) = activities (db sv).
Proof.
  simpl. split; [done|]. split; [|split; [|split; [|done]]].
  - eexists. unfold delivered. simpl. split.
    + rewrite includes_false.
      2:{ intros [Hne _]%recipients_broadcast. done. }
      rewrite includes_true; [done|].
      apply recipients_sender. split; [done|]. exists s.
      split; [|done]. apply in_or_app. right. by left.
    + apply in_map_iff.
      exists (socketUserId s, (socketId s, socketUser s)).
      split; [done|]. apply map_set_In.
  - intros s' Hs' Hne. unfold delivered. simpl.
    rewrite includes_true.
    2:{ apply recipients_broadcast. split; [done|]. exists s'.
        split; [|done]. apply in_or_app. by left. }
    rewrite includes_false; [done|].
    intros [He _]%recipients_sender. done.
  - apply map_set_In.
Qed.

(** ** The presence map *)

(** In every state the server reaches, the presence map has at most one
    entry per user id, and the entry of a user id holds a user with that
    id. *)
Theorem presence_keys_unique (sv : Server) :
  reachable sv ->
  List.NoDup (connectedUsers sv).*1 /\
  forall k sid u, In (k, (sid, u)) (connectedUsers sv) -> uid u = k.
Proof.
  intros Hr.
  induction Hr as [us|sv now user r _ IH|sv now _ IH|sv now s _ IH
                  |sv now s _ IH]; simpl.
  - split; [constructor|intros k sid u []].
  - done.
  - done.
  - destruct IH as [Hnd Hk]. split; [by apply map_set_NoDup|].
    intros k sid u [[= -> -> ->]|H]%map_set_entries; [done|].
    by apply (Hk k sid u).
  - destruct IH as [Hnd Hk]. split; [by apply map_delete_NoDup|].
    intros k sid u [H _]%filter_In. by apply (Hk k sid u).
Qed.

Lemma presence_keys_unique_witness :
  List.NoDup (connectedUsers sv_online).*1 /\
  forall k sid u, In (k, (sid, u)) (connectedUsers sv_online) -> uid u = k.
Proof.
  apply (presence_keys_unique sv_online).
  unfold sv_online. do 2 apply reach_connect.
  change (mkServer db1 [] []) with sv1. apply reach_request. apply reach_start.
Defined.

(** ** A socket disconnects *)

(** The presence map is keyed by user: when one socket of a user
    disconnects, the user's entry is removed from the presence map, while
    every other socket, also another socket of that same user, stays
    connected; the entries of the other users stay. *)
Theorem disconnect_drops_presence now (s : Socket) (sv : Server) :
  let after := fst (onDisconnect now s sv) in
  ~ In (socketUserId s) (connectedUsers after).*1 /\
  (forall s', In s' (sockets sv) -> socketId s' <> socketId s ->
     In s' (sockets after)) /\
  ~ In (socketId s) (socketId <$> sockets after) /\
  (forall k v, k <> socketUserId s ->
     In (k, v) (connectedUsers sv) -> In (k, v) (connectedUsers after)).
Proof.
  simpl. split; [|split; [|split]].
  - intros [Hne _]%map_delete_keys. done.
  - intros s' Hs' Hne. apply filter_In. split; [done|].
    by apply negb_true_iff, String.eqb_neq.
  - intros (s' & He & [_ Hf]%filter_In)%in_map_iff.
    apply negb_true_iff, String.eqb_neq in Hf. done.
  - intros k v Hne Hin. apply filter_In. split; [done|]. simpl.
    by apply negb_true_iff, String.eqb_neq.
Qed.

(** ** What a re-broadcast carries *)

Lemma obj_get_set_eq (k : string) (v : JValue) (o : JObject) :
  obj_get k (obj_set k v o) = v.
Proof.
  induction o as [|[k0 v0] o IH]; simpl.
  - by rewrite String.eqb_refl.
  - destruct (String.eqb k0 k) eqn:He; simpl; by rewrite He.
Qed.

Lemma obj_get_set_ne (k k' : string) (v : JValue) (o : JObject) :
  k' <> k -> obj_get k' (obj_set k v o) = obj_get k' o.
Proof.
  intros Hne. induction o as [|[k0 v0] o IH]; simpl.
  - apply String.eqb_neq in Hne. rewrite String.eqb_sym in Hne.
    by rewrite Hne.
  - destruct (String.eqb_spec k0 k) as [->|Hk]; simpl.
    + apply String.eqb_neq in Hne. rewrite String.eqb_sym in Hne.
      by rewrite Hne.
    + by rewrite IH.
Qed.

(** The identity that a re-broadcast names is the one of the connection
    that sent the event, whatever the event data say: edit_started carries
    the sender's username as editedBy; typing_start, typing_stop and
    cursor_position carry the sender's user id as userId, and typing_start
    and cursor_position the sender's username; conflict_detected lists the
    sender's username first.  Every other key of edit_started,
    cursor_position and conflict_detected is as the client sent it, and
    the typing events carry nothing else than taskId. *)
Theorem rebroadcast_names_sender (s : Socket) (data : JObject) :
  let name := JStr (username (socketUser s)) in
  let ident := JStr (socketUserId s) in
  (exists o, payload <$> onEvent s edit_started data = [JObj o] /\
     obj_get "editedBy" o = name /\
     forall k, k <> "editedBy" -> obj_get k o = obj_get k data) /\
  (exists o, payload <$> onEvent s cursor_position data = [JObj o] /\
     obj_get "userId" o = ident /\ obj_get "username" o = name /\
     forall k, k <> "userId" -> k <> "username" ->
       obj_get k o = obj_get k data) /\
  (exists o, payload <$> onEvent s typing_start data = [JObj o] /\
     obj_get "userId" o = ident /\ obj_get "username" o = name /\
     obj_get "taskId" o = obj_get "taskId" data /\
     forall k, k <> "userId" -> k <> "username" -> k <> "taskId" ->
       obj_get k o = JUndefined) /\
  (exists o, payload <$> onEvent s typing_stop data = [JObj o] /\
     obj_get "userId" o = ident /\
     obj_get "taskId" o = obj_get "taskId" data /\
     forall k, k <> "userId" -> k <> "taskId" -> obj_get k o = JUndefined) /\
  (exists o, payload <$> onEvent s conflict_detected data = [JObj o] /\
     obj_get "conflictUsers" o = JArr [name; obj_get "otherUser" data] /\
     forall k, k <> "conflictUsers" -> obj_get k o = obj_get k data).
Proof.
  simpl. repeat split.
  - eexists. split; [done|]. split; [apply obj_get_set_eq|].
    intros k Hk. by apply obj_get_set_ne.
  - eexists. split; [done|]. split; [|split].
    + rewrite obj_get_set_ne by done. apply obj_get_set_eq.
    + apply obj_get_set_eq.
    + intros k H1 H2. by rewrite !obj_get_set_ne.
  - eexists. split; [done|]. repeat split; try done.
    intros k H1 H2 H3. cbn [obj_get].
    destruct (String.eqb_spec "taskId" k) as [<-|_]; [done|].
    destruct (String.eqb_spec "userId" k) as [<-|_]; [done|].
    by destruct (String.eqb_spec "username" k) as [<-|_].
  - eexists. split; [done|]. repeat split; try done.
    intros k H1 H2. cbn [obj_get].
    destruct (String.eqb_spec "taskId" k) as [<-|_]; [done|].
    by destruct (String.eqb_spec "userId" k) as [<-|_].
  - eexists. split; [done|]. split; [apply obj_get_set_eq|].
    intros k Hk. by apply obj_get_set_ne.
Qed.

(** * Properties of the board of a client *)

(** ** Sorting a column *)

Lemma insertByOrder_perm t l : insertByOrder t l ≡ₚ t :: l.
Proof.
  induction l as [|x r IH]; simpl; [done|].
  destruct (bt_order t <=? bt_order x); [done|].
  rewrite IH. apply Permutation_swap.
Qed.

Lemma sortByOrder_perm l : sortByOrder l ≡ₚ l.
Proof.
  induction l as [|x r IH]; simpl; [done|].
  rewrite insertByOrder_perm. by rewrite IH.
Qed.

Lemma insertByOrder_sorted t l :
  Sorted byOrder l -> Sorted byOrder (insertByOrder t l).
Proof.
  induction l as [|x r IH]; simpl; intros Hs.
  - repeat constructor.
  - destruct (Z.leb_spec (bt_order t) (bt_order x)).
    + constructor; [done|]. by constructor.
    + apply Sorted_inv in Hs as [Hr Hx]. constructor; [by apply IH|].
      destruct r as [|y r]; simpl.
      * constructor. unfold byOrder. lia.
      * destruct (bt_order t <=? bt_order y); constructor.
        -- unfold byOrder. lia.
        -- by apply HdRel_inv in Hx.
Qed.

Lemma sortByOrder_sorted l : Sorted byOrder (sortByOrder l).
Proof.
  induction l as [|x r IH]; simpl; [constructor|].
  by apply insertByOrder_sorted.
Qed.

Lemma sortByOrder_of_sorted l : Sorted byOrder l -> sortByOrder l = l.
Proof.
  induction l as [|x r IH]; simpl; [done|].
  intros [Hr Hx]%Sorted_inv. rewrite (IH Hr).
  destruct r as [|y r]; simpl; [done|].
  apply HdRel_inv in Hx. unfold byOrder in Hx.
  by rewrite (proj2 (Z.leb_le _ _) Hx).
Qed.

(** ** A task event arrives *)

Lemma column_mapColumns f status (b : Board) :
  column status (mapColumns f b) = f <$> column status b.
Proof.
  unfold column, mapColumns. simpl.
  destruct (String.eqb status "todo"); [done|].
  destruct (String.eqb status "in-progress"); [done|].
  by destruct (String.eqb status "done").
Qed.

Lemma pushTo_None status t (b : Board) :
  pushTo status t b = None <-> column status b = None.
Proof.
  unfold pushTo, column.
  destruct (String.eqb status "todo"); [done|].
  destruct (String.eqb status "in-progress"); [done|].
  by destruct (String.eqb status "done").
Qed.

Lemma pushTo_column status t (b b' : Board) c :
  pushTo status t b = Some b' ->
  column c b' =
  (fun l => l ++ (if String.eqb c status then [t] else [])) <$> column c b.
Proof.
  unfold pushTo, column.
  destruct (String.eqb_spec status "todo") as [->|H1].
  { intros [= <-]. simpl.
    destruct (String.eqb_spec c "todo") as [->|]; [done|].
    destruct (String.eqb c "in-progress"); simpl; [by rewrite app_nil_r|].
    destruct (String.eqb c "done"); simpl; [by rewrite app_nil_r|done]. }
  destruct (String.eqb_spec status "in-progress") as [->|H2].
  { intros [= <-]. simpl.
    destruct (String.eqb_spec c "todo") as [->|]; simpl;
      [by rewrite app_nil_r|].
    destruct (String.eqb_spec c "in-progress") as [->|]; [done|].
    destruct (String.eqb c "done"); simpl; [by rewrite app_nil_r|done]. }
  destruct (String.eqb_spec status "done") as [->|H3]; [|done].
  intros [= <-]. simpl.
  destruct (String.eqb_spec c "todo") as [->|]; simpl;
    [by rewrite app_nil_r|].
  destruct (String.eqb_spec c "in-progress") as [->|]; simpl;
    [by rewrite app_nil_r|].
  destruct (String.eqb_spec c "done") as [->|]; [done|done].
Qed.

(** [handleTaskUpdate] throws exactly when the status of the task is no
    column of the board.  Otherwise every column of the new board is sorted
    by order; the column of the task's status holds the task and the tasks
    it held before under another id; every other column holds the tasks it
    held before under another id: the task is on the board once, whatever
    copies of it the board held. *)
Theorem handleTaskUpdate_places (task : BoardTask) (prev : Board) :
  (handleTaskUpdate task prev = None <->
   column (bt_status task) prev = None) /\
  forall b', handleTaskUpdate task prev = Some b' ->
    forall c l, column c prev = Some l ->
      exists l', column c b' = Some l' /\ Sorted byOrder l' /\
        l' ≡ₚ List.filter (otherThan (bt_id task)) l ++
              (if String.eqb c (bt_status task) then [task] else []).
Proof.
  unfold handleTaskUpdate. split.
  - destruct (pushTo _ _ _) as [b|] eqn:Hp; simpl.
    + split; [done|]. intros Hc. exfalso.
      assert (pushTo (bt_status task) task
                (mapColumns (List.filter (otherThan (bt_id task))) prev)
              = None); [|congruence].
      apply pushTo_None. by rewrite column_mapColumns, Hc.
    + split; [|done]. intros _. apply pushTo_None in Hp.
      rewrite column_mapColumns in Hp. by destruct (column _ prev).
  - intros b'. destruct (pushTo _ _ _) as [b|] eqn:Hp; [|done]. simpl.
    intros [= <-] c l Hc.
    rewrite column_mapColumns, (pushTo_column _ _ _ _ c Hp),
      column_mapColumns, Hc. simpl.
    eexists. split; [done|]. split; [apply sortByOrder_sorted|].
    apply sortByOrder_perm.
Qed.

(** ** The tasks are loaded *)

Lemma loadTasks_fold (response : list BoardTask) (acc : Board) :
  match foldl (fun a t => a0 ← a; pushTo (bt_status t) t a0)
          (Some acc) response with
  | Some b =>
    Forall (fun t => column (bt_status t) acc <> None) response /\
    forall c l, column c acc = Some l ->
      column c b =
      Some (l ++ List.filter (fun t => String.eqb c (bt_status t)) response)
  | None => Exists (fun t => column (bt_status t) acc = None) response
  end.
Proof.
  revert acc. induction response as [|t r IH]; intros acc; simpl.
  - split; [constructor|]. intros c l ->. by rewrite app_nil_r.
  - destruct (pushTo (bt_status t) t acc) as [a1|] eqn:Hp.
    + specialize (IH a1).
      assert (Hcol : forall s, column s a1 = None <-> column s acc = None).
      { intros s. rewrite (pushTo_column _ _ _ _ s Hp).
        by destruct (column s acc). }
      destruct (foldl _ (Some a1) r) as [b|].
      * destruct IH as [Hall Hc]. split.
        -- constructor.
           ++ intros Hn. apply (pushTo_None _ t) in Hn. congruence.
           ++ eapply Forall_impl; [exact Hall|]. intros x Hx Hn.
              apply Hx. by apply Hcol.
        -- intros c l Hl. rewrite (Hc c _ ltac:(
             rewrite (pushTo_column _ _ _ _ c Hp), Hl; reflexivity)).
           f_equal. rewrite <- app_assoc. f_equal.
           by destruct (String.eqb c (bt_status t)).
      * apply Exists_cons_tl. eapply Exists_impl; [exact IH|].
        intros x Hx. by apply Hcol.
    + assert (Hnone : foldl (fun a t0 => a0 ← a; pushTo (bt_status t0) t0 a0)
                        None r = None).
      { clear. induction r as [|x r IH]; simpl; [done|]. exact IH. }
      rewrite Hnone. apply Exists_cons_hd. by apply pushTo_None in Hp.
Qed.

(** [loadTasks] sets no board when a task of the response has a status that
    is no column (the server stores such a status through the reorder
    route); otherwise each column of the board it sets is sorted by order
    and holds exactly the tasks of the response with the status of the
    column. *)
Theorem loadTasks_partitions (response : list BoardTask) :
  (loadTasks response = None <->
   exists t, In t response /\ column (bt_status t) (mkBoard [] [] []) = None) /\
  forall b, loadTasks response = Some b ->
    forall c, column c (mkBoard [] [] []) <> None ->
      exists l, column c b = Some l /\ Sorted byOrder l /\
        l ≡ₚ List.filter (fun t => String.eqb c (bt_status t)) response.
Proof.
  unfold loadTasks.
  pose proof (loadTasks_fold response (mkBoard [] [] [])) as H.
  destruct (foldl _ _ response) as [b0|]; simpl.
  - destruct H as [Hall Hc]. split.
    + split; [done|]. intros (t & Hin & Hn).
      rewrite Forall_forall in Hall.
      apply list_elem_of_In in Hin. by destruct (Hall t Hin).
    + intros b [= <-] c Hcol.
      destruct (column c (mkBoard [] [] [])) as [l0|] eqn:Hl0; [|done].
      assert (l0 = []) as ->.
      { revert Hl0. unfold column. simpl.
        repeat (destruct (String.eqb c _); [by intros [= <-]|]). done. }
      rewrite column_mapColumns, (Hc c [] Hl0). simpl.
      eexists. split; [done|]. split; [apply sortByOrder_sorted|].
      apply sortByOrder_perm.
  - split; [|done]. split; [|done]. intros _.
    apply Exists_exists in H as (t & Hin & Hn). exists t.
    split; [by apply list_elem_of_In|done].
Qed.

(** ** The online list *)

Lemma find_hasId_None userId (l : list OnlineUser) :
  List.find (hasId userId) l = None <->
  forall u, In u l -> hasId userId u = false.
Proof.
  split.
  - intros H u Hu. by apply (find_none _ _ H).
  - intros H. induction l as [|x l IH]; simpl; [done|].
    rewrite (H x) by (by left). apply IH. intros u Hu. apply H. by right.
Qed.

Lemma offline_keeps_others userId (l : list OnlineUser) :
  (forall u, In u l -> hasId userId u = false) ->
  List.filter (fun u => negb (hasId userId u)) l = l.
Proof.
  induction l as [|x l IH]; simpl; [done|]. intros Hno.
  rewrite (Hno x) by (by left). simpl. f_equal. apply IH.
  intros u Hu. apply Hno. by right.
Qed.

(** [handleUserOnline] adds a user only when the list holds no user with
    that id, so a second user_online for the same id changes nothing;
    [handleUserOffline] leaves no user with the id, and on a list that held
    no user with the id it undoes [handleUserOnline]. *)
Theorem online_list_by_id (userId : string) (name : JValue)
    (prev : list OnlineUser) :
  handleUserOnline userId name (handleUserOnline userId name prev)
    = handleUserOnline userId name prev /\
  (exists u, In u (handleUserOnline userId name prev) /\
             hasId userId u = true) /\
  (forall u, In u (handleUserOffline userId prev) -> hasId userId u = false) /\
  ((forall u, In u prev -> hasId userId u = false) ->
   handleUserOffline userId (handleUserOnline userId name prev) = prev).
Proof.
  assert (Hnew : hasId userId (mkOnlineUser (Some userId) name (Some ""))
                 = true).
  { unfold hasId. simpl. apply String.eqb_refl. }
  assert (Hfound : exists u, In u (handleUserOnline userId name prev) /\
                             hasId userId u = true).
  { unfold handleUserOnline.
    destruct (List.find (hasId userId) prev) as [u|] eqn:Hf.
    - apply find_some in Hf. by exists u.
    - eexists. split; [|exact Hnew]. apply in_or_app. right. by left. }
  split; [|split; [done|split]].
  - destruct Hfound as (u & Hin & Hu).
    unfold handleUserOnline at 1.
    destruct (List.find (hasId userId) (handleUserOnline userId name prev))
      eqn:Hf; [done|].
    rewrite find_hasId_None in Hf. rewrite (Hf u Hin) in Hu. done.
  - intros u [_ H]%filter_In. by apply negb_true_iff in H.
  - intros Hno. unfold handleUserOnline.
    rewrite (proj2 (find_hasId_None userId prev) Hno).
    unfold handleUserOffline. rewrite List.filter_app. simpl.
    rewrite Hnew. simpl. rewrite app_nil_r.
    by apply offline_keeps_others.
Qed.

Lemma fromSnapshot_no_id (cu : list (string * (string * User))) u :
  In u (setOnlineUsers (onlineSnapshot cu)) -> ou_id u = None.
Proof.
  unfold setOnlineUsers, onlineSnapshot. rewrite <- list_fmap_compose.
  intros (kv & <- & _)%in_map_iff. reflexivity.
Qed.

(** The snapshot of the server names the id of a user under the key [id],
    while the handlers of the board compare [_id].  So the users a client
    got from the online_users snapshot are never removed by a user_offline,
    and a user_online for one of them adds a second entry.  The snapshot
    in question is the payload that [onConnection] sends to the new
    socket. *)
Theorem snapshot_users_have_no_id now (s : Socket) (sv : Server)
    (userId : string) (name : JValue) :
  let cu := connectedUsers (fst (onConnection now s sv)) in
  In (mkEmission (ToSender (socketId s)) "online_users"
        (JArr (onlineSnapshot cu))) (snd (onConnection now s sv)) /\
  handleUserOffline userId (setOnlineUsers (onlineSnapshot cu))
    = setOnlineUsers (onlineSnapshot cu) /\
  handleUserOnline userId name (setOnlineUsers (onlineSnapshot cu))
    = setOnlineUsers (onlineSnapshot cu) ++
      [mkOnlineUser (Some userId) name (Some "")].
Proof.
  intros cu.
  assert (Hno : forall u, In u (setOnlineUsers (onlineSnapshot cu)) ->
                          hasId userId u = false).
  { intros u Hu. unfold hasId. by rewrite (fromSnapshot_no_id cu u Hu). }
  split; [|split].
  - right. left. reflexivity.
  - unfold handleUserOffline. by apply offline_keeps_others.
  - unfold handleUserOnline.
    by rewrite (proj2 (find_hasId_None userId _) Hno).
Qed.

(** ** Edit events arrive *)

Lemma mapColumns_id (f : list BoardTask -> list BoardTask) (b : Board) :
  (forall l, f l = l) -> mapColumns f b = b.
Proof. intros H. unfold mapColumns. rewrite !H. by destruct b. Qed.

Lemma map_unmarked (f : BoardTask -> BoardTask) (l : list BoardTask) :
  List.map (fun t => if false then f t else t) l = l.
Proof. induction l as [|x l IH]; simpl; [done|]. by rewrite IH. Qed.

(** The edit_started that the server re-broadcasts for a client's
    [{ taskId }] marks, on the board of a receiver, the tasks with that id
    as being edited by the username of the sending connection, also when
    the sender's data name another editor, and leaves every other task as
    it was. *)
Theorem edit_started_marks_sender (s : Socket) (data : JObject)
    (id : string) (board : Board) :
  obj_get "taskId" data = JStr id ->
  exists o,
    payload <$> onEvent s edit_started data = [JObj o] /\
    handleEditStarted o board =
      mapColumns
        (List.map (fun t =>
           if String.eqb (bt_id t) id
           then mkBoardTask (bt_id t) (bt_title t) (bt_status t) (bt_order t)
                  true (Some (JStr (username (socketUser s))))
           else t)) board.
Proof.
  intros Hid. eexists. split; [reflexivity|].
  unfold handleEditStarted.
  rewrite obj_get_set_eq, obj_get_set_ne by done. rewrite Hid. done.
Qed.

Lemma edit_started_marks_sender_witness :
  exists o,
    payload <$> onEvent sock_a edit_started
                  [("taskId", JStr t1_id); ("editedBy", JStr "mallory")]
      = [JObj o] /\
    handleEditStarted o
      (mkBoard [mkBoardTask t1_id "Ship release" "todo" 0 false None] [] []) =
      mapColumns
        (List.map (fun t =>
           if String.eqb (bt_id t) t1_id
           then mkBoardTask (bt_id t) (bt_title t) (bt_status t) (bt_order t)
                  true (Some (JStr (username (socketUser sock_a))))
           else t))
        (mkBoard [mkBoardTask t1_id "Ship release" "todo" 0 false None] [] []).
Proof.
  apply (edit_started_marks_sender sock_a
           [("taskId", JStr t1_id); ("editedBy", JStr "mallory")] t1_id).
  reflexivity.
Defined.

(** The two events of a disconnect, on a client that receives them: the
    edit_ended names no task, so [handleEditEnded] leaves the whole board
    as it was (a task shown as being edited by the user who left stays
    so); the user_offline names the user id, and [handleUserOffline]
    leaves no user with that id in the online list. *)
Theorem disconnect_events_on_board now (s : Socket) (sv : Server)
    (board : Board) (online : list OnlineUser) :
  exists o1 o2,
    (fun e => (event e, payload e)) <$> snd (onDisconnect now s sv) =
      [("user_offline", JObj o1); ("edit_ended", JObj o2)] /\
    obj_get "taskId" o2 = JUndefined /\
    handleEditEnded o2 board = board /\
    obj_get "userId" o1 = JStr (socketUserId s) /\
    forall u, In u (handleUserOffline (socketUserId s) online) ->
              ou_id u <> Some (socketUserId s).
Proof.
  eexists _, _. split; [reflexivity|]. split; [reflexivity|].
  split; [|split; [reflexivity|]].
  - unfold handleEditEnded. simpl. apply mapColumns_id.
    intros l. apply (map_unmarked (fun t =>
      mkBoardTask (bt_id t) (bt_title t) (bt_status t) (bt_order t)
        false None)).
  - intros u [_ H]%filter_In He. apply negb_true_iff in H.
    unfold hasId in H. rewrite He, String.eqb_refl in H. done.
Qed.

(** ** A task is deleted *)

Lemma find_filter_gone (id : string) (l : list BoardTask) :
  List.find (fun t => String.eqb (bt_id t) id)
    (List.filter (fun t => negb (String.eqb (bt_id t) id)) l) = None.
Proof.
  induction l as [|x l IH]; simpl; [done|].
  destruct (String.eqb (bt_id x) id) eqn:He; simpl; [done|].
  by rewrite He.
Qed.

Lemma find_filter_other (id id' : string) (l : list BoardTask) :
  id' <> id ->
  List.find (fun t => String.eqb (bt_id t) id')
    (List.filter (fun t => negb (String.eqb (bt_id t) id)) l) =
  List.find (fun t => String.eqb (bt_id t) id') l.
Proof.
  intros Hne. induction l as [|x l IH]; simpl; [done|].
  destruct (String.eqb_spec (bt_id x) id) as [He|He]; simpl.
  - rewrite IH.
    destruct (String.eqb_spec (bt_id x) id') as [He'|]; [congruence|done].
  - by rewrite IH.
Qed.

(** After [handleTaskDelete] for a task id, [findTask] finds no task under
    that id, and finds under every other id what it found before; a
    task_deleted event without a task id removes nothing. *)
Theorem handleTaskDelete_removes (data : JObject) (board : Board) :
  (forall id, obj_get "taskId" data = JStr id ->
     findTask id (handleTaskDelete data board) = None /\
     forall id', id' <> id ->
       findTask id' (handleTaskDelete data board) = findTask id' board) /\
  (obj_get "taskId" data = JUndefined ->
   handleTaskDelete data board = board).
Proof.
  split.
  - intros id Hid. unfold handleTaskDelete, findTask. rewrite Hid. simpl.
    split.
    + by rewrite !find_filter_gone.
    + intros id' Hne. by rewrite !find_filter_other.
  - intros Hu. unfold handleTaskDelete. rewrite Hu. simpl.
    apply mapColumns_id. intros l.
    induction l as [|x l IH]; simpl; [done|]. by rewrite IH.
Qed.

(** Alice with two tabs: when the first socket disconnects, her entry in
    the presence map goes although her second socket stays connected. *)
Example two_sockets_one_entry :
  let sv := fst (onConnection 1600 sock_a2 sv_online) in
  let after := fst (onDisconnect 1700 sock_a sv) in
  socketId <$> sockets after = ["sock-b"; "sock-a2"] /\
  (connectedUsers after).*1 = [bob_id].
Proof. split; vm_compute; reflexivity. Qed.

(** A task moved to the done column leaves the todo column; a task with a
    status the board does not know stops [loadTasks]. *)
Example handleTaskUpdate_moves :
  handleTaskUpdate (mkBoardTask t1_id "Ship release" "done" 0 false None)
    (mkBoard [mkBoardTask t1_id "Ship release" "todo" 3 false None;
              mkBoardTask t2_id "Write notes" "todo" 1 false None]
       [] [mkBoardTask "x" "Old" "done" 2 false None])
  = Some (mkBoard [mkBoardTask t2_id "Write notes" "todo" 1 false None] []
            [mkBoardTask t1_id "Ship release" "done" 0 false None;
             mkBoardTask "x" "Old" "done" 2 false None]).
Proof. vm_compute. reflexivity. Qed.

Example loadTasks_unknown_status :
  loadTasks [mkBoardTask t1_id "Ship release" "parked" 4 false None] = None.
Proof. vm_compute. reflexivity. Qed.
